(** * Arcadia: the VeoPayment escrow contract and the off-chain payment
      reconciler

    A shallow embedding of
    - [contracts/VeoPayment.sol] (module [VeoPayment]),
    - the payment operations of [lib/prisma.ts] (module [prisma]),
    - the status read path of [app/api/payments/request/route.ts] (module
      [RequestRoute]) and the handler of
      [app/api/payments/webhook/route.ts] (module [WebhookRoute]),
    followed by the properties of the payment life cycle. *)

From Stdlib Require Import ZArith Ascii String List Bool Lia.
From stdpp Require Import base option gmap strings pretty.
Import ListNotations.

Local Open Scope string_scope.
Local Open Scope list_scope.
Local Open Scope Z_scope.

(** ** Solidity values *)

(** [uint256] values are integers in [0, 2^256); Solidity 0.8 arithmetic is
    checked, an overflow reverts the call. *)
Definition MAX_UINT256 : Z := 2 ^ 256 - 1.

Definition checked_add (a b : Z) : option Z :=
  if a + b <=? MAX_UINT256 then Some (a + b) else None.

(** Addresses are 160-bit integers, [address(0)] is [0]. *)
Definition address := Z.

Module VeoPayment.

Inductive PaymentTier := BASIC | PREMIUM | ENTERPRISE.

Definition tier_eqb (a b : PaymentTier) : bool :=
  match a, b with
  | BASIC, BASIC | PREMIUM, PREMIUM | ENTERPRISE, ENTERPRISE => true
  | _, _ => false
  end.

Record Payment := mkPayment {
  payer : address;
  amount : Z;
  tier : PaymentTier;
  paymentId : string;
  completed : bool;
  timestamp : Z
}.

(** The value a [mapping(string => Payment)] holds at a key never written. *)
Definition zeroPayment : Payment := mkPayment 0 0 BASIC "" false 0.

Inductive Event :=
| PaymentReceived (payer : address) (paymentId : string) (amount : Z)
                  (tier : PaymentTier) (timestamp : Z)
| PaymentRefunded (payer : address) (paymentId : string) (amount : Z)
| TierPriceUpdated (tier : PaymentTier) (newPrice : Z)
| Paused (account : address)
| Unpaused (account : address)
| OwnershipTransferred (previousOwner newOwner : address).

(** Storage of the contract, with the state of the inherited [Ownable] and
    [Pausable] and the ether balance of the contract's address. The
    reentrancy flag of [ReentrancyGuard] is not a field: calls are modelled
    as whole transactions, at whose start and end the flag is clear. *)
Record State := mkState {
  payments : gmap string Payment;
  tierPrices : PaymentTier -> Z;
  userPaymentCount : gmap Z Z;
  paymentIds : list string;
  totalPaymentsReceived : Z;
  totalAmountCollected : Z;
  treasuryWallet : address;
  refundWindow : Z;
  owner : address;
  paused : bool;
  balance : Z
}.

(** What a call sees of its transaction: [msg.sender], [msg.value],
    [block.timestamp], and whether the recipient of the ether the call sends
    out (treasury, payer or owner) accepts it. [address_balance] is read by
    the constructor only: the ether that the address of the contract holds
    before the contract is created at it, since an address can be sent
    ether before it has code. *)
Record Env := mkEnv {
  msg_sender : address;
  msg_value : Z;
  block_timestamp : Z;
  recipient_accepts : bool;
  address_balance : Z
}.

(** A call either commits a new state and its events, or reverts: a revert
    leaves the storage and the balances as they were before the call. *)
Inductive result :=
| Ok (st : State) (evs : list Event)
| Revert (reason : string).

Definition payments_at (st : State) (id : string) : Payment :=
  default zeroPayment (payments st !! id).

Definition userPaymentCount_at (st : State) (a : address) : Z :=
  default 0 (userPaymentCount st !! a).

Definition set_tierPrice (f : PaymentTier -> Z) (t : PaymentTier) (p : Z)
  : PaymentTier -> Z :=
  fun t' => if tier_eqb t' t then p else f t'.

(** [address.call{value: v}("")] from a contract holding [bal]: it fails when
    the balance is short or the recipient rejects the ether. *)
Definition call_value (e : Env) (bal v : Z) : bool :=
  (v <=? bal) && recipient_accepts e.

Definition hours : Z := 3600.

(** constructor(address _treasuryWallet): not payable, so a creation that
    carries ether reverts; the balance of the new contract is what its
    address held before. *)
Definition constructor (e : Env) (_treasuryWallet : address) : result :=
  if negb (msg_value e =? 0) then Revert "non-payable"
  else if _treasuryWallet =? 0 then Revert "Invalid treasury wallet"
  else Ok {| payments := ∅;
             tierPrices :=
               set_tierPrice
                 (set_tierPrice
                    (set_tierPrice (fun _ => 0) BASIC 5000000000000000)
                    PREMIUM 10000000000000000)
                 ENTERPRISE 25000000000000000;
             userPaymentCount := ∅;
             paymentIds := [];
             totalPaymentsReceived := 0;
             totalAmountCollected := 0;
             treasuryWallet := _treasuryWallet;
             refundWindow := 24 * hours;
             owner := msg_sender e;
             paused := false;
             balance := address_balance e |}
          [OwnershipTransferred 0 (msg_sender e)].

(** function processPayment(string paymentId, PaymentTier tier)
      external payable nonReentrant whenNotPaused *)
Definition processPayment (st : State) (e : Env)
           (paymentId : string) (tier : PaymentTier) : result :=
  if paused st then Revert "Pausable: paused"
  else if negb (0 <? Z.of_nat (String.length paymentId))
  then Revert "Invalid payment ID"
  else if negb (msg_value e =? tierPrices st tier)
  then Revert "Incorrect payment amount"
  else if negb (payer (payments_at st paymentId) =? 0)
  then Revert "Payment ID already exists"
  else
    match checked_add (userPaymentCount_at st (msg_sender e)) 1,
          checked_add (totalPaymentsReceived st) 1,
          checked_add (totalAmountCollected st) (msg_value e) with
    | Some count', Some received', Some collected' =>
        (* the attached value is part of the balance during the call *)
        if negb (call_value e (balance st + msg_value e) (msg_value e))
        then Revert "Treasury transfer failed"
        else
          Ok {| payments :=
                  <[paymentId :=
                      {| payer := msg_sender e;
                         amount := msg_value e;
                         tier := tier;
                         paymentId := paymentId;
                         completed := true;
                         timestamp := block_timestamp e |}]> (payments st);
                tierPrices := tierPrices st;
                userPaymentCount :=
                  <[msg_sender e := count']> (userPaymentCount st);
                paymentIds := paymentIds st ++ [paymentId];
                totalPaymentsReceived := received';
                totalAmountCollected := collected';
                treasuryWallet := treasuryWallet st;
                refundWindow := refundWindow st;
                owner := owner st;
                paused := paused st;
                balance := balance st + msg_value e - msg_value e |}
             [PaymentReceived (msg_sender e) paymentId (msg_value e) tier
                              (block_timestamp e)]
    | _, _, _ => Revert "Panic(0x11)"
    end.

(** function requestRefund(string paymentId) external nonReentrant *)
Definition requestRefund (st : State) (e : Env) (paymentId : string)
  : result :=
  if negb (msg_value e =? 0) then Revert "non-payable"
  else
    let payment := payments_at st paymentId in
    if negb (payer payment =? msg_sender e) then Revert "Not your payment"
    else if negb (completed payment) then Revert "Payment not completed"
    else
      match checked_add (timestamp payment) (refundWindow st) with
      | None => Revert "Panic(0x11)"
      | Some deadline =>
          if negb (block_timestamp e <=? deadline)
          then Revert "Refund window expired"
          else
            let refundAmount := amount payment in
            if negb (call_value e (balance st) refundAmount)
            then Revert "Refund transfer failed"
            else
              Ok {| payments :=
                      <[paymentId :=
                          {| payer := payer payment;
                             amount := amount payment;
                             tier := tier payment;
                             paymentId := VeoPayment.paymentId payment;
                             completed := false;
                             timestamp := timestamp payment |}]>
                        (payments st);
                    tierPrices := tierPrices st;
                    userPaymentCount := userPaymentCount st;
                    paymentIds := paymentIds st;
                    totalPaymentsReceived := totalPaymentsReceived st;
                    totalAmountCollected := totalAmountCollected st;
                    treasuryWallet := treasuryWallet st;
                    refundWindow := refundWindow st;
                    owner := owner st;
                    paused := paused st;
                    balance := balance st - refundAmount |}
                 [PaymentRefunded (msg_sender e) paymentId refundAmount]
      end.

Definition with_tierPrices (st : State) (f : PaymentTier -> Z) : State :=
  {| payments := payments st; tierPrices := f;
     userPaymentCount := userPaymentCount st; paymentIds := paymentIds st;
     totalPaymentsReceived := totalPaymentsReceived st;
     totalAmountCollected := totalAmountCollected st;
     treasuryWallet := treasuryWallet st; refundWindow := refundWindow st;
     owner := owner st; paused := paused st; balance := balance st |}.

Definition with_treasuryWallet (st : State) (a : address) : State :=
  {| payments := payments st; tierPrices := tierPrices st;
     userPaymentCount := userPaymentCount st; paymentIds := paymentIds st;
     totalPaymentsReceived := totalPaymentsReceived st;
     totalAmountCollected := totalAmountCollected st;
     treasuryWallet := a; refundWindow := refundWindow st;
     owner := owner st; paused := paused st; balance := balance st |}.

Definition with_refundWindow (st : State) (w : Z) : State :=
  {| payments := payments st; tierPrices := tierPrices st;
     userPaymentCount := userPaymentCount st; paymentIds := paymentIds st;
     totalPaymentsReceived := totalPaymentsReceived st;
     totalAmountCollected := totalAmountCollected st;
     treasuryWallet := treasuryWallet st; refundWindow := w;
     owner := owner st; paused := paused st; balance := balance st |}.

Definition with_owner (st : State) (a : address) : State :=
  {| payments := payments st; tierPrices := tierPrices st;
     userPaymentCount := userPaymentCount st; paymentIds := paymentIds st;
     totalPaymentsReceived := totalPaymentsReceived st;
     totalAmountCollected := totalAmountCollected st;
     treasuryWallet := treasuryWallet st; refundWindow := refundWindow st;
     owner := a; paused := paused st; balance := balance st |}.

Definition with_paused (st : State) (b : bool) : State :=
  {| payments := payments st; tierPrices := tierPrices st;
     userPaymentCount := userPaymentCount st; paymentIds := paymentIds st;
     totalPaymentsReceived := totalPaymentsReceived st;
     totalAmountCollected := totalAmountCollected st;
     treasuryWallet := treasuryWallet st; refundWindow := refundWindow st;
     owner := owner st; paused := b; balance := balance st |}.

Definition with_balance (st : State) (b : Z) : State :=
  {| payments := payments st; tierPrices := tierPrices st;
     userPaymentCount := userPaymentCount st; paymentIds := paymentIds st;
     totalPaymentsReceived := totalPaymentsReceived st;
     totalAmountCollected := totalAmountCollected st;
     treasuryWallet := treasuryWallet st; refundWindow := refundWindow st;
     owner := owner st; paused := paused st; balance := b |}.

(** The owner-only functions are not payable and carry [onlyOwner]. *)
Definition onlyOwner (st : State) (e : Env) (body : result) : result :=
  if negb (msg_value e =? 0) then Revert "non-payable"
  else if negb (owner st =? msg_sender e)
  then Revert "Ownable: caller is not the owner"
  else body.

(** function updateTierPrice(PaymentTier tier, uint256 newPrice) *)
Definition updateTierPrice (st : State) (e : Env)
           (tier : PaymentTier) (newPrice : Z) : result :=
  onlyOwner st e
    (if negb (0 <? newPrice) then Revert "Price must be greater than 0"
     else Ok (with_tierPrices st (set_tierPrice (tierPrices st) tier newPrice))
             [TierPriceUpdated tier newPrice]).

(** function updateTreasuryWallet(address newTreasury) *)
Definition updateTreasuryWallet (st : State) (e : Env)
           (newTreasury : address) : result :=
  onlyOwner st e
    (if newTreasury =? 0 then Revert "Invalid treasury address"
     else Ok (with_treasuryWallet st newTreasury) []).

(** function updateRefundWindow(uint256 newWindow) *)
Definition updateRefundWindow (st : State) (e : Env) (newWindow : Z)
  : result :=
  onlyOwner st e
    (if negb (0 <? newWindow) then Revert "Window must be greater than 0"
     else Ok (with_refundWindow st newWindow) []).

(** function pause() / function unpause() *)
Definition pause (st : State) (e : Env) : result :=
  onlyOwner st e
    (if paused st then Revert "Pausable: paused"
     else Ok (with_paused st true) [Paused (msg_sender e)]).

Definition unpause (st : State) (e : Env) : result :=
  onlyOwner st e
    (if negb (paused st) then Revert "Pausable: not paused"
     else Ok (with_paused st false) [Unpaused (msg_sender e)]).

(** function emergencyWithdraw() *)
Definition emergencyWithdraw (st : State) (e : Env) : result :=
  onlyOwner st e
    (if negb (0 <? balance st) then Revert "No balance to withdraw"
     else if negb (call_value e (balance st) (balance st))
     then Revert "Emergency withdrawal failed"
     else Ok (with_balance st 0) []).

(** Inherited from [Ownable]. *)
Definition transferOwnership (st : State) (e : Env) (newOwner : address)
  : result :=
  onlyOwner st e
    (if newOwner =? 0 then Revert "Ownable: new owner is the zero address"
     else Ok (with_owner st newOwner)
             [OwnershipTransferred (owner st) newOwner]).

Definition renounceOwnership (st : State) (e : Env) : result :=
  onlyOwner st e
    (Ok (with_owner st 0) [OwnershipTransferred (owner st) 0]).

(** The view functions. *)
Definition getPayment (st : State) (paymentId : string)
  : address * Z * PaymentTier * bool * Z :=
  let payment := payments_at st paymentId in
  (payer payment, amount payment, tier payment, completed payment,
   timestamp payment).

Definition getUserPaymentCount (st : State) (user : address) : Z :=
  userPaymentCount_at st user.

Definition getTierPrice (st : State) (tier : PaymentTier) : Z :=
  tierPrices st tier.

Definition getTotalPayments (st : State) : Z :=
  Z.of_nat (length (paymentIds st)).

(** *** Transactions and their sequences *)

Inductive Call :=
| ProcessPayment (paymentId : string) (tier : PaymentTier)
| RequestRefund (paymentId : string)
| UpdateTierPrice (tier : PaymentTier) (newPrice : Z)
| UpdateTreasuryWallet (newTreasury : address)
| UpdateRefundWindow (newWindow : Z)
| Pause
| Unpause
| EmergencyWithdraw
| TransferOwnership (newOwner : address)
| RenounceOwnership.

Definition exec (st : State) (e : Env) (c : Call) : result :=
  match c with
  | ProcessPayment id t => processPayment st e id t
  | RequestRefund id => requestRefund st e id
  | UpdateTierPrice t p => updateTierPrice st e t p
  | UpdateTreasuryWallet a => updateTreasuryWallet st e a
  | UpdateRefundWindow w => updateRefundWindow st e w
  | Pause => pause st e
  | Unpause => unpause st e
  | EmergencyWithdraw => emergencyWithdraw st e
  | TransferOwnership a => transferOwnership st e a
  | RenounceOwnership => renounceOwnership st e
  end.

Definition succeeds (r : result) : bool :=
  match r with Ok _ _ => true | Revert _ => false end.

(** The state after a transaction: the committed one, or the old one when
    the call reverted. *)
Definition step (st : State) (tx : Env * Call) : State :=
  match exec st (fst tx) (snd tx) with
  | Ok st' _ => st'
  | Revert _ => st
  end.

Definition run (st : State) (txs : list (Env * Call)) : State :=
  fold_left step txs st.

Definition is_processPayment (id : string) (c : Call) : bool :=
  match c with
  | ProcessPayment id' _ => String.eqb id' id
  | _ => false
  end.

(** How many [processPayment] calls for [id] succeed along [txs]. *)
Fixpoint paid_count (id : string) (st : State) (txs : list (Env * Call))
  : nat :=
  match txs with
  | [] => 0%nat
  | tx :: txs' =>
      ((if is_processPayment id (snd tx)
           && succeeds (exec st (fst tx) (snd tx))
        then 1 else 0)
       + paid_count id (step st tx) txs')%nat
  end.

(** No transaction is signed by [address(0)]. *)
Definition signed (txs : list (Env * Call)) : Prop :=
  Forall (fun tx => msg_sender (fst tx) <> 0) txs.

End VeoPayment.

(** ** JavaScript values *)

(** A computation returns a value or throws. *)
Inductive js (A : Type) : Type :=
| Return (a : A)
| Throw (message : string).
Arguments Return {A} a.
Arguments Throw {A} message.

(** Strings stand for their UTF-8 bytes, so [Buffer.from s] is [s] itself and
    its byte length is [String.length s]. [Date] values are milliseconds since
    the epoch. *)

(** A string that may be [null] or [undefined] is truthy when it is present
    and not empty: [nonempty s] is the string then, [None] when [!s] holds. *)
Definition nonempty (s : option string) : option string :=
  match s with
  | Some s => if String.eqb s "" then None else Some s
  | None => None
  end.

(** ** lib/prisma.ts: the payment table *)

Module prisma.

Inductive PaymentStatus :=
| PENDING | PROCESSING | COMPLETED | FAILED | EXPIRED | REFUNDED.

Definition status_eqb (a b : PaymentStatus) : bool :=
  match a, b with
  | PENDING, PENDING | PROCESSING, PROCESSING | COMPLETED, COMPLETED
  | FAILED, FAILED | EXPIRED, EXPIRED | REFUNDED, REFUNDED => true
  | _, _ => false
  end.

(** The columns of a brief that the payment queries select. *)
Record Brief := mkBrief {
  id : string;
  hook : string;
  brief_brandId : string
}.

(** A row of the payment table, with the columns the payment operations and
    the two routes read or write. For [currency] and [network], [None] is
    the column's default. *)
Record Payment := mkPayment {
  paymentId : string;
  briefId : option string;
  brandId : string;
  creatorId : option string;
  amount : string;
  currency : option string;
  network : option string;
  paymentUrl : option string;
  expiresAt : option Z;
  memo : option string;
  status : PaymentStatus;
  createdAt : Z;
  completedAt : option Z;
  transactionHash : option string;
  blockNumber : option Z;
  gasUsed : option Z
}.

(** The database: payments by their unique [paymentId], briefs by [id]. *)
Record DB := mkDB {
  payment_table : gmap string Payment;
  brief_table : gmap string Brief
}.

(** A member of a JavaScript object that is typed as optional: it is
    absent or [undefined], or it is [null], as a parsed JSON text can have
    it, or it holds a value. *)
Inductive field (A : Type) :=
| Undefined
| Null
| Value (a : A).

Arguments Undefined {A}.
Arguments Null {A}.
Arguments Value {A} a.

(** The [data] of an update: a field left [undefined] is not written. For
    the three transaction columns, which come from the caller, a member
    that is [null] writes NULL. *)
Record PaymentUpdate := mkPaymentUpdate {
  set_status : option PaymentStatus;
  set_completedAt : option Z;
  set_transactionHash : field string;
  set_blockNumber : field Z;
  set_gasUsed : field Z
}.

(** What a column holds after an update with the member [new]. *)
Definition write {A} (new : field A) (old : option A) : option A :=
  match new with
  | Undefined => old
  | Null => None
  | Value v => Some v
  end.

Definition or_keep {A} (new : option A) (old : option A) : option A :=
  match new with
  | Some v => Some v
  | None => old
  end.

Definition apply_update (row : Payment) (data : PaymentUpdate) : Payment :=
  {| paymentId := paymentId row;
     briefId := briefId row;
     brandId := brandId row;
     creatorId := creatorId row;
     amount := amount row;
     currency := currency row;
     network := network row;
     paymentUrl := paymentUrl row;
     expiresAt := expiresAt row;
     memo := memo row;
     status := default (status row) (set_status data);
     createdAt := createdAt row;
     completedAt := or_keep (set_completedAt data) (completedAt row);
     transactionHash := write (set_transactionHash data) (transactionHash row);
     blockNumber := write (set_blockNumber data) (blockNumber row);
     gasUsed := write (set_gasUsed data) (gasUsed row) |}.

Module payment.

(** [prisma.payment.update({ where: { paymentId }, data })]: the promise
    rejects when no row has this [paymentId], otherwise the row is
    rewritten and returned. *)
Definition update (db : DB) (paymentId : string) (data : PaymentUpdate)
  : js (DB * Payment) :=
  match payment_table db !! paymentId with
  | None => Throw "Record to update not found."
  | Some row =>
      let row' := apply_update row data in
      Return ({| payment_table := <[paymentId := row']> (payment_table db);
                 brief_table := brief_table db |}, row')
  end.

(** [prisma.payment.findUnique({ where: { paymentId } })]: [null] when no
    row has this [paymentId]. *)
Definition findUnique (db : DB) (paymentId : string) : option Payment :=
  payment_table db !! paymentId.

(** [prisma.payment.create({ data })]: the promise rejects when the unique
    [paymentId] is taken. *)
Definition create (db : DB) (row : Payment) : js (DB * Payment) :=
  match payment_table db !! prisma.paymentId row with
  | Some _ => Throw "Unique constraint failed on the fields: (`paymentId`)"
  | None =>
      Return ({| payment_table :=
                   <[prisma.paymentId row := row]> (payment_table db);
                 brief_table := brief_table db |}, row)
  end.

End payment.

(** The [include: { brief: ... }] of the payment queries. *)
Definition include_brief (db : DB) (row : Payment) : option Brief :=
  match briefId row with
  | Some b => brief_table db !! b
  | None => None
  end.

Record TransactionData := mkTransactionData {
  td_transactionHash : field string;
  td_blockNumber : field Z;
  td_gasUsed : field Z
}.

(** A member of [...transactionData]: the spread of [undefined] has none. *)
Definition spread {A} (transactionData : option TransactionData)
           (member : TransactionData -> field A) : field A :=
  match transactionData with
  | Some data => member data
  | None => Undefined
  end.

Record CreateRequestData := mkCreateRequestData {
  cr_paymentId : string;
  cr_briefId : option string;
  cr_brandId : string;
  cr_creatorId : option string;
  cr_amount : string;
  cr_currency : option string;
  cr_network : option string;
  cr_paymentUrl : option string;
  cr_expiresAt : option Z;
  cr_memo : option string
}.

(** Modelled from the spec: the default of the [status] column, declared in
    the Prisma schema, which is not among the sources; the request
    generator "persists a PENDING record". *)
Definition default_status : PaymentStatus := PENDING.

Module paymentOperations.

(** async createRequest(data) *)
Definition createRequest (db : DB) (now : Z) (data : CreateRequestData)
  : js (DB * Payment) :=
  payment.create db
    {| paymentId := cr_paymentId data;
       briefId := cr_briefId data;
       brandId := cr_brandId data;
       creatorId := cr_creatorId data;
       amount := cr_amount data;
       currency := cr_currency data;
       network := cr_network data;
       paymentUrl := cr_paymentUrl data;
       expiresAt := cr_expiresAt data;
       memo := cr_memo data;
       status := default_status;
       createdAt := now;
       completedAt := None;
       transactionHash := None;
       blockNumber := None;
       gasUsed := None |}.

(** async updateStatus(paymentId, status, transactionData?) *)
Definition updateStatus (db : DB) (now : Z) (paymentId : string)
           (status : PaymentStatus)
           (transactionData : option TransactionData)
  : js (DB * Payment) :=
  payment.update db paymentId
    {| set_status := Some status;
       set_completedAt :=
         if status_eqb status COMPLETED then Some now else None;
       set_transactionHash := spread transactionData td_transactionHash;
       set_blockNumber := spread transactionData td_blockNumber;
       set_gasUsed := spread transactionData td_gasUsed |}.

(** async getByPaymentId(paymentId) *)
Definition getByPaymentId (db : DB) (paymentId : string)
  : option (Payment * option Brief) :=
  match payment.findUnique db paymentId with
  | Some row => Some (row, include_brief db row)
  | None => None
  end.

End paymentOperations.

End prisma.

(** ** app/api/payments/request/route.ts: the status read path *)

Module RequestRoute.
Import prisma.

Inductive Body :=
| ErrorBody (error : string) (details : option string)
| StatusBody (paymentId : string) (status : PaymentStatus) (amount : string)
             (currency network : option string) (createdAt : Z)
             (expiresAt completedAt : option Z)
             (transactionHash : option string)
             (brief : option (string * string * string)).

Record Response := mkResponse {
  http_status : Z;
  body : Body
}.

(** export async function GET(request): [paymentId] is the query parameter,
    [None] when the URL has none. The handler reads no clock. The query of
    the model does not fail, so the [catch] branch, which answers 500, has no
    counterpart. *)
Definition GET (db : DB) (paymentId : option string) : Response :=
  match nonempty paymentId with
  | None => mkResponse 400 (ErrorBody "Payment ID is required" None)
  | Some paymentId =>
      match paymentOperations.getByPaymentId db paymentId with
      | None => mkResponse 404 (ErrorBody "Payment not found" None)
      | Some (payment, brief) =>
          mkResponse 200
            (StatusBody (prisma.paymentId payment) (prisma.status payment)
               (prisma.amount payment) (prisma.currency payment)
               (prisma.network payment) (prisma.createdAt payment)
               (prisma.expiresAt payment) (prisma.completedAt payment)
               (prisma.transactionHash payment)
               (match brief with
                | Some b => Some (id b, hook b, "generated")
                | None => None
                end))
      end
  end.

(** The [status] field of a response, when it has one. *)
Definition reported_status (r : Response) : option PaymentStatus :=
  match body r with
  | StatusBody _ s _ _ _ _ _ _ _ _ => Some s
  | ErrorBody _ _ => None
  end.

End RequestRoute.

(** ** app/api/payments/webhook/route.ts: the reconciler *)

Module WebhookRoute.
Import prisma.

(** [crypto.timingSafeEqual(a, b)] throws when the byte lengths differ. *)
Definition timingSafeEqual (a b : string) : js bool :=
  if Nat.eqb (String.length a) (String.length b)
  then Return (String.eqb a b)
  else Throw "Input buffers must have the same byte length".

(** The parsed payload. [paymentId] and [status] are what the handler tests
    for presence; [status] ranges over the values the payment table
    accepts. The three transaction members are handed on as they are,
    [null] included. *)
Record X402WebhookPayload := mkPayload {
  paymentId : option string;
  status : option PaymentStatus;
  transactionHash : field string;
  blockNumber : field Z;
  gasUsed : field Z;
  amount : string;
  currency : string;
  network : string;
  timestamp : string;
  merchantId : string
}.

Record Request := mkRequest {
  rawBody : string;
  x_x402_signature : option string
}.

Inductive Body :=
| ErrorBody (error : string) (details : option string)
| SuccessBody (paymentId : string) (status : PaymentStatus) (timestamp : Z).

Record Response := mkResponse {
  http_status : Z;
  body : Body
}.

(** What the handler does besides writing the payment table. *)
Inductive Effect :=
| ConsoleError (message : string)
| ConsoleLog (message : string)
| FetchGenerate (briefId : string) (brandId : string).

Definition is_trigger (e : Effect) : bool :=
  match e with
  | FetchGenerate _ _ => true
  | _ => false
  end.

(** The number of calls of the generation endpoint among the effects. *)
Definition triggers (es : list Effect) : nat :=
  length (filter (fun e => is_trigger e = true) es).

Section Handler.

(** [crypto.createHmac('sha256', secret).update(payload).digest('hex')] *)
Variable hmac_sha256_hex : string -> string -> string.

(** [JSON.parse], followed by the reading of the payload's fields. *)
Variable JSON_parse : string -> js X402WebhookPayload.

(** The answer of the generation endpoint to the call for a brief:
    [response.ok], or a network failure. *)
Variable fetch_generate : string -> string -> js bool.

(** function verifyX402Signature(payload, signature, secret) *)
Definition verifyX402Signature (payload signature secret : string)
  : js bool :=
  let expectedSignature := hmac_sha256_hex secret payload in
  timingSafeEqual signature expectedSignature.

Definition failed (db : DB) (effects : list Effect) (error : string)
  : DB * list Effect * Response :=
  (db, effects ++ [ConsoleError "Webhook processing error:"],
   mkResponse 500 (ErrorBody "Webhook processing failed" (Some error))).

(** export async function POST(request), run at time [now] with
    [process.env.X402_WEBHOOK_SECRET = webhookSecret] on the database
    [db]: the database afterwards, the effects in order, the response. *)
Definition POST (webhookSecret : option string) (db : DB) (now : Z)
           (request : Request) : DB * list Effect * Response :=
  match nonempty (x_x402_signature request), nonempty webhookSecret with
  | Some signature, Some webhookSecret =>
      match verifyX402Signature (rawBody request) signature
              webhookSecret with
      | Throw m => failed db [] m
      | Return false =>
          (db, [ConsoleError "Invalid webhook signature"],
           mkResponse 401 (ErrorBody "Invalid signature" None))
      | Return true =>
          match JSON_parse (rawBody request) with
          | Throw m => failed db [] m
          | Return payload =>
              let received := [ConsoleLog "X402 webhook received:"] in
              match nonempty (paymentId payload), status payload with
              | Some id, Some st =>
                  match paymentOperations.updateStatus db now id st
                          (Some {| td_transactionHash :=
                                     transactionHash payload;
                                   td_blockNumber := blockNumber payload;
                                   td_gasUsed := gasUsed payload |}) with
                  | Throw m => failed db received m
                  | Return (db', updatedPayment) =>
                      (* [updatedPayment] is a row, never [null]: the
                         branch [if (!updatedPayment)], which answers 404
                         'Payment not found', is not taken *)
                      let generation :=
                        match status_eqb st COMPLETED,
                              nonempty (briefId updatedPayment) with
                        | true, Some b =>
                            FetchGenerate b (brandId updatedPayment)
                            :: match fetch_generate b
                                       (brandId updatedPayment) with
                               | Return true =>
                                   [ConsoleLog "Veo prompt generated successfully for payment:"]
                               | Return false =>
                                   [ConsoleError "Failed to generate Veo prompt after payment:"]
                               | Throw _ =>
                                   [ConsoleError "Error triggering Veo prompt generation:"]
                               end
                        | _, _ => []
                        end in
                      (db', received ++ generation,
                       mkResponse 200 (SuccessBody id st now))
                  end
              | _, _ =>
                  (db, received,
                   mkResponse 400
                     (ErrorBody "Invalid webhook payload" None))
              end
          end
      end
  | _, _ =>
      (db, [ConsoleError "Missing webhook signature or secret"],
       mkResponse 400 (ErrorBody "Invalid webhook configuration" None))
  end.

(** Deliveries handled one after the other, each at its own time. *)
Fixpoint deliver (webhookSecret : option string) (db : DB)
         (deliveries : list (Z * Request))
  : DB * list Effect * list Response :=
  match deliveries with
  | [] => (db, [], [])
  | (now, request) :: rest =>
      let '(db1, effects1, response) := POST webhookSecret db now request in
      let '(db2, effects2, responses) := deliver webhookSecret db1 rest in
      (db2, effects1 ++ effects2, response :: responses)
  end.

End Handler.

End WebhookRoute.

(** ** Specification vocabulary *)

Module Spec.
Import prisma.

(** Terminal status, in the words of the specification's glossary. *)
Definition terminal (s : PaymentStatus) : bool :=
  match s with
  | COMPLETED | FAILED | EXPIRED | REFUNDED => true
  | PENDING | PROCESSING => false
  end.

(** The transition graph of the specification's state machine:
    PENDING to PROCESSING; PENDING or PROCESSING to COMPLETED or FAILED;
    PENDING to EXPIRED; COMPLETED to REFUNDED; nothing else. *)
Definition legal_transition (from to : PaymentStatus) : bool :=
  match from, to with
  | PENDING, PROCESSING
  | PENDING, COMPLETED | PROCESSING, COMPLETED
  | PENDING, FAILED | PROCESSING, FAILED
  | PENDING, EXPIRED
  | COMPLETED, REFUNDED => true
  | _, _ => false
  end.

(** The stored status of a payment. *)
Definition stored_status (db : DB) (paymentId : string)
  : option PaymentStatus :=
  status <$> payment_table db !! paymentId.

(** A sequence of status updates of one payment, each at its own time; it
    stops at the first update that throws. *)
Fixpoint update_all (db : DB) (paymentId : string)
         (updates : list (Z * PaymentStatus * option TransactionData))
  : js DB :=
  match updates with
  | [] => Return db
  | (now, s, td) :: rest =>
      match paymentOperations.updateStatus db now paymentId s td with
      | Throw m => Throw m
      | Return (db', _) => update_all db' paymentId rest
      end
  end.

(** The request carries the digest of its raw body under the configured
    secret. *)
Definition authentic (hmac_sha256_hex : string -> string -> string)
           (webhookSecret : option string) (request : WebhookRoute.Request)
  : bool :=
  match nonempty (WebhookRoute.x_x402_signature request),
        nonempty webhookSecret with
  | Some signature, Some secret =>
      String.eqb signature
        (hmac_sha256_hex secret (WebhookRoute.rawBody request))
  | _, _ => false
  end.

(** The row that [updateStatus] writes for a payload at time [now]. *)
Definition updated (row : Payment) (now : Z) (s : PaymentStatus)
           (td : option TransactionData) : Payment :=
  apply_update row
    {| set_status := Some s;
       set_completedAt := if status_eqb s COMPLETED then Some now else None;
       set_transactionHash := spread td td_transactionHash;
       set_blockNumber := spread td td_blockNumber;
       set_gasUsed := spread td td_gasUsed |}.

Definition with_row (db : DB) (paymentId : string) (row : Payment) : DB :=
  {| payment_table := <[paymentId := row]> (payment_table db);
     brief_table := brief_table db |}.

Definition transaction_of (payload : WebhookRoute.X402WebhookPayload)
  : option TransactionData :=
  Some {| td_transactionHash := WebhookRoute.transactionHash payload;
          td_blockNumber := WebhookRoute.blockNumber payload;
          td_gasUsed := WebhookRoute.gasUsed payload |}.

(** How many generation calls one delivery of a status makes for a row. *)
Definition triggers_of (s : PaymentStatus) (row : Payment) : nat :=
  match status_eqb s COMPLETED, nonempty (briefId row) with
  | true, Some _ => 1%nat
  | _, _ => 0%nat
  end.

(** Mapping the committed state of a contract call. *)
Definition on_state (f : VeoPayment.State -> VeoPayment.State)
           (r : VeoPayment.result) : VeoPayment.result :=
  match r with
  | VeoPayment.Ok st evs => VeoPayment.Ok (f st) evs
  | VeoPayment.Revert reason => VeoPayment.Revert reason
  end.

Import VeoPayment.

(** The state a successful [processPayment] commits. *)
Definition recorded (st : State) (e : Env) (id : string) (t : PaymentTier)
  : State :=
  {| payments :=
       <[id := mkPayment (msg_sender e) (msg_value e) t id true
                         (block_timestamp e)]> (payments st);
     tierPrices := tierPrices st;
     userPaymentCount :=
       <[msg_sender e := userPaymentCount_at st (msg_sender e) + 1]>
         (userPaymentCount st);
     paymentIds := paymentIds st ++ [id];
     totalPaymentsReceived := totalPaymentsReceived st + 1;
     totalAmountCollected := totalAmountCollected st + msg_value e;
     treasuryWallet := treasuryWallet st;
     refundWindow := refundWindow st;
     owner := owner st;
     paused := paused st;
     balance := balance st + msg_value e - msg_value e |}.

(** The conditions under which [processPayment] goes through. *)
Definition payable_now (st : State) (e : Env) (id : string)
           (t : PaymentTier) : Prop :=
  paused st = false
  /\ id <> ""
  /\ msg_value e = getTierPrice st t
  /\ payer (payments_at st id) = 0
  /\ userPaymentCount_at st (msg_sender e) + 1 <= MAX_UINT256
  /\ totalPaymentsReceived st + 1 <= MAX_UINT256
  /\ totalAmountCollected st + msg_value e <= MAX_UINT256
  /\ 0 <= balance st
  /\ recipient_accepts e = true.


(** The three administrative setters. *)
Definition is_update (c : Call) : bool :=
  match c with
  | UpdateTierPrice _ _ | UpdateTreasuryWallet _ | UpdateRefundWindow _ =>
      true
  | _ => false
  end.

(** The refund condition of the specification. *)
Definition refundable (st : State) (e : Env) (id : string) : Prop :=
  block_timestamp e <= timestamp (payments_at st id) + refundWindow st
  /\ msg_sender e = payer (payments_at st id).

End Spec.

(** ** Concrete data for the scenarios *)

Module Scenario.

(** *** On chain *)

Definition deployer : address := 0xD0.
Definition treasury : address := 0x7EA5.
Definition alice : address := 0xA11CE.
Definition bob : address := 0xB0B.

(** A transaction whose recipients accept the ether sent to them; when it
    creates the contract, the address held no ether before. *)
Definition tx (sender : address) (value now : Z) : VeoPayment.Env :=
  VeoPayment.mkEnv sender value now true 0.

(** The state a call commits, [otherwise] when it reverts. *)
Definition committed (r : VeoPayment.result) (otherwise : VeoPayment.State)
  : VeoPayment.State :=
  match r with
  | VeoPayment.Ok st _ => st
  | VeoPayment.Revert _ => otherwise
  end.

(** The contract as deployed by [deployer] with [treasury], at time 1000,
    at an address that held no ether. *)
Definition deployed : VeoPayment.State :=
  committed (VeoPayment.constructor (tx deployer 0 1000) treasury)
            (VeoPayment.mkState ∅ (fun _ => 0) ∅ [] 0 0 0 0 0 false 0).

Definition basic_price : Z := 5000000000000000.

(** Alice pays the BASIC tier at time 2000. *)
Definition alice_pays : VeoPayment.Env * VeoPayment.Call :=
  (tx alice basic_price 2000,
   VeoPayment.ProcessPayment "pay_001" VeoPayment.BASIC).

Definition paid : VeoPayment.State := VeoPayment.step deployed alice_pays.

(** The same, with the contract's address holding the ether of one refund.
    The payment itself went to the treasury, and no function of the contract
    receives ether to keep: what [requestRefund] pays out has reached the
    address from outside. *)
Definition paid_funded : VeoPayment.State :=
  VeoPayment.with_balance paid basic_price.

(** Bob then pays the same price under the same id, at time 3000. *)
Definition bob_reuses_id : VeoPayment.Env * VeoPayment.Call :=
  (tx bob basic_price 3000,
   VeoPayment.ProcessPayment "pay_001" VeoPayment.BASIC).

(** Alice asks for her refund one hour after paying. *)
Definition refund_after_1h : VeoPayment.Env := tx alice 0 (2000 + 3600).

(** The owner shortens the refund window to one minute, at time 3000. *)
Definition shorten_window : VeoPayment.Env * VeoPayment.Call :=
  (tx deployer 0 3000, VeoPayment.UpdateRefundWindow 60).

(** *** Off chain *)

Import prisma.

(** JSON text written with apostrophes in place of the double quotes. *)
Fixpoint json_text (s : string) : string :=
  match s with
  | EmptyString => EmptyString
  | String c rest =>
      String (if Ascii.eqb c "'"%char then Ascii.ascii_of_nat 34 else c)
             (json_text rest)
  end.

Definition webhook_secret : string := "whsec_arcadia_test".

(** The completion webhook for payment [pay_001]. *)
Definition completed_body : string :=
  json_text "{'paymentId':'pay_001','status':'COMPLETED','transactionHash':'0xabc','blockNumber':100,'gasUsed':21000,'amount':'5000000000000000','currency':'ETH','network':'scroll-sepolia','timestamp':'2025-01-01T00:00:00.000Z','merchantId':'arcadia'}".

Definition completed_payload : WebhookRoute.X402WebhookPayload :=
  {| WebhookRoute.paymentId := Some "pay_001";
     WebhookRoute.status := Some COMPLETED;
     WebhookRoute.transactionHash := Value "0xabc";
     WebhookRoute.blockNumber := Value 100;
     WebhookRoute.gasUsed := Value 21000;
     WebhookRoute.amount := "5000000000000000";
     WebhookRoute.currency := "ETH";
     WebhookRoute.network := "scroll-sepolia";
     WebhookRoute.timestamp := "2025-01-01T00:00:00.000Z";
     WebhookRoute.merchantId := "arcadia" |}.

Definition zero_digest : string :=
  "0000000000000000000000000000000000000000000000000000000000000000".

(** HMAC-SHA256 in hexadecimal: the digest of [completed_body] under
    [webhook_secret]; for the other inputs, which no scenario signs, a
    stand-in of a digest's length. *)
Definition hmac_sha256_hex (secret payload : string) : string :=
  if String.eqb secret webhook_secret && String.eqb payload completed_body
  then "07c912d47aa89cfa000efe75ca58362bdf45c1b5ce122a2b420f8bd2bdd08ef3"
  else zero_digest.

(** [JSON.parse] on the bodies of the scenarios. *)
Definition JSON_parse (text : string) : js WebhookRoute.X402WebhookPayload :=
  if String.eqb text completed_body then Return completed_payload
  else Throw "Unexpected token in JSON".

(** The generation endpoint answers 200. *)
Definition fetch_generate (briefId brandId : string) : js bool :=
  Return true.

Definition POST :=
  WebhookRoute.POST hmac_sha256_hex JSON_parse fetch_generate
    (Some webhook_secret).

Definition deliver :=
  WebhookRoute.deliver hmac_sha256_hex JSON_parse fetch_generate
    (Some webhook_secret).

(** The signed completion webhook. *)
Definition completion : WebhookRoute.Request :=
  {| WebhookRoute.rawBody := completed_body;
     WebhookRoute.x_x402_signature :=
       Some "07c912d47aa89cfa000efe75ca58362bdf45c1b5ce122a2b420f8bd2bdd08ef3" |}.

(** The same webhook under a signature of 8 bytes, and under an empty
    one. *)
Definition short_signature : WebhookRoute.Request :=
  {| WebhookRoute.rawBody := completed_body;
     WebhookRoute.x_x402_signature := Some "deadbeef" |}.

Definition empty_signature : WebhookRoute.Request :=
  {| WebhookRoute.rawBody := completed_body;
     WebhookRoute.x_x402_signature := Some "" |}.

(** The same webhook under 64 hexadecimal digits that are not its digest,
    and with no signature header. *)
Definition forged_signature : WebhookRoute.Request :=
  {| WebhookRoute.rawBody := completed_body;
     WebhookRoute.x_x402_signature := Some zero_digest |}.

Definition no_signature : WebhookRoute.Request :=
  {| WebhookRoute.rawBody := completed_body;
     WebhookRoute.x_x402_signature := None |}.

Definition minutes : Z := 60 * 1000.

(** The time of the request, 2025-01-01T00:00:00Z. *)
Definition t0 : Z := 1735689600000.

Definition no_payments : DB :=
  {| payment_table := ∅;
     brief_table := {[ "brief_1" := mkBrief "brief_1" "hook" "brand_1" ]} |}.

(** A request for [pay_001] made at [t0], expiring 30 minutes later. *)
Definition request_data : CreateRequestData :=
  {| cr_paymentId := "pay_001";
     cr_briefId := Some "brief_1";
     cr_brandId := "brand_1";
     cr_creatorId := None;
     cr_amount := "5000000000000000";
     cr_currency := Some "ETH";
     cr_network := Some "scroll-sepolia";
     cr_paymentUrl := Some "https://api.x402.protocol/payments/pay_001";
     cr_expiresAt := Some (t0 + 30 * minutes);
     cr_memo := None |}.

Definition db_of (r : js (DB * Payment)) (otherwise : DB) : DB :=
  match r with
  | Return (db, _) => db
  | Throw _ => otherwise
  end.

(** The row of that request. *)
Definition requested_row : Payment :=
  {| paymentId := "pay_001";
     briefId := Some "brief_1";
     brandId := "brand_1";
     creatorId := None;
     amount := "5000000000000000";
     currency := Some "ETH";
     network := Some "scroll-sepolia";
     paymentUrl := Some "https://api.x402.protocol/payments/pay_001";
     expiresAt := Some (t0 + 30 * minutes);
     memo := None;
     status := PENDING;
     createdAt := t0;
     completedAt := None;
     transactionHash := None;
     blockNumber := None;
     gasUsed := None |}.

Definition requested : DB :=
  db_of (paymentOperations.createRequest no_payments t0 request_data)
        no_payments.

(** The same payment after a failure was recorded at [t0 + 5 minutes]. *)
Definition failed : DB :=
  db_of (paymentOperations.updateStatus requested (t0 + 5 * minutes)
           "pay_001" FAILED None)
        requested.

End Scenario.

(** ** app/api/payments/request/route.ts: the creation of a request *)

Module RequestRoutePost.
Import prisma.

(** The declared values of [promptType]. *)
Inductive PromptType := basic_prompt | premium_prompt | enterprise_prompt.

Definition promptType_text (p : PromptType) : string :=
  match p with
  | basic_prompt => "basic_prompt"
  | premium_prompt => "premium_prompt"
  | enterprise_prompt => "enterprise_prompt"
  end.

(** const PAYMENT_AMOUNTS, in wei *)
Definition PAYMENT_AMOUNTS (p : PromptType) : string :=
  match p with
  | basic_prompt => "5000000000000000"
  | premium_prompt => "10000000000000000"
  | enterprise_prompt => "25000000000000000"
  end.

(** The key of [PAYMENT_AMOUNTS] that a text names, if any. *)
Definition declared (key : string) : option PromptType :=
  if String.eqb key "basic_prompt" then Some basic_prompt
  else if String.eqb key "premium_prompt" then Some premium_prompt
  else if String.eqb key "enterprise_prompt" then Some enterprise_prompt
  else None.

(** The names that [PAYMENT_AMOUNTS], an object literal, inherits from
    [Object.prototype]: [PAYMENT_AMOUNTS[name]] is then a function or an
    object, which is truthy and is not an amount. *)
Definition inherited (key : string) : bool :=
  existsb (String.eqb key)
    ["constructor"; "hasOwnProperty"; "isPrototypeOf";
     "propertyIsEnumerable"; "toLocaleString"; "toString"; "valueOf";
     "__proto__"; "__defineGetter__"; "__defineSetter__";
     "__lookupGetter__"; "__lookupSetter__"].

(** const X402_PAYMENT_CONFIG; [X402_PAYMENT_URL] is the environment
    variable of that name. *)
Definition config_network : string := "scroll-sepolia".
Definition config_currency : string := "ETH".
Definition config_paymentUrl (X402_PAYMENT_URL : option string) : string :=
  match nonempty X402_PAYMENT_URL with
  | Some url => url
  | None => "https://api.x402.protocol/payments"
  end.

(** The parsed body; a member is [None] when the body has none. *)
Record PaymentRequestBody := mkBody {
  briefId : option string;
  brandId : option string;
  promptType : option string;
  memo : option string;
  callbackUrl : option string
}.

Inductive Body :=
| ErrorBody (error : string) (details : option string)
| CreatedBody (paymentId paymentUrl amount currency network : string)
              (expiresAt : Z) (qrCode : string) (status : PaymentStatus).

Record Response := mkResponse {
  http_status : Z;
  body : Body
}.

Section Handler.

(** [LocalTZA(t, isUTC)] of ECMAScript: the offset of the server's time
    zone from UTC, in milliseconds, at the time value [t] when [isUTC]
    holds, and at the local time [t] otherwise. *)
Variable LocalTZA : Z -> bool -> Z.

Definition msPerHour : Z := 3600000.

(** [LocalTime(t)] and [UTC(t)] *)
Definition LocalTime (t : Z) : Z := t + LocalTZA t true.

Definition UTC (t : Z) : Z := t - LocalTZA t false.

(** [TimeClip(time)]: a date further than 8.64e15 milliseconds from the
    epoch is invalid, [None]. *)
Definition TimeClip (time : Z) : option Z :=
  if Z.abs time <=? 8640000000000000 then Some time else None.

(** [d.setHours(d.getHours() + h)] on the date [d]: the hour of the local
    time of [d] is moved by [h] hours, its minutes, seconds and milliseconds
    are kept, and the local time so made is read back as a time value. *)
Definition add_hours (d h : Z) : option Z :=
  TimeClip (UTC (LocalTime d + h * msPerHour)).

(** The message of the validation error of [prisma.payment.create] for an
    [amount] that is not a string. *)
Variable validation_error : string.

(** export async function POST(request), run at time [now] on the database
    [db]; [uuid] is what [uuidv4()] returns and [json] what
    [request.json()] gives. The list of instructions of the answer, a
    constant, is left out. *)
Definition POST (X402_PAYMENT_URL : option string) (db : DB) (now : Z)
           (uuid : string) (json : js PaymentRequestBody) : DB * Response :=
  match json with
  | Throw m =>
      (db, mkResponse 500 (ErrorBody "Failed to create payment request"
                                     (Some m)))
  | Return body =>
      match nonempty (brandId body) with
      | None => (db, mkResponse 400 (ErrorBody "Brand ID is required" None))
      | Some brand =>
          let invalid :=
            (db, mkResponse 400
                   (ErrorBody "Valid prompt type is required (basic_prompt, premium_prompt, enterprise_prompt)"
                              None)) in
          match nonempty (promptType body) with
          | None => invalid
          | Some key =>
          match declared key with
          | None =>
              if inherited key
              then
                (* the amount is a function or an object: the request is
                   built, and the creation of the row is rejected *)
                match add_hours now 24 with
                | None =>
                    (db, mkResponse 500
                           (ErrorBody "Failed to create payment request"
                                      (Some "Invalid time value")))
                | Some _ =>
                    (db, mkResponse 500
                           (ErrorBody "Failed to create payment request"
                                      (Some validation_error)))
                end
              else invalid
          | Some type =>
              let paymentId := uuid in
              let amount := PAYMENT_AMOUNTS type in
              match add_hours now 24 with
              | None =>
                  (* [expiresAt.toISOString()] throws on an invalid date *)
                  (db, mkResponse 500
                         (ErrorBody "Failed to create payment request"
                                    (Some "Invalid time value")))
              | Some expiresAt =>
              let memo :=
                match nonempty (memo body) with
                | Some m => m
                | None =>
                    ("Veo prompt generation - " ++ key)%string
                end in
              let paymentUrl :=
                (config_paymentUrl X402_PAYMENT_URL ++ "/" ++ paymentId)%string
              in
              match paymentOperations.createRequest db now
                      {| cr_paymentId := paymentId;
                         cr_briefId := briefId body;
                         cr_brandId := brand;
                         cr_creatorId := None;
                         cr_amount := amount;
                         cr_currency := Some config_currency;
                         cr_network := Some config_network;
                         cr_paymentUrl := Some paymentUrl;
                         cr_expiresAt := Some expiresAt;
                         cr_memo := Some memo |} with
              | Throw m =>
                  (db, mkResponse 500
                         (ErrorBody "Failed to create payment request"
                                    (Some m)))
              | Return (db', _) =>
                  (db', mkResponse 201
                          (CreatedBody paymentId paymentUrl amount
                             config_currency config_network expiresAt
                             (paymentUrl ++ "?format=qr")%string PENDING))
              end
              end
          end
          end
      end
  end.

End Handler.

End RequestRoutePost.

(** ** components/payments/paymentStatusTracker.tsx: the time left *)

Module PaymentStatusTracker.

(** [s.padStart(2, '0')] *)
Definition padStart2 (s : string) : string :=
  match String.length s with
  | O => "00"
  | S O => ("0" ++ s)%string
  | _ => s
  end.

(** const getTimeRemaining, with [Date.now() = now]; [expiresAt] is the
    time the payment's [expiresAt] denotes, [None] when the payment has
    none. The answer [null] is [None]. Numbers print in decimal. *)
Definition getTimeRemaining (expiresAt : option Z) (now : Z)
  : option string :=
  match expiresAt with
  | None => None
  | Some expires =>
      let remaining := expires - now in
      if remaining <=? 0 then Some "Expired"
      else
        let minutes := remaining / 60000 in
        let seconds := (remaining mod 60000) / 1000 in
        Some (pretty minutes ++ ":" ++ padStart2 (pretty seconds))%string
  end.

End PaymentStatusTracker.

(** ** hooks/usePaymentStatus: the polling of the status *)

Module usePaymentStatus.
Import prisma.

(** What [setError] is given: [HTTP <status>: <statusText>], the message of
    a failed fetch, or the polling timeout. *)
Inductive HookError :=
| HttpError (status : Z)
| FetchError (message : string)
| PollingTimeout.

(** The state of the hook. [payment] is the body last received. *)
Record State := mkState {
  payment : option RequestRoute.Body;
  isLoading : bool;
  error : option HookError;
  isPolling : bool;
  pollingStartTime : option Z
}.

Record Options := mkOptions {
  paymentId : option string;
  pollingInterval : Z;
  maxPollingDuration : Z
}.

(** The defaults: every 3 seconds, for 5 minutes. *)
Definition default_options (paymentId : option string) : Options :=
  mkOptions paymentId 3000 300000.

(** What a handler does besides setting state. *)
Inductive Effect :=
| Fetch (paymentId : string)
| OnStatusChange (status : option PaymentStatus)
| OnSuccess
| OnFailure
| OnExpired
| ConsoleError
| ConsoleWarn.

(** [payment?.status] *)
Definition status_of (payment : option RequestRoute.Body)
  : option PaymentStatus :=
  match payment with
  | Some (RequestRoute.StatusBody _ s _ _ _ _ _ _ _ _) => Some s
  | _ => None
  end.

(** [response.ok] *)
Definition ok (r : RequestRoute.Response) : bool :=
  (200 <=? RequestRoute.http_status r) && (RequestRoute.http_status r <=? 299).

Definition option_status_eqb (a b : option PaymentStatus) : bool :=
  match a, b with
  | Some a, Some b => status_eqb a b
  | None, None => true
  | _, _ => false
  end.

(** const fetchPaymentStatus, given what the fetch of the status URL
    yields: the state afterwards, the effects, and whether the promise
    rejects. *)
Definition fetchPaymentStatus (o : Options) (st : State)
           (fetched : js RequestRoute.Response)
  : State * list Effect * bool :=
  match nonempty (paymentId o) with
  | None => (st, [], false)
  | Some id =>
      let failed (e : HookError) :=
        ({| payment := payment st; isLoading := isLoading st;
            error := Some e; isPolling := isPolling st;
            pollingStartTime := pollingStartTime st |},
         [Fetch id; ConsoleError], true) in
      match fetched with
      | Throw m => failed (FetchError m)
      | Return response =>
          if negb (ok response)
          then failed (HttpError (RequestRoute.http_status response))
          else
            let paymentData := RequestRoute.body response in
            let previousStatus := status_of (payment st) in
            let status := status_of (Some paymentData) in
            let changed :=
              match previousStatus with
              | Some _ =>
                  if option_status_eqb previousStatus status then []
                  else [OnStatusChange status]
              | None => []
              end in
            let '(polling, called) :=
              match status with
              | Some COMPLETED => (false, [OnSuccess])
              | Some FAILED => (false, [OnFailure])
              | Some EXPIRED => (false, [OnExpired])
              | _ => (isPolling st, [])
              end in
            ({| payment := Some paymentData; isLoading := isLoading st;
                error := None; isPolling := polling;
                pollingStartTime := pollingStartTime st |},
             Fetch id :: changed ++ called, false)
      end
  end.

(** The status values at which the polling effect stops. *)
Definition stops_polling (s : option PaymentStatus) : bool :=
  match s with
  | Some COMPLETED | Some FAILED | Some EXPIRED => true
  | _ => false
  end.

(** const poll, of the polling effect, run at time [now]; the effect is
    installed only while [isPolling] holds and there is a [paymentId].
    [st] is the state that the closure of the poll holds, and the state
    returned is the one after the request is answered, nothing else having
    set the state in between. *)
Definition poll (o : Options) (st : State) (now : Z)
           (fetched : js RequestRoute.Response) : State * list Effect :=
  match nonempty (paymentId o) with
  | None => (st, [])
  | Some _ =>
      if negb (isPolling st) then (st, [])
      else if match pollingStartTime st with
              | Some start =>
                  negb (start =? 0) && (maxPollingDuration o <? now - start)
              | None => false
              end
      then ({| payment := payment st; isLoading := isLoading st;
               error := Some PollingTimeout; isPolling := false;
               pollingStartTime := pollingStartTime st |}, [])
      else if stops_polling (status_of (payment st))
      then ({| payment := payment st; isLoading := isLoading st;
               error := error st; isPolling := false;
               pollingStartTime := pollingStartTime st |}, [])
      else
        let '(st', effects, rejected) := fetchPaymentStatus o st fetched in
        (st', effects ++ if rejected then [ConsoleWarn] else [])
  end.

(** const startPolling, run at time [now], and const stopPolling *)
Definition startPolling (o : Options) (st : State) (now : Z) : State :=
  match nonempty (paymentId o) with
  | None => st
  | Some _ =>
      if isPolling st then st
      else {| payment := payment st; isLoading := isLoading st;
              error := error st; isPolling := true;
              pollingStartTime := Some now |}
  end.

Definition stopPolling (st : State) : State :=
  {| payment := payment st; isLoading := isLoading st; error := error st;
     isPolling := false; pollingStartTime := None |}.

(** The effect that starts the polling of a pending payment, run at time
    [now]. Its dependencies are [payment?.status] and [startPolling], which
    is made anew when [isPolling] changes. *)
Definition autoStart (o : Options) (st : State) (now : Z) : State :=
  match status_of (payment st) with
  | Some PENDING | Some PROCESSING => startPolling o st now
  | _ => st
  end.

(** The callbacks among the effects. *)
Definition is_callback (e : Effect) : bool :=
  match e with
  | OnSuccess | OnFailure | OnExpired => true
  | _ => false
  end.

Definition callbacks (es : list Effect) : list Effect :=
  filter (fun e => is_callback e = true) es.

Definition is_fetch (e : Effect) : bool :=
  match e with
  | Fetch _ => true
  | _ => false
  end.

Definition fetches (es : list Effect) : nat :=
  length (filter (fun e => is_fetch e = true) es).

End usePaymentStatus.

(** ** lib/openai.ts: validation and scoring of a generated prompt *)

Module openai.

(** The texts of a prompt are JavaScript strings, sequences of UTF-16 code
    units: [length] counts the units and [trim] removes white space and
    line terminators at both ends. *)
Definition jsstring := list Z.

Definition length_of (s : jsstring) : Z := Z.of_nat (length s).

Definition is_space (c : Z) : bool :=
  (c =? 9) || (c =? 10) || (c =? 11) || (c =? 12) || (c =? 13)
  || (c =? 32) || (c =? 160) || (c =? 5760)
  || ((8192 <=? c) && (c <=? 8202))
  || (c =? 8232) || (c =? 8233) || (c =? 8239) || (c =? 8287)
  || (c =? 12288) || (c =? 65279).

Fixpoint trimStart (s : jsstring) : jsstring :=
  match s with
  | c :: rest => if is_space c then trimStart rest else s
  | [] => []
  end.

Definition trimEnd (s : jsstring) : jsstring := rev (trimStart (rev s)).

Definition trim (s : jsstring) : jsstring := trimEnd (trimStart s).

(** The code units of a text written in ASCII. *)
Fixpoint units (s : string) : jsstring :=
  match s with
  | EmptyString => []
  | String c rest => Z.of_nat (nat_of_ascii c) :: units rest
  end.

(** A text of the parsed answer is [None] when the answer has none. *)

(** function validateMainPrompt(prompt) *)
Definition validateMainPrompt (prompt : option jsstring) : js jsstring :=
  match prompt with
  | None =>
      Throw "Main prompt too short - needs detailed scene description"
  | Some prompt =>
      if (length_of prompt =? 0) || (length_of prompt <? 50)
      then Throw "Main prompt too short - needs detailed scene description"
      else if 500 <? length_of prompt
      then Throw "Main prompt too long - Veo 3.1 works best with concise prompts under 500 characters"
      else Return (trim prompt)
  end.

(** The shape of the five other validators. *)
Definition at_least (minimum : Z) (message : string)
           (text : option jsstring) : js jsstring :=
  match text with
  | None => Throw message
  | Some text =>
      if (length_of text =? 0) || (length_of text <? minimum)
      then Throw message
      else Return (trim text)
  end.

(** function validateVisualStyle(style) *)
Definition validateVisualStyle : option jsstring -> js jsstring :=
  at_least 10 "Visual style description too short".

(** function validateCameraWork(cameraWork) *)
Definition validateCameraWork : option jsstring -> js jsstring :=
  at_least 10 "Camera work description needed for proper video generation".

(** function validateLighting(lighting) *)
Definition validateLighting : option jsstring -> js jsstring :=
  at_least 5 "Lighting description required".

(** function validateCharacters(characters) *)
Definition validateCharacters : option jsstring -> js jsstring :=
  at_least 10
    "Character description needed for realistic human generation".

(** function validateProductPlacement(placement) *)
Definition validateProductPlacement : option jsstring -> js jsstring :=
  at_least 10
    "Product placement description required for advertising effectiveness".

(** The declared type of a generated prompt. *)
Record TechnicalSpecs := mkTechnicalSpecs {
  duration : jsstring;
  aspectRatio : jsstring;
  fps : jsstring
}.

(** [Omit<GeneratedVeoPrompt, 'id' | 'qualityScore'>] *)
Record VeoPrompt := mkVeoPrompt {
  mainPrompt : jsstring;
  visualStyle : jsstring;
  cameraWork : jsstring;
  lighting : jsstring;
  characters : jsstring;
  productPlacement : jsstring;
  technicalSpecs : TechnicalSpecs;
  optimizationTips : list jsstring
}.

(** A number of a parsed JSON text, as the double it is read as:
    [mantissa] times 2 to the [exponent], or an infinity when the literal is
    out of range. *)
Inductive number :=
| Finite (mantissa exponent : Z)
| Infinite (negative : bool).

(** What [JSON.parse] gives: a value of any kind. An object is the list of
    its members, each key once. *)
#[warnings="-register-all"]
Inductive json :=
| JNull
| JBoolean (b : bool)
| JNumber (n : number)
| JString (text : jsstring)
| JArray (items : list json)
| JObject (members : list (string * json)).

(** [ToBoolean]: what [!v] and [v || ...] test. *)
Definition truthy (v : json) : bool :=
  match v with
  | JNull => false
  | JBoolean b => b
  | JNumber (Finite mantissa _) => negb (mantissa =? 0)
  | JNumber (Infinite _) => true
  | JString text => negb (length_of text =? 0)
  | JArray _ | JObject _ => true
  end.

Fixpoint member_of (key : string) (members : list (string * json))
  : option json :=
  match members with
  | (k, v) :: rest => if String.eqb k key then Some v else member_of key rest
  | [] => None
  end.

(** [v.key] and [v?.key], for a key that no prototype defines: the member
    of an object, and [undefined], here [None], for every other value. On
    [null] the plain [v.key] throws, which its caller models. *)
Definition get (v : json) (key : string) : option json :=
  match v with
  | JObject members => member_of key members
  | _ => None
  end.

(** [parsed.technicalSpecs?.key] *)
Definition spec_of (parsed : json) (key : string) : option json :=
  match get parsed "technicalSpecs" with
  | Some specs => get specs key
  | None => None
  end.

(** [value || fallback] *)
Definition or_else (value : option json) (fallback : json) : json :=
  match value with
  | Some v => if truthy v then v else fallback
  | None => fallback
  end.

(** [x < n] and [x > n] for a number and an integer. *)
Definition below (x : number) (n : Z) : bool :=
  match x with
  | Finite mantissa exponent =>
      if 0 <=? exponent then mantissa * 2 ^ exponent <? n
      else mantissa <? n * 2 ^ (- exponent)
  | Infinite negative => negative
  end.

Definition above (x : number) (n : Z) : bool :=
  match x with
  | Finite mantissa exponent =>
      if 0 <=? exponent then n <? mantissa * 2 ^ exponent
      else n * 2 ^ (- exponent) <? mantissa
  | Infinite negative => negb negative
  end.

(** What [processVeoPromptResponse] returns at run time. The six texts are
    strings, since the validators end in [trim]; the technical
    specifications and the tips are whatever values the answer holds for
    them, strings or not, which the declared type [VeoPrompt] does not
    say. *)
Record Processed := mkProcessed {
  r_mainPrompt : jsstring;
  r_visualStyle : jsstring;
  r_cameraWork : jsstring;
  r_lighting : jsstring;
  r_characters : jsstring;
  r_productPlacement : jsstring;
  r_duration : json;
  r_aspectRatio : json;
  r_fps : json;
  r_optimizationTips : json
}.

Definition and_then {A B} (x : js A) (f : A -> js B) : js B :=
  match x with
  | Return a => f a
  | Throw m => Throw m
  end.

Section Response.

(** [JSON.parse], which throws on a text that is not JSON. *)
Variable JSON_parse : string -> js json.

(** [ToNumber] of ECMAScript on a string, and on an array or an object
    through its primitive value; [None] is NaN. *)
Variable ToNumber : json -> option number.

(** [v.length], as the number that [<] and [>] compare, for a value that is
    not a string: the number of items of an array, the member [length] of
    an object, and [undefined], here [None] as NaN is, for a boolean or a
    number. *)
Definition length_seen (v : json) : option number :=
  match v with
  | JArray items => Some (Finite (Z.of_nat (length items)) 0)
  | JObject members =>
      match member_of "length" members with
      | None => None
      | Some (JNumber n) => Some n
      | Some JNull => Some (Finite 0 0)
      | Some (JBoolean b) => Some (Finite (if b then 1 else 0) 0)
      | Some l => ToNumber l
      end
  | _ => None
  end.

(** A validator called with a member of the parsed answer. The validators
    are declared for strings but are handed whatever the answer holds. A
    member that is absent or falsy, or whose [length] is below the minimum,
    meets the first throw of the validator; a truthy value that is not a
    string and passes the checks of its [length] ends at [trim], which it
    does not have: the call throws the TypeError of the engine, here with
    the message of V8. [limit] is the maximum and the message of the second
    check, which [validateMainPrompt] alone has. *)
Definition handed (validate : option jsstring -> js jsstring)
           (parameter : string) (minimum : Z) (limit : option (Z * string))
           (v : option json) : js jsstring :=
  match v with
  | None => validate None
  | Some (JString text) => validate (Some text)
  | Some v =>
      if negb (truthy v) then validate None
      else if match length_seen v with
              | Some x => below x minimum
              | None => false
              end
      then validate None
      else
        match limit, length_seen v with
        | Some (maximum, message), Some x =>
            if above x maximum then Throw message
            else Throw (parameter ++ ".trim is not a function")%string
        | _, _ => Throw (parameter ++ ".trim is not a function")%string
        end
  end.

(** export function processVeoPromptResponse(content) *)
Definition processVeoPromptResponse (content : string) : js Processed :=
  match
    and_then (JSON_parse content) (fun parsed =>
    match parsed with
    | JNull => Throw "Cannot read properties of null (reading 'mainPrompt')"
    | _ =>
    and_then
      (handed validateMainPrompt "prompt" 50
         (Some (500, "Main prompt too long - Veo 3.1 works best with concise prompts under 500 characters"))
         (get parsed "mainPrompt")) (fun main =>
    and_then
      (handed validateVisualStyle "style" 10 None
         (get parsed "visualStyle")) (fun style =>
    and_then
      (handed validateCameraWork "cameraWork" 10 None
         (get parsed "cameraWork")) (fun camera =>
    and_then
      (handed validateLighting "lighting" 5 None
         (get parsed "lighting")) (fun light =>
    and_then
      (handed validateCharacters "characters" 10 None
         (get parsed "characters")) (fun chars =>
    and_then
      (handed validateProductPlacement "placement" 10 None
         (get parsed "productPlacement")) (fun placement =>
    Return
      {| r_mainPrompt := main;
         r_visualStyle := style;
         r_cameraWork := camera;
         r_lighting := light;
         r_characters := chars;
         r_productPlacement := placement;
         r_duration :=
           or_else (spec_of parsed "duration") (JString (units "30s"));
         r_aspectRatio :=
           or_else (spec_of parsed "aspectRatio") (JString (units "16:9"));
         r_fps := or_else (spec_of parsed "fps") (JString (units "24"));
         r_optimizationTips :=
           or_else (get parsed "optimizationTips") (JArray []) |}))))))
    end)
  with
  | Return prompt => Return prompt
  | Throw m => Throw ("Failed to parse Veo prompt response: " ++ m)%string
  end.

End Response.

Section Quality.

(** The tests of the three regular expressions: the cinematic terms, the
    realistic elements and the Veo-friendly phrases. *)
Variable cinematic : jsstring -> bool.
Variable realistic : jsstring -> bool.
Variable veoFriendly : jsstring -> bool.

Definition points (condition : bool) (n : Z) : Z :=
  if condition then n else 0.

(** function evaluateMainPrompt(mainPrompt) *)
Definition evaluateMainPrompt (mainPrompt : jsstring) : Z :=
  Z.min 30
    (points ((100 <=? length_of mainPrompt)
             && (length_of mainPrompt <=? 400)) 10
     + points (cinematic mainPrompt) 10
     + points (realistic mainPrompt) 10).

(** function evaluateTechnicalSpecs(prompt) *)
Definition evaluateTechnicalSpecs (prompt : VeoPrompt) : Z :=
  Z.min 25
    (points (20 <? length_of (cameraWork prompt)) 8
     + points (10 <? length_of (lighting prompt)) 8
     + points (20 <? length_of (characters prompt)) 9).

(** function evaluateVisualElements(prompt) *)
Definition evaluateVisualElements (prompt : VeoPrompt) : Z :=
  Z.min 25
    (points (15 <? length_of (visualStyle prompt)) 10
     + points (20 <? length_of (productPlacement prompt)) 15).

(** function evaluateVeoOptimization(prompt) *)
Definition evaluateVeoOptimization (prompt : VeoPrompt) : Z :=
  Z.min 20
    (points (veoFriendly (mainPrompt prompt)) 10
     + points (veoFriendly (visualStyle prompt)) 5
     + points (0 <? Z.of_nat (length (optimizationTips prompt))) 5).

(** export function calculateVeoPromptQuality(prompt) *)
Definition calculateVeoPromptQuality (prompt : VeoPrompt) : Z :=
  Z.min 100
    (evaluateMainPrompt (mainPrompt prompt)
     + evaluateTechnicalSpecs prompt
     + evaluateVisualElements prompt
     + evaluateVeoOptimization prompt).

(** The eleven criteria. *)
Definition criteria (prompt : VeoPrompt) : list bool :=
  [(100 <=? length_of (mainPrompt prompt))
   && (length_of (mainPrompt prompt) <=? 400);
   cinematic (mainPrompt prompt);
   realistic (mainPrompt prompt);
   20 <? length_of (cameraWork prompt);
   10 <? length_of (lighting prompt);
   20 <? length_of (characters prompt);
   15 <? length_of (visualStyle prompt);
   20 <? length_of (productPlacement prompt);
   veoFriendly (mainPrompt prompt);
   veoFriendly (visualStyle prompt);
   0 <? Z.of_nat (length (optimizationTips prompt))].

(** The points of the criteria, in the same order. *)
Definition weights : list Z := [10; 10; 10; 8; 8; 9; 10; 15; 10; 5; 5].

Fixpoint weighted (cs : list bool) (ws : list Z) : Z :=
  match cs, ws with
  | c :: cs', w :: ws' => points c w + weighted cs' ws'
  | _, _ => 0
  end.

End Quality.

End openai.

(** ** A polling hook for the scenarios *)

Module HookScenario.

(** A hook that polls since [t0] and holds the pending payment of the
    scenario, as the status route reports it. *)
Definition polling_pending : usePaymentStatus.State :=
  usePaymentStatus.mkState
    (Some (RequestRoute.body
             (RequestRoute.GET Scenario.requested (Some "pay_001"))))
    false None true (Some Scenario.t0).

End HookScenario.

(** ** The server of the scenarios *)

Module Server.

(** A server that runs on UTC. *)
Definition utc (t : Z) (isUTC : bool) : Z := 0.

(** Central European time around 26 October 2025, when the clocks go back
    from UTC+2 to UTC+1 at 01:00 UTC; a local time of the repeated hour is
    read with the offset before the change. *)
Definition central_europe (t : Z) (isUTC : bool) : Z :=
  if isUTC
  then if t <? 1761440400000 then 7200000 else 3600000
  else if t <? 1761440400000 + 7200000 then 7200000 else 3600000.

(** What stands for the text of the validation error of Prisma. *)
Definition validation_error : string :=
  "Invalid `prisma.payment.create()` invocation".

End Server.

(** ** A generated prompt for the scenarios *)

Module PromptScenario.
Import openai.

(** The content of an answer, abridged to what the scenario reads. *)
Definition content : string :=
  Scenario.json_text "{'mainPrompt':'  A wide shot of a runner lacing bright shoes at dawn, natural lighting.  ','visualStyle':'warm cinematic tones','cameraWork':'slow tracking shot from the side','lighting':'golden hour','characters':'a focused runner in her thirties','productPlacement':'shoes in the foreground throughout'}".

Definition parsed : json :=
  JObject
    [("mainPrompt",
      JString (units "  A wide shot of a runner lacing bright shoes at dawn, natural lighting.  "));
     ("visualStyle", JString (units "warm cinematic tones"));
     ("cameraWork", JString (units "slow tracking shot from the side"));
     ("lighting", JString (units "golden hour"));
     ("characters", JString (units "a focused runner in her thirties"));
     ("productPlacement",
      JString (units "shoes in the foreground throughout"))].

(** The same answer with technical specifications that are not texts: an
    empty list for the duration, the number 0 for the frame rate. *)
Definition odd_content : string :=
  Scenario.json_text "{'mainPrompt':'  A wide shot of a runner lacing bright shoes at dawn, natural lighting.  ','visualStyle':'warm cinematic tones','cameraWork':'slow tracking shot from the side','lighting':'golden hour','characters':'a focused runner in her thirties','productPlacement':'shoes in the foreground throughout','technicalSpecs':{'duration':[],'fps':0}}".

Definition odd_parsed : json :=
  match parsed with
  | JObject members =>
      JObject
        (members
         ++ [("technicalSpecs",
              JObject [("duration", JArray []);
                       ("fps", JNumber (Finite 0 0))])])
  | other => other
  end.

(** [JSON.parse] on the contents of the scenario. *)
Definition JSON_parse (text : string) : js json :=
  if String.eqb text content then Return parsed
  else if String.eqb text odd_content then Return odd_parsed
  else Throw "Unexpected token in JSON".

(** No value of the scenario has a [length] that needs a conversion. *)
Definition ToNumber (v : json) : option number := None.

(** The prompt made of the first answer. *)
Definition prompt : Processed :=
  {| r_mainPrompt :=
       units "A wide shot of a runner lacing bright shoes at dawn, natural lighting.";
     r_visualStyle := units "warm cinematic tones";
     r_cameraWork := units "slow tracking shot from the side";
     r_lighting := units "golden hour";
     r_characters := units "a focused runner in her thirties";
     r_productPlacement := units "shoes in the foreground throughout";
     r_duration := JString (units "30s");
     r_aspectRatio := JString (units "16:9");
     r_fps := JString (units "24");
     r_optimizationTips := JArray [] |}.

End PromptScenario.

(** ** Vocabulary for the payment table *)

Module Table.
Import prisma.

(** The columns of a payment that are set when the request is created. *)
Definition request_columns (row : Payment) :=
  (paymentId row, briefId row, brandId row, creatorId row, amount row,
   currency row, network row, paymentUrl row, expiresAt row, memo row,
   createdAt row).

(** The answers of the webhook handler that reject the request. *)
Definition rejected (r : WebhookRoute.Response) : Prop :=
  WebhookRoute.http_status r = 400
  \/ WebhookRoute.http_status r = 401
  \/ WebhookRoute.http_status r = 500.

End Table.

(** ** The ledger of the contract *)

Module Ledger.
Import VeoPayment.

(** What the owner-only functions govern. *)
Definition configuration (st : State)
  : Z * Z * Z * address * Z * address * bool :=
  (tierPrices st BASIC, tierPrices st PREMIUM, tierPrices st ENTERPRISE,
   treasuryWallet st, refundWindow st, owner st, paused st).

(** The functions that carry [onlyOwner]. *)
Definition is_admin (c : Call) : bool :=
  match c with
  | ProcessPayment _ _ | RequestRefund _ => false
  | _ => true
  end.

(** What the constructor and the setters require of their arguments. *)
Definition well_configured (st : State) : Prop :=
  treasuryWallet st <> 0
  /\ 0 < refundWindow st
  /\ forall t, 0 < tierPrices st t.

(** Every payment in the ledger has a positive amount. *)
Definition amounts_positive (st : State) : Prop :=
  forall id p, payments st !! id = Some p -> 0 < amount p.

(** The sum of the recorded amounts of the listed payments. *)
Fixpoint sum_amounts (st : State) (ids : list string) : Z :=
  match ids with
  | [] => 0
  | id :: ids' => amount (payments_at st id) + sum_amounts st ids'
  end.

(** How many of the listed payments were made by [a]. *)
Fixpoint paid_by (st : State) (a : address) (ids : list string) : Z :=
  match ids with
  | [] => 0
  | id :: ids' =>
      (if payer (payments_at st id) =? a then 1 else 0) + paid_by st a ids'
  end.

(** The state a successful [requestRefund] commits. *)
Definition refunded (st : State) (id : string) : State :=
  {| payments :=
       <[id := mkPayment (payer (payments_at st id))
                         (amount (payments_at st id))
                         (tier (payments_at st id))
                         (paymentId (payments_at st id))
                         false
                         (timestamp (payments_at st id))]> (payments st);
     tierPrices := tierPrices st;
     userPaymentCount := userPaymentCount st;
     paymentIds := paymentIds st;
     totalPaymentsReceived := totalPaymentsReceived st;
     totalAmountCollected := totalAmountCollected st;
     treasuryWallet := treasuryWallet st;
     refundWindow := refundWindow st;
     owner := owner st;
     paused := paused st;
     balance := balance st - amount (payments_at st id) |}.

(** The counters and the list of ids agree with the ledger. *)
Definition consistent (st : State) : Prop :=
  NoDup (paymentIds st)
  /\ (forall id, id ∈ paymentIds st <-> payer (payments_at st id) <> 0)
  /\ getTotalPayments st = totalPaymentsReceived st
  /\ totalAmountCollected st = sum_amounts st (paymentIds st)
  /\ (forall a, getUserPaymentCount st a = paid_by st a (paymentIds st)).

(** The fields of a payment that no function rewrites. *)
Definition identity (p : Payment) : address * Z * PaymentTier * string * Z :=
  (payer p, amount p, tier p, paymentId p, timestamp p).

End Ledger.

(** * Properties *)

(** ** The escrow contract *)

Module VeoPaymentProofs.
Import VeoPayment Spec.

Lemma checked_add_Some a b c :
  checked_add a b = Some c <-> a + b <= MAX_UINT256 /\ c = a + b.
Proof.
  unfold checked_add. destruct (Z.leb_spec (a + b) MAX_UINT256).
  - split; [intros [= <-]; auto | intros [_ ->]; reflexivity].
  - split; [discriminate | intros [? _]; lia].
Qed.

Lemma checked_add_None a b :
  checked_add a b = None <-> MAX_UINT256 < a + b.
Proof.
  unfold checked_add. destruct (Z.leb_spec (a + b) MAX_UINT256).
  - split; [discriminate | lia].
  - split; auto.
Qed.

Lemma nonempty_length (s : string) :
  (0 <? Z.of_nat (String.length s)) = true <-> s <> "".
Proof.
  destruct s; simpl; split; intro H; try congruence; try discriminate.
  apply Z.ltb_lt. lia.
Qed.

Lemma processPayment_Ok st e id t st' evs :
  processPayment st e id t = Ok st' evs ->
  payable_now st e id t /\ st' = recorded st e id t.
Proof.
  unfold processPayment, payable_now, getTierPrice, call_value.
  destruct (paused st) eqn:Hp; [discriminate |].
  destruct (0 <? Z.of_nat (String.length id)) eqn:Hid; [| discriminate].
  destruct (Z.eqb_spec (msg_value e) (tierPrices st t)); [| discriminate].
  destruct (Z.eqb_spec (payer (payments_at st id)) 0); [| discriminate].
  simpl.
  destruct (checked_add (userPaymentCount_at st (msg_sender e)) 1)
    as [c1 |] eqn:H1; [| discriminate].
  destruct (checked_add (totalPaymentsReceived st) 1)
    as [c2 |] eqn:H2; [| discriminate].
  destruct (checked_add (totalAmountCollected st) (msg_value e))
    as [c3 |] eqn:H3; [| discriminate].
  apply checked_add_Some in H1, H2, H3.
  destruct H1 as [? ->], H2 as [? ->], H3 as [? ->].
  destruct (Z.leb_spec (msg_value e) (balance st + msg_value e));
    [| discriminate].
  destruct (recipient_accepts e); [| discriminate].
  simpl. intros [= <- _].
  apply nonempty_length in Hid.
  repeat split; auto; try lia.
  unfold recorded. rewrite Hp. reflexivity.
Qed.

Lemma processPayment_payable st e id t :
  payable_now st e id t ->
  processPayment st e id t
  = Ok (recorded st e id t)
       [PaymentReceived (msg_sender e) id (msg_value e) t
                        (block_timestamp e)].
Proof.
  unfold payable_now, getTierPrice.
  intros (Hp & Hid & Hv & Hpay & H1 & H2 & H3 & Hb & Hacc).
  unfold processPayment, call_value.
  rewrite Hp. apply nonempty_length in Hid. rewrite Hid. simpl.
  rewrite <- Hv, Z.eqb_refl, Hpay. simpl.
  unfold checked_add.
  destruct (Z.leb_spec (userPaymentCount_at st (msg_sender e) + 1)
              MAX_UINT256); [| lia].
  destruct (Z.leb_spec (totalPaymentsReceived st + 1) MAX_UINT256); [| lia].
  destruct (Z.leb_spec (totalAmountCollected st + msg_value e) MAX_UINT256);
    [| lia].
  destruct (Z.leb_spec (msg_value e) (balance st + msg_value e)); [| lia].
  rewrite Hacc. unfold recorded. rewrite Hp. reflexivity.
Qed.

Lemma processPayment_Revert_unless_payable st e id t :
  ~ payable_now st e id t ->
  exists reason, processPayment st e id t = Revert reason.
Proof.
  intros Hn. destruct (processPayment st e id t) as [st' evs | reason] eqn:H.
  - apply processPayment_Ok in H. tauto.
  - eauto.
Qed.

Lemma step_Revert st e c reason :
  exec st e c = Revert reason -> step st (e, c) = st.
Proof. unfold step. simpl. intros ->. reflexivity. Qed.

(** The state a successful [requestRefund] commits. *)
Lemma requestRefund_Ok st e id st' evs :
  requestRefund st e id = Ok st' evs ->
  let payment := payments_at st id in
  msg_value e = 0
  /\ payer payment = msg_sender e
  /\ completed payment = true
  /\ timestamp payment + refundWindow st <= MAX_UINT256
  /\ block_timestamp e <= timestamp payment + refundWindow st
  /\ amount payment <= balance st
  /\ recipient_accepts e = true
  /\ payments st'
     = <[id := mkPayment (payer payment) (amount payment) (tier payment)
                         (paymentId payment) false (timestamp payment)]>
         (payments st)
  /\ tierPrices st' = tierPrices st
  /\ refundWindow st' = refundWindow st.
Proof.
  unfold requestRefund, call_value. cbv zeta.
  destruct (Z.eqb_spec (msg_value e) 0); [| discriminate].
  destruct (Z.eqb_spec (payer (payments_at st id)) (msg_sender e));
    [| discriminate].
  destruct (completed (payments_at st id)); [| discriminate].
  simpl.
  destruct (checked_add _ _) as [deadline |] eqn:Hd; [| discriminate].
  apply checked_add_Some in Hd. destruct Hd as [? ->].
  destruct (Z.leb_spec (block_timestamp e)
              (timestamp (payments_at st id) + refundWindow st));
    [| discriminate].
  destruct (Z.leb_spec (amount (payments_at st id)) (balance st));
    [| discriminate].
  destruct (recipient_accepts e); [| discriminate].
  simpl. intros [= <- _]. simpl. repeat split; auto.
Qed.

(** Once a payer is recorded under an id, no transaction changes it. *)
Lemma step_keeps_payer st tx id :
  payer (payments_at st id) <> 0 ->
  payer (payments_at (step st tx) id) = payer (payments_at st id).
Proof.
  intros Hrec. destruct tx as [e c]. unfold step. simpl.
  destruct (exec st e c) as [st' evs |] eqn:Hexec; [| reflexivity].
  destruct c; simpl in Hexec;
    try (unfold updateTierPrice, updateTreasuryWallet, updateRefundWindow,
           pause, unpause, emergencyWithdraw, transferOwnership,
           renounceOwnership, onlyOwner in Hexec;
         repeat case_match; simplify_eq; reflexivity).
  - (* processPayment *)
    apply processPayment_Ok in Hexec. destruct Hexec as [Hpay ->].
    destruct Hpay as (_ & _ & _ & Hfree & _).
    assert (paymentId0 <> id) by (intros ->; contradiction).
    unfold payments_at, recorded. simpl.
    rewrite lookup_insert_ne by assumption. reflexivity.
  - (* requestRefund *)
    apply requestRefund_Ok in Hexec. cbv zeta in Hexec.
    destruct Hexec as (_ & _ & _ & _ & _ & _ & _ & Hp & _).
    unfold payments_at at 1. rewrite Hp.
    destruct (decide (paymentId0 = id)) as [-> | Hne].
    + rewrite lookup_insert_eq. reflexivity.
    + rewrite lookup_insert_ne by assumption. reflexivity.
Qed.

Lemma run_keeps_payer txs st id :
  payer (payments_at st id) <> 0 ->
  payer (payments_at (run st txs) id) = payer (payments_at st id).
Proof.
  revert st. induction txs as [| tx txs IH]; intros st Hrec; [reflexivity |].
  simpl. rewrite IH; rewrite step_keeps_payer; auto.
Qed.

Lemma processPayment_records st e id t st' evs :
  processPayment st e id t = Ok st' evs ->
  payer (payments_at st' id) = msg_sender e.
Proof.
  intros H. apply processPayment_Ok in H. destruct H as [_ ->].
  unfold payments_at, recorded. simpl. rewrite lookup_insert_eq.
  reflexivity.
Qed.

Lemma processPayment_taken st e id t :
  payer (payments_at st id) <> 0 ->
  exists reason, processPayment st e id t = Revert reason.
Proof.
  intros Hrec. apply processPayment_Revert_unless_payable.
  unfold payable_now. tauto.
Qed.

Lemma is_processPayment_true id c :
  is_processPayment id c = true -> exists t, c = ProcessPayment id t.
Proof.
  destruct c; simpl; try discriminate.
  intros H. apply String.eqb_eq in H. subst. eauto.
Qed.

Lemma paid_count_taken txs st id :
  payer (payments_at st id) <> 0 -> paid_count id st txs = 0%nat.
Proof.
  revert st. induction txs as [| [e c] txs IH]; intros st Hrec;
    [reflexivity |].
  simpl. rewrite IH by (rewrite step_keeps_payer; auto).
  destruct (is_processPayment id c) eqn:Hc; [| reflexivity].
  apply is_processPayment_true in Hc. destruct Hc as [t ->]. simpl.
  destruct (processPayment_taken st e id t Hrec) as [reason ->].
  reflexivity.
Qed.

Lemma paid_count_le_1 txs st id :
  signed txs -> (paid_count id st txs <= 1)%nat.
Proof.
  revert st. induction txs as [| [e c] txs IH]; intros st Hs; simpl;
    [lia |].
  inversion Hs as [| ? ? Hsender Hs']; subst. simpl in Hsender.
  destruct (is_processPayment id c) eqn:Hc; simpl.
  - apply is_processPayment_true in Hc. destruct Hc as [t ->]. simpl.
    destruct (processPayment st e id t) as [st' evs |] eqn:Hp; simpl.
    + rewrite paid_count_taken; [lia |].
      unfold step. simpl. rewrite Hp.
      rewrite (processPayment_records _ _ _ _ _ _ Hp). assumption.
    + apply IH. assumption.
  - apply IH. assumption.
Qed.

(** *** The contract on the scenario *)

Example deployed_prices :
  getTierPrice Scenario.deployed BASIC = 5000000000000000
  /\ getTierPrice Scenario.deployed PREMIUM = 10000000000000000
  /\ getTierPrice Scenario.deployed ENTERPRISE = 25000000000000000
  /\ refundWindow Scenario.deployed = 86400.
Proof. repeat split. Qed.

Example alice_is_recorded :
  getPayment Scenario.paid "pay_001"
  = (Scenario.alice, 5000000000000000, BASIC, true, 2000)
  /\ getTotalPayments Scenario.paid = 1
  /\ getUserPaymentCount Scenario.paid Scenario.alice = 1
  /\ balance Scenario.paid = 0.
Proof. repeat split; vm_compute; reflexivity. Qed.

Example wrong_amount_reverts :
  processPayment Scenario.deployed
    (Scenario.tx Scenario.alice 4000000000000000 2000) "pay_001" BASIC
  = Revert "Incorrect payment amount".
Proof. vm_compute. reflexivity. Qed.

Example paused_contract_reverts :
  processPayment
    (step Scenario.deployed (Scenario.tx Scenario.deployer 0 1500, Pause))
    (fst Scenario.alice_pays) "pay_001" BASIC
  = Revert "Pausable: paused".
Proof. vm_compute. reflexivity. Qed.

Example alice_then_bob_counts_one :
  paid_count "pay_001" Scenario.deployed
    [Scenario.alice_pays; Scenario.bob_reuses_id] = 1%nat.
Proof. vm_compute. reflexivity. Qed.

Example refund_by_bob_reverts :
  requestRefund Scenario.paid_funded (Scenario.tx Scenario.bob 0 5600)
    "pay_001"
  = Revert "Not your payment".
Proof. vm_compute. reflexivity. Qed.

Example refund_after_25_hours_reverts :
  requestRefund Scenario.paid_funded
    (Scenario.tx Scenario.alice 0 (2000 + 25 * 3600)) "pay_001"
  = Revert "Refund window expired".
Proof. vm_compute. reflexivity. Qed.

(** The payment was forwarded to the treasury: unless funded from outside,
    the contract has nothing to refund from. *)
Example refund_without_funds_reverts :
  requestRefund Scenario.paid Scenario.refund_after_1h "pay_001"
  = Revert "Refund transfer failed".
Proof. vm_compute. reflexivity. Qed.

Example second_refund_reverts :
  requestRefund
    (step Scenario.paid_funded
          (Scenario.refund_after_1h, RequestRefund "pay_001"))
    Scenario.refund_after_1h "pay_001"
  = Revert "Payment not completed".
Proof. vm_compute. reflexivity. Qed.

(** *** Claims about the contract *)

(** C4. For every payment id, at most one [processPayment] call with that
    id succeeds along any sequence of transactions, from any state; and
    after a successful [processPayment] for the id, whatever transactions
    follow, every further [processPayment] with the id reverts and leaves
    the contract state as it is. *)
Theorem processPayment_at_most_once
        (st : State) (id : string) (txs : list (Env * Call)) :
  signed txs ->
  (paid_count id st txs <= 1)%nat
  /\ (forall e t st1 evs,
        msg_sender e <> 0 ->
        processPayment st e id t = Ok st1 evs ->
        forall e' t',
          (exists reason,
              processPayment (run st1 txs) e' id t' = Revert reason)
          /\ step (run st1 txs) (e', ProcessPayment id t') = run st1 txs).
Proof.
  intros Hs. split; [apply paid_count_le_1; assumption |].
  intros e t st1 evs Hsender Hok e' t'.
  assert (Hrec : payer (payments_at (run st1 txs) id) <> 0).
  { rewrite run_keeps_payer;
      rewrite (processPayment_records _ _ _ _ _ _ Hok); assumption. }
  destruct (processPayment_taken (run st1 txs) e' id t' Hrec)
    as [reason Hr].
  split; [eauto |]. apply (step_Revert _ _ _ reason). exact Hr.
Qed.

(** Alice pays, Bob reuses her id: one payment is counted. *)
Lemma processPayment_at_most_once_witness :
  signed [Scenario.alice_pays; Scenario.bob_reuses_id]
  /\ (paid_count "pay_001" Scenario.deployed
        [Scenario.alice_pays; Scenario.bob_reuses_id] <= 1)%nat.
Proof.
  assert (Hs : signed [Scenario.alice_pays; Scenario.bob_reuses_id]).
  { repeat constructor; simpl; discriminate. }
  split; [exact Hs |].
  exact (proj1 (processPayment_at_most_once Scenario.deployed "pay_001"
                  [Scenario.alice_pays; Scenario.bob_reuses_id] Hs)).
Defined.

(** [processPayment] goes through exactly under the conditions of
    [payable_now]. *)
Lemma processPayment_succeeds_when_payable
      (st : State) (e : Env) (id : string) (t : PaymentTier) :
  succeeds (processPayment st e id t) = true <-> payable_now st e id t.
Proof.
  split.
  - destruct (processPayment st e id t) as [st' evs |] eqn:H;
      [| discriminate].
    intros _. apply processPayment_Ok in H. tauto.
  - intros H. rewrite (processPayment_payable _ _ _ _ H). reflexivity.
Qed.

(** C5. For every tier, a [processPayment] call that meets the other
    preconditions of the operation -- the contract is not paused, the id is
    not empty and not yet used, the three counters have room and the
    treasury accepts the transfer -- succeeds if and only if the attached
    value equals [getTierPrice tier] at call time; and in every state,
    with any other attached value the call reverts and the state is
    unchanged. *)
Theorem processPayment_succeeds_iff
        (st : State) (e : Env) (id : string) (t : PaymentTier) :
  (paused st = false ->
   id <> "" ->
   payer (payments_at st id) = 0 ->
   userPaymentCount_at st (msg_sender e) + 1 <= MAX_UINT256 ->
   totalPaymentsReceived st + 1 <= MAX_UINT256 ->
   totalAmountCollected st + msg_value e <= MAX_UINT256 ->
   0 <= balance st ->
   recipient_accepts e = true ->
   (succeeds (processPayment st e id t) = true
    <-> msg_value e = getTierPrice st t))
  /\ (msg_value e <> getTierPrice st t ->
      (exists reason, processPayment st e id t = Revert reason)
      /\ step st (e, ProcessPayment id t) = st).
Proof.
  split.
  - intros Hp Hid Hfree Hcount Hreceived Hcollected Hbal Haccepts.
    rewrite processPayment_succeeds_when_payable.
    unfold payable_now. tauto.
  - intros Hv.
    destruct (processPayment_Revert_unless_payable st e id t)
      as [reason Hr]; [unfold payable_now; tauto |].
    split; [eauto |]. apply (step_Revert _ _ _ reason). exact Hr.
Qed.

(** On the freshly deployed contract Alice's payment, which carries the
    BASIC price, goes through; with one wei less it reverts. *)
Lemma processPayment_succeeds_iff_witness :
  succeeds (processPayment Scenario.deployed (fst Scenario.alice_pays)
              "pay_001" BASIC) = true
  /\ exists reason,
      processPayment Scenario.deployed
        (Scenario.tx Scenario.alice (Scenario.basic_price - 1) 2000)
        "pay_001" BASIC
      = Revert reason.
Proof.
  split.
  - apply (proj1 (processPayment_succeeds_iff Scenario.deployed
                    (fst Scenario.alice_pays) "pay_001" BASIC));
      try (vm_compute; reflexivity); try discriminate;
      vm_compute; discriminate.
  - apply (proj2 (processPayment_succeeds_iff Scenario.deployed
                    (Scenario.tx Scenario.alice (Scenario.basic_price - 1)
                                 2000)
                    "pay_001" BASIC)).
    vm_compute. discriminate.
Defined.

(** C6. [requestRefund] succeeds only when the block time is at most the
    payment's timestamp plus [refundWindow] and the caller is the payer of
    the payment; in every other case it reverts, and the state is
    unchanged. *)
Theorem requestRefund_only_payer_in_window
        (st : State) (e : Env) (id : string) :
  (succeeds (requestRefund st e id) = true -> refundable st e id)
  /\ (~ refundable st e id ->
      (exists reason, requestRefund st e id = Revert reason)
      /\ step st (e, RequestRefund id) = st).
Proof.
  assert (Hok : succeeds (requestRefund st e id) = true ->
                refundable st e id).
  { destruct (requestRefund st e id) as [st' evs |] eqn:H; [| discriminate].
    intros _. apply requestRefund_Ok in H. cbv zeta in H.
    unfold refundable. intuition congruence. }
  split; [exact Hok |].
  intros Hn. destruct (requestRefund st e id) as [st' evs | reason] eqn:H.
  - exfalso. apply Hn, Hok. reflexivity.
  - split; [eauto |]. apply (step_Revert _ _ _ reason). exact H.
Qed.

(** Alice's refund, one hour after her payment. *)
Lemma requestRefund_only_payer_in_window_witness :
  succeeds (requestRefund Scenario.paid_funded Scenario.refund_after_1h
              "pay_001") = true
  /\ refundable Scenario.paid_funded Scenario.refund_after_1h "pay_001".
Proof.
  assert (H : succeeds (requestRefund Scenario.paid_funded
                          Scenario.refund_after_1h "pay_001") = true)
    by (vm_compute; reflexivity).
  split; [exact H |].
  exact (proj1 (requestRefund_only_payer_in_window Scenario.paid_funded
                  Scenario.refund_after_1h "pay_001") H).
Defined.

Lemma requestRefund_with_tierPrices st f e id :
  requestRefund (with_tierPrices st f) e id
  = on_state (fun s => with_tierPrices s f) (requestRefund st e id).
Proof.
  unfold requestRefund, payments_at, call_value. simpl.
  repeat case_match; reflexivity.
Qed.

Lemma requestRefund_with_treasuryWallet st a e id :
  requestRefund (with_treasuryWallet st a) e id
  = on_state (fun s => with_treasuryWallet s a) (requestRefund st e id).
Proof.
  unfold requestRefund, payments_at, call_value. simpl.
  repeat case_match; reflexivity.
Qed.

(** C8, as stated, fails for [updateRefundWindow]: one hour after paying,
    Alice's refund goes through; once the owner has shortened the window to
    one minute, the same request for the same, unchanged payment reverts. *)
Lemma updateRefundWindow_changes_eligibility :
  requestRefund (step Scenario.paid_funded Scenario.shorten_window)
    Scenario.refund_after_1h "pay_001"
  = Revert "Refund window expired"
  /\ succeeds (requestRefund Scenario.paid_funded Scenario.refund_after_1h
                 "pay_001") = true
  /\ getPayment (step Scenario.paid_funded Scenario.shorten_window)
       "pay_001"
     = getPayment Scenario.paid_funded "pay_001".
Proof. repeat split; vm_compute; reflexivity. Qed.

(** C8 (amended). A successful [updateTierPrice], [updateTreasuryWallet] or
    [updateRefundWindow] is effective at once (the next call reads the new
    price, treasury or window) and changes no stored field of any recorded
    payment. After a price or treasury update [requestRefund] behaves on
    every payment as before. After [updateRefundWindow] it applies the new
    window to the payments recorded before the update too: a refund then
    succeeds only up to the payment's timestamp plus the new window. *)
Theorem updates_and_recorded_payments
        (st : State) (e : Env) (c : Call) (st' : State)
        (evs : list Event) :
  is_update c = true ->
  exec st e c = Ok st' evs ->
  (forall id, payments_at st' id = payments_at st id
              /\ getPayment st' id = getPayment st id)
  /\ match c with
     | UpdateTierPrice t p =>
         getTierPrice st' t = p
         /\ forall e' id,
             requestRefund st' e' id
             = on_state (fun s => with_tierPrices s (tierPrices st'))
                        (requestRefund st e' id)
     | UpdateTreasuryWallet a =>
         treasuryWallet st' = a
         /\ forall e' id,
             requestRefund st' e' id
             = on_state (fun s => with_treasuryWallet s a)
                        (requestRefund st e' id)
     | UpdateRefundWindow w =>
         refundWindow st' = w
         /\ forall e' id,
             succeeds (requestRefund st' e' id) = true ->
             block_timestamp e' <= timestamp (payments_at st id) + w
     | _ => True
     end.
Proof.
  intros Hc Hexec. destruct c; try discriminate; simpl in Hexec;
    unfold updateTierPrice, updateTreasuryWallet, updateRefundWindow,
      onlyOwner in Hexec;
    repeat case_match; simplify_eq;
    (split; [intros id; split; reflexivity |]).
  - split.
    + unfold getTierPrice, with_tierPrices, set_tierPrice. simpl.
      destruct tier0; reflexivity.
    + intros e' id. apply requestRefund_with_tierPrices.
  - split; [reflexivity |].
    intros e' id. apply requestRefund_with_treasuryWallet.
  - split; [reflexivity |].
    intros e' id Hok.
    destruct (requestRefund (with_refundWindow st newWindow) e' id)
      as [st1 evs1 |] eqn:Hr; [| discriminate].
    apply requestRefund_Ok in Hr. cbv zeta in Hr. simpl in Hr.
    unfold payments_at in *. simpl in Hr. tauto.
Qed.

(** The owner's update of the window leaves Alice's payment as stored. *)
Lemma updates_and_recorded_payments_witness :
  payments_at (step Scenario.paid_funded Scenario.shorten_window) "pay_001"
  = payments_at Scenario.paid_funded "pay_001".
Proof.
  assert (H : exec Scenario.paid_funded (fst Scenario.shorten_window)
                (snd Scenario.shorten_window)
              = Ok (step Scenario.paid_funded Scenario.shorten_window) [])
    by (vm_compute; reflexivity).
  exact (proj1 (proj1 (updates_and_recorded_payments
                         Scenario.paid_funded (fst Scenario.shorten_window)
                         (snd Scenario.shorten_window) _ []
                         eq_refl H) "pay_001")).
Defined.

End VeoPaymentProofs.

(** ** The off-chain reconciler *)

Module ReconcilerProofs.
Import prisma Spec.
Import paymentOperations.

(** *** The payment table *)

Lemma updateStatus_known db now id s td row :
  payment_table db !! id = Some row ->
  updateStatus db now id s td
  = Return (with_row db id (updated row now s td), updated row now s td).
Proof.
  intros H. unfold updateStatus, payment.update. rewrite H. reflexivity.
Qed.

Lemma updateStatus_unknown db now id s td :
  payment_table db !! id = None ->
  updateStatus db now id s td = Throw "Record to update not found.".
Proof.
  intros H. unfold updateStatus, payment.update. rewrite H. reflexivity.
Qed.

Lemma updated_status row now s td : status (updated row now s td) = s.
Proof. reflexivity. Qed.

Lemma stored_status_with_row db id row :
  stored_status (with_row db id row) id = Some (status row).
Proof.
  unfold stored_status, with_row. simpl. rewrite lookup_insert_eq.
  reflexivity.
Qed.

Lemma with_row_other db id row id' :
  id' <> id -> payment_table (with_row db id row) !! id' = payment_table db !! id'.
Proof.
  intros H. unfold with_row. simpl. apply lookup_insert_ne. congruence.
Qed.

(** Every update of a stored payment goes through, and the payment stays
    stored. *)
Lemma update_all_known updates :
  forall db id row,
    payment_table db !! id = Some row ->
    exists db' row',
      update_all db id updates = Return db'
      /\ payment_table db' !! id = Some row'
      /\ (updates = [] -> row' = row)
      /\ (forall id', id' <> id ->
                      payment_table db' !! id' = payment_table db !! id').
Proof.
  induction updates as [| [[now s] td] updates IH]; intros db id row Hrow.
  - exists db, row. simpl. auto.
  - simpl. rewrite (updateStatus_known _ _ _ _ _ _ Hrow).
    destruct (IH (with_row db id (updated row now s td)) id
                 (updated row now s td))
      as (db' & row' & Hrun & Hrow' & _ & Hother).
    { unfold with_row. simpl. apply lookup_insert_eq. }
    exists db', row'. repeat split; auto; [discriminate |].
    intros id' Hne. rewrite Hother by assumption.
    apply with_row_other. assumption.
Qed.

Lemma update_all_app updates1 updates2 :
  forall db id db1,
    update_all db id updates1 = Return db1 ->
    update_all db id (updates1 ++ updates2) = update_all db1 id updates2.
Proof.
  induction updates1 as [| [[now s] td] updates1 IH]; intros db id db1 H.
  - simpl in H. injection H as ->. reflexivity.
  - simpl in *.
    destruct (updateStatus db now id s td) as [[db' row'] |];
      [| discriminate].
    apply IH. assumption.
Qed.

(** *** The status read path *)

Lemma nonempty_Some id : id <> "" -> nonempty (Some id) = Some id.
Proof.
  intros H. unfold nonempty. apply String.eqb_neq in H. rewrite H.
  reflexivity.
Qed.

Lemma GET_stored db id row :
  id <> "" ->
  payment_table db !! id = Some row ->
  RequestRoute.http_status (RequestRoute.GET db (Some id)) = 200
  /\ RequestRoute.reported_status (RequestRoute.GET db (Some id))
     = Some (status row).
Proof.
  intros Hid Hrow.
  unfold RequestRoute.GET, getByPaymentId, payment.findUnique.
  rewrite (nonempty_Some _ Hid), Hrow. split; reflexivity.
Qed.

Lemma createRequest_Return db now data db1 row :
  createRequest db now data = Return (db1, row) ->
  payment_table db1 !! cr_paymentId data = Some row
  /\ status row = PENDING
  /\ expiresAt row = cr_expiresAt data.
Proof.
  unfold createRequest, payment.create. simpl.
  destruct (payment_table db !! cr_paymentId data); [discriminate |].
  intros [= <- <-]. simpl. rewrite lookup_insert_eq. auto.
Qed.

(** C9, as stated, fails: the request expires 30 minutes after [t0] and no
    payment is made; the GET, whenever it is made, reports the stored
    status, PENDING. *)
Lemma expired_request_reported_pending :
  expiresAt Scenario.requested_row
  = Some (Scenario.t0 + 30 * Scenario.minutes)
  /\ payment_table Scenario.requested !! "pay_001"
     = Some Scenario.requested_row
  /\ RequestRoute.http_status
       (RequestRoute.GET Scenario.requested (Some "pay_001")) = 200
  /\ RequestRoute.reported_status
       (RequestRoute.GET Scenario.requested (Some "pay_001"))
     = Some PENDING.
Proof. repeat split; vm_compute; reflexivity. Qed.

(** C9 (amended). The GET of a stored payment reports the stored status and
    reads no clock. A payment request whose expiry passes with no payment
    made, hence with no status update, is still reported with the status it
    was created with, PENDING, at any time after its expiry. *)
Theorem GET_reports_stored_status
        (db : DB) (now : Z) (data : CreateRequestData) (db1 : DB)
        (row : Payment) (deadline later : Z) :
  createRequest db now data = Return (db1, row) ->
  cr_paymentId data <> "" ->
  cr_expiresAt data = Some deadline ->
  deadline < later ->
  expiresAt row = Some deadline
  /\ RequestRoute.http_status
       (RequestRoute.GET db1 (Some (cr_paymentId data))) = 200
  /\ RequestRoute.reported_status
       (RequestRoute.GET db1 (Some (cr_paymentId data)))
     = Some PENDING
  /\ (forall db2 id row2,
         id <> "" ->
         payment_table db2 !! id = Some row2 ->
         RequestRoute.reported_status (RequestRoute.GET db2 (Some id))
         = Some (status row2)).
Proof.
  intros Hcreate Hid Hexp _.
  apply createRequest_Return in Hcreate.
  destruct Hcreate as (Hrow & Hst & Hexp').
  destruct (GET_stored db1 _ row Hid Hrow) as [Hcode Hrep].
  split; [congruence |]. split; [exact Hcode |].
  split; [rewrite Hrep, Hst; reflexivity |].
  intros db2 id row2 Hid2 Hrow2. apply (GET_stored db2 id row2); assumption.
Qed.

(** The request of the scenario, read one hour after it was made. *)
Lemma GET_reports_stored_status_witness :
  RequestRoute.reported_status
    (RequestRoute.GET Scenario.requested (Some "pay_001"))
  = Some PENDING.
Proof.
  assert (Hcreate :
            createRequest Scenario.no_payments Scenario.t0
              Scenario.request_data
            = Return (Scenario.requested, Scenario.requested_row))
    by (vm_compute; reflexivity).
  assert (Hid : cr_paymentId Scenario.request_data <> "") by discriminate.
  assert (Hlater : Scenario.t0 + 30 * Scenario.minutes
                   < Scenario.t0 + 60 * Scenario.minutes)
    by (vm_compute; reflexivity).
  exact (proj1 (proj2 (proj2 (GET_reports_stored_status
                                Scenario.no_payments Scenario.t0
                                Scenario.request_data Scenario.requested
                                Scenario.requested_row
                                (Scenario.t0 + 30 * Scenario.minutes)
                                (Scenario.t0 + 60 * Scenario.minutes)
                                Hcreate Hid eq_refl Hlater)))).
Defined.

(** *** The webhook handler *)

Section Handler.

Variable hmac_sha256_hex : string -> string -> string.
Variable JSON_parse : string -> js WebhookRoute.X402WebhookPayload.
Variable fetch_generate : string -> string -> js bool.
Variable webhookSecret : option string.

Abbreviation POST :=
  (WebhookRoute.POST hmac_sha256_hex JSON_parse fetch_generate
     webhookSecret).
Abbreviation deliver :=
  (WebhookRoute.deliver hmac_sha256_hex JSON_parse fetch_generate
     webhookSecret).
Abbreviation authentic := (Spec.authentic hmac_sha256_hex webhookSecret).

(** An authentic request passes the two guards of the handler. *)
Ltac pass_signature Hauth :=
  unfold Spec.authentic, WebhookRoute.POST,
    WebhookRoute.verifyX402Signature in *;
  destruct (nonempty (WebhookRoute.x_x402_signature _)) as [signature |];
    [| discriminate];
  destruct (nonempty webhookSecret) as [secret |]; [| discriminate];
  apply String.eqb_eq in Hauth; subst signature.

Lemma timingSafeEqual_refl a :
  WebhookRoute.timingSafeEqual a a = Return true.
Proof.
  unfold WebhookRoute.timingSafeEqual.
  rewrite Nat.eqb_refl, String.eqb_refl. reflexivity.
Qed.

Lemma timingSafeEqual_lengths a b :
  String.length a <> String.length b ->
  WebhookRoute.timingSafeEqual a b
  = Throw "Input buffers must have the same byte length".
Proof.
  intros H. unfold WebhookRoute.timingSafeEqual.
  destruct (Nat.eqb_spec (String.length a) (String.length b));
    [contradiction | reflexivity].
Qed.

Lemma timingSafeEqual_true a b :
  WebhookRoute.timingSafeEqual a b = Return true -> a = b.
Proof.
  unfold WebhookRoute.timingSafeEqual.
  destruct (Nat.eqb _ _); [| discriminate].
  intros [= H]. apply String.eqb_eq. exact H.
Qed.

(** The handler writes nothing, and calls nothing, for a request that is
    not authentic. *)
Lemma POST_not_authentic db now request :
  authentic request = false ->
  exists effects response,
    POST db now request = (db, effects, response)
    /\ WebhookRoute.triggers effects = 0%nat
    /\ WebhookRoute.http_status response <> 200.
Proof.
  unfold Spec.authentic, WebhookRoute.POST,
    WebhookRoute.verifyX402Signature, WebhookRoute.failed.
  intros Hauth.
  destruct (nonempty (WebhookRoute.x_x402_signature request))
    as [signature |]; [| eexists _, _; repeat split; discriminate].
  destruct (nonempty webhookSecret) as [secret |];
    [| eexists _, _; repeat split; discriminate].
  destruct (WebhookRoute.timingSafeEqual signature _) as [[|] |] eqn:Heq.
  - apply timingSafeEqual_true in Heq. subst signature.
    rewrite String.eqb_refl in Hauth. discriminate.
  - eexists _, _; repeat split; discriminate.
  - eexists _, _; repeat split; discriminate.
Qed.

(** What the handler does with an authentic, well-formed payload for a
    stored payment. *)
Lemma POST_applied db now request payload id s row :
  authentic request = true ->
  JSON_parse (WebhookRoute.rawBody request) = Return payload ->
  nonempty (WebhookRoute.paymentId payload) = Some id ->
  WebhookRoute.status payload = Some s ->
  payment_table db !! id = Some row ->
  exists effects,
    POST db now request
    = (with_row db id (updated row now s (transaction_of payload)),
       effects,
       WebhookRoute.mkResponse 200 (WebhookRoute.SuccessBody id s now))
    /\ WebhookRoute.triggers effects = triggers_of s row.
Proof.
  intros Hauth Hparse Hid Hs Hrow. pass_signature Hauth.
  rewrite timingSafeEqual_refl, Hparse, Hid, Hs.
  fold (transaction_of payload).
  rewrite (updateStatus_known _ _ _ _ _ _ Hrow).
  eexists. split; [reflexivity |].
  unfold triggers_of, WebhookRoute.triggers. simpl.
  destruct (status_eqb s COMPLETED); [| reflexivity].
  destruct (nonempty (briefId row)); [| reflexivity].
  destruct (fetch_generate _ _) as [[|] |]; reflexivity.
Qed.

(** An authentic payload for a payment that is not stored: the update
    throws and the handler answers 500. *)
Lemma POST_unknown_payment db now request payload id s :
  authentic request = true ->
  JSON_parse (WebhookRoute.rawBody request) = Return payload ->
  nonempty (WebhookRoute.paymentId payload) = Some id ->
  WebhookRoute.status payload = Some s ->
  payment_table db !! id = None ->
  exists effects details,
    POST db now request
    = (db, effects,
       WebhookRoute.mkResponse 500
         (WebhookRoute.ErrorBody "Webhook processing failed" details)).
Proof.
  intros Hauth Hparse Hid Hs Hrow. pass_signature Hauth.
  rewrite timingSafeEqual_refl, Hparse, Hid, Hs.
  fold (transaction_of payload).
  rewrite (updateStatus_unknown _ _ _ _ _ Hrow).
  eexists _, _. reflexivity.
Qed.

(** A signature of the digest's length that is not the digest: 401, and
    nothing is written. *)
Lemma POST_wrong_digest db now request signature secret :
  nonempty (WebhookRoute.x_x402_signature request) = Some signature ->
  nonempty webhookSecret = Some secret ->
  String.length signature
  = String.length (hmac_sha256_hex secret (WebhookRoute.rawBody request)) ->
  signature <> hmac_sha256_hex secret (WebhookRoute.rawBody request) ->
  POST db now request
  = (db, [WebhookRoute.ConsoleError "Invalid webhook signature"],
     WebhookRoute.mkResponse 401
       (WebhookRoute.ErrorBody "Invalid signature" None)).
Proof.
  intros Hsig Hsec Hlen Hne.
  unfold WebhookRoute.POST, WebhookRoute.verifyX402Signature,
    WebhookRoute.timingSafeEqual.
  rewrite Hsig, Hsec, Hlen, Nat.eqb_refl.
  apply String.eqb_neq in Hne. rewrite Hne. reflexivity.
Qed.

Lemma triggers_app es1 es2 :
  WebhookRoute.triggers (es1 ++ es2)
  = (WebhookRoute.triggers es1 + WebhookRoute.triggers es2)%nat.
Proof.
  unfold WebhookRoute.triggers. rewrite filter_app, length_app. reflexivity.
Qed.

(** *** Claims about the webhook handler *)

(** C2 (amended). Delivering the same authentic completion webhook twice
    for a stored payment: both deliveries are answered 200 with status
    COMPLETED, the stored status is COMPLETED after the first and after the
    second, and each delivery calls the generation endpoint when the payment
    has a [briefId] -- two calls in all, or none when it has no
    [briefId]. *)
Theorem completion_delivered_twice
        (db : DB) (now1 now2 : Z) (request : WebhookRoute.Request)
        (payload : WebhookRoute.X402WebhookPayload) (id : string)
        (row : Payment) :
  authentic request = true ->
  JSON_parse (WebhookRoute.rawBody request) = Return payload ->
  nonempty (WebhookRoute.paymentId payload) = Some id ->
  WebhookRoute.status payload = Some COMPLETED ->
  payment_table db !! id = Some row ->
  exists db1 effects1 db2 effects2,
    POST db now1 request
    = (db1, effects1,
       WebhookRoute.mkResponse 200
         (WebhookRoute.SuccessBody id COMPLETED now1))
    /\ POST db1 now2 request
       = (db2, effects2,
          WebhookRoute.mkResponse 200
            (WebhookRoute.SuccessBody id COMPLETED now2))
    /\ deliver db [(now1, request); (now2, request)]
       = (db2, effects1 ++ effects2,
          [WebhookRoute.mkResponse 200
             (WebhookRoute.SuccessBody id COMPLETED now1);
           WebhookRoute.mkResponse 200
             (WebhookRoute.SuccessBody id COMPLETED now2)])
    /\ stored_status db1 id = Some COMPLETED
    /\ stored_status db2 id = Some COMPLETED
    /\ WebhookRoute.triggers effects1 = WebhookRoute.triggers effects2
    /\ WebhookRoute.triggers (effects1 ++ effects2)
       = match nonempty (briefId row) with
         | Some _ => 2%nat
         | None => 0%nat
         end.
Proof.
  intros Hauth Hparse Hid Hs Hrow.
  destruct (POST_applied db now1 request payload id COMPLETED row
              Hauth Hparse Hid Hs Hrow) as (effects1 & H1 & Ht1).
  set (row1 := updated row now1 COMPLETED (transaction_of payload)) in *.
  set (db1 := with_row db id row1) in *.
  assert (Hrow1 : payment_table db1 !! id = Some row1)
    by (unfold db1, with_row; simpl; apply lookup_insert_eq).
  destruct (POST_applied db1 now2 request payload id COMPLETED row1
              Hauth Hparse Hid Hs Hrow1) as (effects2 & H2 & Ht2).
  eexists db1, effects1, _, effects2.
  split; [exact H1 |]. split; [exact H2 |].
  split; [simpl; rewrite H1, H2, app_nil_r; reflexivity |].
  split; [apply stored_status_with_row |].
  split; [apply stored_status_with_row |].
  assert (Hsame : triggers_of COMPLETED row1 = triggers_of COMPLETED row)
    by reflexivity.
  split; [congruence |].
  rewrite triggers_app, Ht1, Ht2, Hsame. unfold triggers_of. simpl.
  destruct (nonempty (briefId row)); reflexivity.
Qed.

(** C3 (amended). An authentic completion webhook for a stored payment that
    arrives after the payment's [expiresAt] is applied like any other: the
    answer is 200, the stored status becomes COMPLETED with [completedAt]
    the time of arrival, and [expiresAt] is left as it was. The handler and
    [updateStatus] never read [expiresAt]. *)
Theorem late_completion_applied
        (db : DB) (now deadline : Z) (request : WebhookRoute.Request)
        (payload : WebhookRoute.X402WebhookPayload) (id : string)
        (row : Payment) :
  authentic request = true ->
  JSON_parse (WebhookRoute.rawBody request) = Return payload ->
  nonempty (WebhookRoute.paymentId payload) = Some id ->
  WebhookRoute.status payload = Some COMPLETED ->
  payment_table db !! id = Some row ->
  expiresAt row = Some deadline ->
  deadline < now ->
  exists db' effects row',
    POST db now request
    = (db', effects,
       WebhookRoute.mkResponse 200
         (WebhookRoute.SuccessBody id COMPLETED now))
    /\ payment_table db' !! id = Some row'
    /\ status row' = COMPLETED
    /\ completedAt row' = Some now
    /\ expiresAt row' = Some deadline.
Proof.
  intros Hauth Hparse Hid Hs Hrow Hexp _.
  destruct (POST_applied db now request payload id COMPLETED row
              Hauth Hparse Hid Hs Hrow) as (effects & H & _).
  eexists _, effects, _. split; [exact H |].
  split; [unfold with_row; simpl; apply lookup_insert_eq |].
  repeat split. exact Hexp.
Qed.

(** C10 (amended). When the webhook secret is configured and the
    [x-x402-signature] value is not empty and its byte length is not 64,
    the length of a hex HMAC-SHA256 digest, the comparison throws instead of
    returning false: the handler answers 500, not 401, and writes
    nothing. *)
Theorem signature_of_other_length
        (db : DB) (now : Z) (request : WebhookRoute.Request)
        (signature secret : string) :
  (forall k m, String.length (hmac_sha256_hex k m) = 64%nat) ->
  WebhookRoute.x_x402_signature request = Some signature ->
  signature <> "" ->
  String.length signature <> 64%nat ->
  nonempty webhookSecret = Some secret ->
  WebhookRoute.verifyX402Signature hmac_sha256_hex
    (WebhookRoute.rawBody request) signature secret
  = Throw "Input buffers must have the same byte length"
  /\ POST db now request
     = (db, [WebhookRoute.ConsoleError "Webhook processing error:"],
        WebhookRoute.mkResponse 500
          (WebhookRoute.ErrorBody "Webhook processing failed"
             (Some "Input buffers must have the same byte length"))).
Proof.
  intros Hdigest Hsig Hne Hlen Hsec.
  assert (Hthrow :
            WebhookRoute.verifyX402Signature hmac_sha256_hex
              (WebhookRoute.rawBody request) signature secret
            = Throw "Input buffers must have the same byte length").
  { unfold WebhookRoute.verifyX402Signature.
    apply timingSafeEqual_lengths. rewrite Hdigest. exact Hlen. }
  split; [exact Hthrow |].
  unfold WebhookRoute.POST. rewrite Hsig, Hsec. simpl.
  apply String.eqb_neq in Hne. rewrite Hne, Hthrow. reflexivity.
Qed.

End Handler.

(** *** The scenarios *)

Lemma scenario_digest_length k m :
  String.length (Scenario.hmac_sha256_hex k m) = 64%nat.
Proof.
  unfold Scenario.hmac_sha256_hex. destruct (_ && _); reflexivity.
Qed.

Lemma scenario_completion_authentic :
  Spec.authentic Scenario.hmac_sha256_hex (Some Scenario.webhook_secret)
    Scenario.completion = true.
Proof. vm_compute. reflexivity. Qed.

Example forged_signature_answered_401 :
  Scenario.POST Scenario.requested (Scenario.t0 + 10 * Scenario.minutes)
    Scenario.forged_signature
  = (Scenario.requested,
     [WebhookRoute.ConsoleError "Invalid webhook signature"],
     WebhookRoute.mkResponse 401
       (WebhookRoute.ErrorBody "Invalid signature" None)).
Proof. vm_compute. reflexivity. Qed.

Example no_signature_answered_400 :
  Scenario.POST Scenario.requested (Scenario.t0 + 10 * Scenario.minutes)
    Scenario.no_signature
  = (Scenario.requested,
     [WebhookRoute.ConsoleError "Missing webhook signature or secret"],
     WebhookRoute.mkResponse 400
       (WebhookRoute.ErrorBody "Invalid webhook configuration" None)).
Proof. vm_compute. reflexivity. Qed.

Example completion_answered_200 :
  snd (Scenario.POST Scenario.requested
         (Scenario.t0 + 10 * Scenario.minutes) Scenario.completion)
  = WebhookRoute.mkResponse 200
      (WebhookRoute.SuccessBody "pay_001" COMPLETED
         (Scenario.t0 + 10 * Scenario.minutes))
  /\ snd (fst (Scenario.POST Scenario.requested
                 (Scenario.t0 + 10 * Scenario.minutes) Scenario.completion))
     = [WebhookRoute.ConsoleLog "X402 webhook received:";
        WebhookRoute.FetchGenerate "brief_1" "brand_1";
        WebhookRoute.ConsoleLog
          "Veo prompt generated successfully for payment:"].
Proof. split; vm_compute; reflexivity. Qed.

Example unknown_payment_status_404 :
  RequestRoute.GET Scenario.no_payments (Some "pay_001")
  = RequestRoute.mkResponse 404
      (RequestRoute.ErrorBody "Payment not found" None)
  /\ RequestRoute.GET Scenario.requested None
     = RequestRoute.mkResponse 400
         (RequestRoute.ErrorBody "Payment ID is required" None).
Proof. split; vm_compute; reflexivity. Qed.

Lemma scenario_requested_row :
  payment_table Scenario.requested !! "pay_001"
  = Some Scenario.requested_row.
Proof. vm_compute. reflexivity. Qed.

(** C1, as stated, fails: the payment is stored as FAILED, a terminal
    status; the completion webhook is answered 200 and the stored status is
    then COMPLETED, a transition outside the graph. *)
Lemma failed_payment_becomes_completed :
  stored_status Scenario.failed "pay_001" = Some FAILED
  /\ terminal FAILED = true
  /\ legal_transition FAILED COMPLETED = false
  /\ WebhookRoute.http_status
       (snd (Scenario.POST Scenario.failed
               (Scenario.t0 + 10 * Scenario.minutes) Scenario.completion))
     = 200
  /\ stored_status
       (fst (fst (Scenario.POST Scenario.failed
                    (Scenario.t0 + 10 * Scenario.minutes)
                    Scenario.completion)))
       "pay_001"
     = Some COMPLETED.
Proof. repeat split; vm_compute; reflexivity. Qed.

(** C1 (amended). For every stored payment and every sequence of status
    updates, each update is applied whatever the stored status is, terminal
    or not: the sequence runs to its end, the stored status is then the
    status of the last update, and the other payments are as before. No
    transition is rejected. *)
Theorem every_update_is_applied
        (db : DB) (id : string) (row : Payment)
        (updates : list (Z * PaymentStatus * option TransactionData))
        (now : Z) (s : PaymentStatus) (td : option TransactionData) :
  payment_table db !! id = Some row ->
  exists db',
    update_all db id (updates ++ [(now, s, td)]) = Return db'
    /\ stored_status db' id = Some s
    /\ (forall id', id' <> id ->
                    payment_table db' !! id' = payment_table db !! id').
Proof.
  intros Hrow.
  destruct (update_all_known updates db id row Hrow)
    as (db1 & row1 & Hrun & Hrow1 & _ & Hother).
  exists (with_row db1 id (updated row1 now s td)).
  split.
  - rewrite (update_all_app _ _ _ _ _ Hrun). simpl.
    rewrite (updateStatus_known _ _ _ _ _ _ Hrow1). reflexivity.
  - split; [apply stored_status_with_row |].
    intros id' Hne. rewrite with_row_other by assumption.
    apply Hother. assumption.
Qed.

(** COMPLETED, then REFUNDED, then back to PENDING. *)
Lemma every_update_is_applied_witness :
  exists db',
    update_all Scenario.requested "pay_001"
      ([(Scenario.t0 + 1, COMPLETED, None);
        (Scenario.t0 + 2, REFUNDED, None)]
       ++ [(Scenario.t0 + 3, PENDING, None)])
    = Return db'
    /\ stored_status db' "pay_001" = Some PENDING
    /\ (forall id', id' <> "pay_001" ->
                    payment_table db' !! id'
                    = payment_table Scenario.requested !! id').
Proof.
  apply (every_update_is_applied Scenario.requested "pay_001"
           Scenario.requested_row).
  vm_compute. reflexivity.
Defined.

(** C2, as stated, fails: the payment has a brief, and the two deliveries
    of the completion webhook call the generation endpoint twice. *)
Lemma two_deliveries_two_triggers :
  WebhookRoute.triggers
    (snd (fst (Scenario.deliver Scenario.requested
                 [(Scenario.t0 + 10 * Scenario.minutes, Scenario.completion);
                  (Scenario.t0 + 11 * Scenario.minutes, Scenario.completion)])))
  = 2%nat.
Proof. vm_compute. reflexivity. Qed.

(** The completion webhook delivered at 10 and at 11 minutes. *)
Lemma completion_delivered_twice_witness :
  exists db1 effects1 db2 effects2,
    Scenario.POST Scenario.requested (Scenario.t0 + 10 * Scenario.minutes)
      Scenario.completion
    = (db1, effects1,
       WebhookRoute.mkResponse 200
         (WebhookRoute.SuccessBody "pay_001" COMPLETED
            (Scenario.t0 + 10 * Scenario.minutes)))
    /\ Scenario.POST db1 (Scenario.t0 + 11 * Scenario.minutes)
         Scenario.completion
       = (db2, effects2,
          WebhookRoute.mkResponse 200
            (WebhookRoute.SuccessBody "pay_001" COMPLETED
               (Scenario.t0 + 11 * Scenario.minutes)))
    /\ WebhookRoute.triggers (effects1 ++ effects2) = 2%nat.
Proof.
  destruct (completion_delivered_twice
              Scenario.hmac_sha256_hex Scenario.JSON_parse
              Scenario.fetch_generate (Some Scenario.webhook_secret)
              Scenario.requested
              (Scenario.t0 + 10 * Scenario.minutes)
              (Scenario.t0 + 11 * Scenario.minutes)
              Scenario.completion Scenario.completed_payload "pay_001"
              Scenario.requested_row)
    as (db1 & effects1 & db2 & effects2 & H1 & H2 & _ & _ & _ & _ & Ht);
    try (vm_compute; reflexivity).
  exists db1, effects1, db2, effects2. auto.
Defined.

(** C3, as stated, fails: the request expires at [t0] plus 30 minutes; the
    completion webhook arrives 45 minutes after [t0], is answered 200, and
    the stored status is then COMPLETED. *)
Lemma completion_after_expiry_completes :
  expiresAt Scenario.requested_row = Some (Scenario.t0 + 30 * Scenario.minutes)
  /\ Scenario.t0 + 30 * Scenario.minutes < Scenario.t0 + 45 * Scenario.minutes
  /\ stored_status Scenario.requested "pay_001" = Some PENDING
  /\ WebhookRoute.http_status
       (snd (Scenario.POST Scenario.requested
               (Scenario.t0 + 45 * Scenario.minutes) Scenario.completion))
     = 200
  /\ stored_status
       (fst (fst (Scenario.POST Scenario.requested
                    (Scenario.t0 + 45 * Scenario.minutes)
                    Scenario.completion)))
       "pay_001"
     = Some COMPLETED.
Proof. repeat split; vm_compute; reflexivity. Qed.

(** The completion webhook delivered 15 minutes after the expiry. *)
Lemma late_completion_applied_witness :
  exists db' effects row',
    Scenario.POST Scenario.requested (Scenario.t0 + 45 * Scenario.minutes)
      Scenario.completion
    = (db', effects,
       WebhookRoute.mkResponse 200
         (WebhookRoute.SuccessBody "pay_001" COMPLETED
            (Scenario.t0 + 45 * Scenario.minutes)))
    /\ payment_table db' !! "pay_001" = Some row'
    /\ status row' = COMPLETED
    /\ completedAt row' = Some (Scenario.t0 + 45 * Scenario.minutes)
    /\ expiresAt row' = Some (Scenario.t0 + 30 * Scenario.minutes).
Proof.
  apply (late_completion_applied
           Scenario.hmac_sha256_hex Scenario.JSON_parse
           Scenario.fetch_generate (Some Scenario.webhook_secret)
           Scenario.requested (Scenario.t0 + 45 * Scenario.minutes)
           (Scenario.t0 + 30 * Scenario.minutes)
           Scenario.completion Scenario.completed_payload "pay_001"
           Scenario.requested_row);
    vm_compute; reflexivity.
Defined.

(** C7. Where the handler departs from the claim: an authentic webhook for
    a payment that is not stored is answered 500, not 404, because the
    update throws; and a signature of 8 bytes is answered 500, not 401,
    because the comparison throws. Nothing is written in either case. *)
Theorem unknown_payment_and_short_signature_answered_500 :
  Scenario.POST Scenario.no_payments (Scenario.t0 + 10 * Scenario.minutes)
    Scenario.completion
  = (Scenario.no_payments,
     [WebhookRoute.ConsoleLog "X402 webhook received:";
      WebhookRoute.ConsoleError "Webhook processing error:"],
     WebhookRoute.mkResponse 500
       (WebhookRoute.ErrorBody "Webhook processing failed"
          (Some "Record to update not found.")))
  /\ Scenario.POST Scenario.requested (Scenario.t0 + 10 * Scenario.minutes)
       Scenario.short_signature
     = (Scenario.requested,
        [WebhookRoute.ConsoleError "Webhook processing error:"],
        WebhookRoute.mkResponse 500
          (WebhookRoute.ErrorBody "Webhook processing failed"
             (Some "Input buffers must have the same byte length"))).
Proof. split; vm_compute; reflexivity. Qed.

(** C10, as stated, fails for the empty signature: its byte length, 0, is
    not 64, and the handler answers 400 without comparing anything. *)
Lemma empty_signature_answered_400 :
  WebhookRoute.x_x402_signature Scenario.empty_signature = Some ""
  /\ String.length "" <> 64%nat
  /\ Scenario.POST Scenario.requested (Scenario.t0 + 10 * Scenario.minutes)
       Scenario.empty_signature
     = (Scenario.requested,
        [WebhookRoute.ConsoleError "Missing webhook signature or secret"],
        WebhookRoute.mkResponse 400
          (WebhookRoute.ErrorBody "Invalid webhook configuration" None)).
Proof.
  split; [reflexivity |]. split; [discriminate |]. vm_compute. reflexivity.
Qed.

(** The signature [deadbeef], of 8 bytes. *)
Lemma signature_of_other_length_witness :
  Scenario.POST Scenario.requested (Scenario.t0 + 10 * Scenario.minutes)
    Scenario.short_signature
  = (Scenario.requested,
     [WebhookRoute.ConsoleError "Webhook processing error:"],
     WebhookRoute.mkResponse 500
       (WebhookRoute.ErrorBody "Webhook processing failed"
          (Some "Input buffers must have the same byte length"))).
Proof.
  apply (signature_of_other_length
           Scenario.hmac_sha256_hex Scenario.JSON_parse
           Scenario.fetch_generate (Some Scenario.webhook_secret)
           Scenario.requested (Scenario.t0 + 10 * Scenario.minutes)
           Scenario.short_signature "deadbeef" Scenario.webhook_secret
           scenario_digest_length);
    [reflexivity | discriminate | simpl; lia | reflexivity].
Defined.

End ReconcilerProofs.

(** ** The ledger of the contract *)

Module LedgerProofs.
Import VeoPayment Spec Ledger VeoPaymentProofs.

Lemma requestRefund_refunded st e id st' evs :
  requestRefund st e id = Ok st' evs -> st' = refunded st id.
Proof.
  unfold requestRefund, call_value. cbv zeta.
  repeat case_match; try discriminate.
  intros [= <- _]. reflexivity.
Qed.

(** A successful owner-only call leaves the ledger alone and does not add
    to the balance. *)
Lemma admin_keeps_ledger st e c st' evs :
  is_admin c = true ->
  exec st e c = Ok st' evs ->
  msg_sender e = owner st
  /\ payments st' = payments st
  /\ paymentIds st' = paymentIds st
  /\ userPaymentCount st' = userPaymentCount st
  /\ totalPaymentsReceived st' = totalPaymentsReceived st
  /\ totalAmountCollected st' = totalAmountCollected st
  /\ (balance st' = balance st \/ (balance st' = 0 /\ 0 < balance st)).
Proof.
  intros Hc Hexec. destruct c; try discriminate; simpl in Hexec;
    unfold updateTierPrice, updateTreasuryWallet, updateRefundWindow,
      pause, unpause, emergencyWithdraw, transferOwnership,
      renounceOwnership, onlyOwner in Hexec;
    repeat case_match; simplify_eq; simpl;
    repeat match goal with
           | H : negb _ = false |- _ => apply negb_false_iff in H
           | H : (_ =? _) = true |- _ => apply Z.eqb_eq in H
           | H : (_ <? _) = true |- _ => apply Z.ltb_lt in H
           end;
    repeat split; auto.
Qed.

(** The three ways a transaction can go. *)
Lemma step_cases st e c :
  step st (e, c) = st
  \/ (exists id t, c = ProcessPayment id t
                   /\ payable_now st e id t
                   /\ step st (e, c) = recorded st e id t)
  \/ (exists id evs, c = RequestRefund id
                     /\ requestRefund st e id = Ok (refunded st id) evs
                     /\ step st (e, c) = refunded st id)
  \/ (exists evs, is_admin c = true
                  /\ exec st e c = Ok (step st (e, c)) evs).
Proof.
  unfold step. simpl.
  destruct (exec st e c) as [st' evs |] eqn:Hexec; [| left; reflexivity].
  right. destruct c; simpl in Hexec.
  - left. apply processPayment_Ok in Hexec. destruct Hexec as [Hp ->].
    eauto.
  - right. left. pose proof (requestRefund_refunded _ _ _ _ _ Hexec).
    subst st'. eauto.
  - right. right. eauto.
  - right. right. eauto.
  - right. right. eauto.
  - right. right. eauto.
  - right. right. eauto.
  - right. right. eauto.
  - right. right. eauto.
  - right. right. eauto.
Qed.

Lemma payments_at_recorded st e id t id' :
  payments_at (recorded st e id t) id'
  = if decide (id = id')
    then mkPayment (msg_sender e) (msg_value e) t id true (block_timestamp e)
    else payments_at st id'.
Proof.
  unfold payments_at, recorded. simpl. rewrite lookup_insert.
  destruct (decide (id = id')); reflexivity.
Qed.

Lemma payments_at_refunded st id id' :
  payments_at (refunded st id) id'
  = if decide (id = id')
    then mkPayment (payer (payments_at st id)) (amount (payments_at st id))
                   (tier (payments_at st id)) (paymentId (payments_at st id))
                   false (timestamp (payments_at st id))
    else payments_at st id'.
Proof.
  unfold payments_at at 1, refunded. simpl. rewrite lookup_insert.
  destruct (decide (id = id')); reflexivity.
Qed.

Lemma identity_refunded st id id' :
  identity (payments_at (refunded st id) id') = identity (payments_at st id').
Proof.
  rewrite payments_at_refunded.
  destruct (decide (id = id')) as [-> |]; reflexivity.
Qed.

Lemma payments_at_admin st e c st' evs id :
  is_admin c = true -> exec st e c = Ok st' evs ->
  payments_at st' id = payments_at st id.
Proof.
  intros Hc Hexec.
  destruct (admin_keeps_ledger _ _ _ _ _ Hc Hexec) as (_ & Hp & _).
  unfold payments_at. rewrite Hp. reflexivity.
Qed.

(** *** What the owner governs *)

Lemma configuration_recorded st e id t :
  configuration (recorded st e id t) = configuration st.
Proof. reflexivity. Qed.

Lemma configuration_refunded st id :
  configuration (refunded st id) = configuration st.
Proof. reflexivity. Qed.

Lemma step_configuration st e c :
  msg_sender e <> owner st ->
  configuration (step st (e, c)) = configuration st.
Proof.
  intros Hne.
  destruct (step_cases st e c)
    as [-> | [(id & t & _ & _ & ->) | [(id & evs & _ & _ & ->)
                                       | (evs & Hc & Hexec)]]];
    try reflexivity.
  destruct (admin_keeps_ledger _ _ _ _ _ Hc Hexec) as (Hown & _).
  congruence.
Qed.

(** X1. A transaction that is not sent by the owner changes none of the
    tier prices, the treasury wallet, the refund window, the owner and the
    pause flag; sent to an owner-only function, it reverts. *)
Theorem only_owner_configures (st : State) (e : Env) (c : Call) :
  msg_sender e <> owner st ->
  configuration (step st (e, c)) = configuration st
  /\ (is_admin c = true -> exists reason, exec st e c = Revert reason).
Proof.
  intros Hne. split; [apply step_configuration; assumption |].
  intros Hc. destruct (exec st e c) as [st' evs | reason] eqn:Hexec;
    [| eauto].
  destruct (admin_keeps_ledger _ _ _ _ _ Hc Hexec) as (Hown & _).
  congruence.
Qed.

(** Bob tries to set the BASIC price to one wei. *)
Lemma only_owner_configures_witness :
  exec Scenario.paid (Scenario.tx Scenario.bob 0 3000) (UpdateTierPrice BASIC 1)
  = Revert "Ownable: caller is not the owner".
Proof.
  assert (Hne : msg_sender (Scenario.tx Scenario.bob 0 3000)
                <> owner Scenario.paid) by (vm_compute; discriminate).
  destruct (proj2 (only_owner_configures Scenario.paid
                     (Scenario.tx Scenario.bob 0 3000)
                     (UpdateTierPrice BASIC 1) Hne) eq_refl)
    as [reason H].
  rewrite H. vm_compute in H. congruence.
Defined.

Lemma run_app st txs1 txs2 :
  run st (txs1 ++ txs2) = run (run st txs1) txs2.
Proof. unfold run. apply fold_left_app. Qed.

(** X2. Once ownership is renounced, no transaction changes the prices, the
    treasury wallet, the refund window or the pause flag any more: the
    configuration is frozen, and a contract paused at that time never takes
    a payment again. *)
Theorem renounced_owner_freezes_configuration
        (st : State) (txs : list (Env * Call)) :
  owner st = 0 ->
  signed txs ->
  configuration (run st txs) = configuration st
  /\ (paused st = true ->
      forall e id t,
        processPayment (run st txs) e id t = Revert "Pausable: paused").
Proof.
  intros Hown Hs.
  assert (Hcfg : configuration (run st txs) = configuration st).
  { revert st Hown. induction Hs as [| [e c] txs Hsender _ IH];
      intros st Hown; [reflexivity |].
    simpl in Hsender. simpl.
    assert (Hstep : configuration (step st (e, c)) = configuration st)
      by (apply step_configuration; congruence).
    rewrite IH; [exact Hstep |].
    unfold configuration in Hstep. congruence. }
  split; [exact Hcfg |].
  intros Hp e id t. unfold processPayment.
  unfold configuration in Hcfg.
  replace (paused (run st txs)) with true by congruence. reflexivity.
Qed.

(** The owner pauses the deployed contract and renounces; an attempt to
    unpause and a payment follow. *)
Lemma renounced_owner_freezes_configuration_witness :
  configuration
    (run (run Scenario.deployed
            [(Scenario.tx Scenario.deployer 0 1500, Pause);
             (Scenario.tx Scenario.deployer 0 1600, RenounceOwnership)])
         [(Scenario.tx Scenario.deployer 0 1700, Unpause);
          Scenario.alice_pays])
  = configuration
      (run Scenario.deployed
         [(Scenario.tx Scenario.deployer 0 1500, Pause);
          (Scenario.tx Scenario.deployer 0 1600, RenounceOwnership)]).
Proof.
  apply (renounced_owner_freezes_configuration
           (run Scenario.deployed
              [(Scenario.tx Scenario.deployer 0 1500, Pause);
               (Scenario.tx Scenario.deployer 0 1600, RenounceOwnership)])
           [(Scenario.tx Scenario.deployer 0 1700, Unpause);
            Scenario.alice_pays]).
  - vm_compute. reflexivity.
  - repeat constructor; simpl; discriminate.
Defined.

(** *** Validity of the configuration *)

Lemma constructor_Ok e a st evs :
  constructor e a = Ok st evs ->
  a <> 0
  /\ payments st = ∅ /\ paymentIds st = [] /\ userPaymentCount st = ∅
  /\ totalPaymentsReceived st = 0 /\ totalAmountCollected st = 0
  /\ balance st = address_balance e /\ owner st = msg_sender e
  /\ paused st = false
  /\ treasuryWallet st = a /\ refundWindow st = 86400
  /\ tierPrices st BASIC = 5000000000000000
  /\ tierPrices st PREMIUM = 10000000000000000
  /\ tierPrices st ENTERPRISE = 25000000000000000.
Proof.
  unfold constructor.
  destruct (msg_value e =? 0); simpl; [| discriminate].
  destruct (Z.eqb_spec a 0); [discriminate |].
  intros [= <- _]. simpl. repeat split; auto.
Qed.

Lemma admin_well_configured st e c st' evs :
  is_admin c = true -> exec st e c = Ok st' evs ->
  well_configured st -> well_configured st'.
Proof.
  intros Hc Hexec (Ht & Hwin & Hprice).
  destruct c; try discriminate; simpl in Hexec;
    unfold updateTierPrice, updateTreasuryWallet, updateRefundWindow,
      pause, unpause, emergencyWithdraw, transferOwnership,
      renounceOwnership, onlyOwner in Hexec;
    repeat case_match; simplify_eq;
    unfold well_configured; simpl;
    repeat match goal with
           | H : negb _ = false |- _ => apply negb_false_iff in H
           | H : (_ =? _) = false |- _ => apply Z.eqb_neq in H
           | H : (_ <? _) = true |- _ => apply Z.ltb_lt in H
           end;
    repeat split; auto.
  intros t. unfold set_tierPrice. destruct (tier_eqb t tier0); auto.
Qed.

Lemma step_well_configured st tx :
  well_configured st -> well_configured (step st tx).
Proof.
  intros Hw. destruct tx as [e c].
  destruct (step_cases st e c)
    as [-> | [(id & t & _ & _ & ->) | [(id & evs & _ & _ & ->)
                                       | (evs & Hc & Hexec)]]];
    try exact Hw.
  exact (admin_well_configured _ _ _ _ _ Hc Hexec Hw).
Qed.

Lemma step_amounts_positive st tx :
  well_configured st -> amounts_positive st ->
  amounts_positive (step st tx).
Proof.
  intros (_ & _ & Hprice) Hpos. destruct tx as [e c].
  destruct (step_cases st e c)
    as [-> | [(id & t & _ & Hpay & ->) | [(id & evs & _ & Href & ->)
                                          | (evs & Hc & Hexec)]]];
    try exact Hpos.
  - intros id' p. unfold recorded. simpl. rewrite lookup_insert.
    destruct (decide (id = id')); [| apply Hpos].
    intros [= <-]. simpl.
    destruct Hpay as (_ & _ & -> & _). apply Hprice.
  - intros id' p. unfold refunded. simpl. rewrite lookup_insert.
    destruct (decide (id = id')) as [<- |]; [| apply Hpos].
    intros [= <-]. simpl.
    apply requestRefund_Ok in Href. cbv zeta in Href.
    destruct Href as (_ & _ & Hcompleted & _).
    unfold payments_at in *.
    destruct (payments st !! id) as [p |] eqn:Hp; [| discriminate].
    simpl. apply (Hpos id p Hp).
  - destruct (admin_keeps_ledger _ _ _ _ _ Hc Hexec) as (_ & Hp & _).
    intros id' p. rewrite Hp. apply Hpos.
Qed.

Lemma run_valid txs st :
  well_configured st -> amounts_positive st ->
  well_configured (run st txs) /\ amounts_positive (run st txs).
Proof.
  revert st. induction txs as [| tx txs IH]; intros st Hw Hpos;
    [split; assumption |].
  simpl. apply IH;
    [apply step_well_configured | apply step_amounts_positive]; assumption.
Qed.

Lemma constructor_valid e a st evs :
  constructor e a = Ok st evs ->
  well_configured st /\ amounts_positive st.
Proof.
  intros H. apply constructor_Ok in H.
  destruct H as (Ha & Hp & _ & _ & _ & _ & _ & _ & _ & Ht & Hw & Hb & Hpr
                 & He).
  split.
  - unfold well_configured. rewrite Ht, Hw.
    split; [assumption |]. split; [lia |].
    intros []; rewrite ?Hb, ?Hpr, ?He; lia.
  - intros id p. rewrite Hp, lookup_empty. discriminate.
Qed.

(** X3. From deployment on, whatever transactions are sent: the treasury
    wallet is never the zero address, the refund window and every tier
    price stay positive, and every payment in the ledger has a positive
    amount. *)
Theorem configuration_stays_valid
        (e0 : Env) (a : address) (st0 : State) (evs : list Event)
        (txs : list (Env * Call)) :
  constructor e0 a = Ok st0 evs ->
  well_configured (run st0 txs) /\ amounts_positive (run st0 txs).
Proof.
  intros H. apply constructor_valid in H. destruct H.
  apply run_valid; assumption.
Qed.

(** The deployed contract after a price update, a payment and a refund
    attempt. *)
Lemma configuration_stays_valid_witness :
  well_configured
    (run Scenario.deployed
       [(Scenario.tx Scenario.deployer 0 1500, UpdateTierPrice BASIC 7);
        Scenario.alice_pays;
        (Scenario.refund_after_1h, RequestRefund "pay_001")]).
Proof.
  apply (configuration_stays_valid (Scenario.tx Scenario.deployer 0 1000)
           Scenario.treasury Scenario.deployed
           [OwnershipTransferred 0 Scenario.deployer]).
  reflexivity.
Defined.

(** *** Recorded payments *)

Lemma step_keeps_identity st tx id :
  payer (payments_at st id) <> 0 ->
  identity (payments_at (step st tx) id) = identity (payments_at st id)
  /\ (completed (payments_at st id) = false ->
      completed (payments_at (step st tx) id) = false).
Proof.
  intros Hrec. destruct tx as [e c].
  destruct (step_cases st e c)
    as [-> | [(id' & t & _ & Hpay & ->) | [(id' & evs & _ & _ & ->)
                                           | (evs & Hc & Hexec)]]].
  - auto.
  - rewrite payments_at_recorded.
    destruct (decide (id' = id)) as [-> |]; [| auto].
    destruct Hpay as (_ & _ & _ & Hfree & _). contradiction.
  - split; [apply identity_refunded |].
    rewrite payments_at_refunded.
    destruct (decide (id' = id)); auto.
  - rewrite (payments_at_admin _ _ _ _ _ id Hc Hexec). auto.
Qed.

Lemma run_keeps_identity txs st id :
  payer (payments_at st id) <> 0 ->
  identity (payments_at (run st txs) id) = identity (payments_at st id)
  /\ (completed (payments_at st id) = false ->
      completed (payments_at (run st txs) id) = false).
Proof.
  revert st. induction txs as [| tx txs IH]; intros st Hrec; [auto |].
  simpl. destruct (step_keeps_identity st tx id Hrec) as [Hid Hc].
  assert (Hrec' : payer (payments_at (step st tx) id) <> 0).
  { unfold identity in Hid. congruence. }
  destruct (IH (step st tx) Hrec') as [Hid' Hc'].
  split; [congruence | auto].
Qed.

(** X4. A recorded payment is immutable but for its [completed] flag:
    whatever transactions follow, its payer, amount, tier, id and timestamp
    stay as recorded, and a flag that was cleared is never set again. *)
Theorem recorded_payment_immutable
        (st : State) (txs : list (Env * Call)) (id : string) :
  payer (payments_at st id) <> 0 ->
  identity (payments_at (run st txs) id) = identity (payments_at st id)
  /\ (completed (payments_at st id) = false ->
      completed (payments_at (run st txs) id) = false).
Proof. apply run_keeps_identity. Qed.

(** Alice's payment after the owner's change of the window, Bob's attempt
    on her id and her refund. *)
Lemma recorded_payment_immutable_witness :
  identity
    (payments_at
       (run Scenario.paid_funded
          [Scenario.shorten_window; Scenario.bob_reuses_id;
           (Scenario.tx Scenario.alice 0 3010, RequestRefund "pay_001")])
       "pay_001")
  = identity (payments_at Scenario.paid_funded "pay_001").
Proof.
  apply (recorded_payment_immutable Scenario.paid_funded
           [Scenario.shorten_window; Scenario.bob_reuses_id;
            (Scenario.tx Scenario.alice 0 3010, RequestRefund "pay_001")]
           "pay_001").
  vm_compute. discriminate.
Defined.

(** X5. A payment is refunded at most once: after a successful
    [requestRefund], whatever transactions follow, every further
    [requestRefund] for the same id reverts, and so does every
    [processPayment] under that id. *)
Theorem refund_at_most_once
        (st : State) (e : Env) (id : string) (st1 : State)
        (evs : list Event) (txs : list (Env * Call)) :
  msg_sender e <> 0 ->
  requestRefund st e id = Ok st1 evs ->
  forall e',
    (exists reason, requestRefund (run st1 txs) e' id = Revert reason)
    /\ (forall t, exists reason,
           processPayment (run st1 txs) e' id t = Revert reason).
Proof.
  intros Hsender Hok e'.
  pose proof (requestRefund_refunded _ _ _ _ _ Hok) as ->.
  apply requestRefund_Ok in Hok. cbv zeta in Hok.
  destruct Hok as (_ & Hpayer & _).
  assert (Hrec : payer (payments_at (refunded st id) id) <> 0).
  { rewrite payments_at_refunded. destruct (decide (id = id)); [| done].
    simpl. congruence. }
  assert (Hflag : completed (payments_at (refunded st id) id) = false).
  { rewrite payments_at_refunded. destruct (decide (id = id)); done. }
  destruct (run_keeps_identity txs _ id Hrec) as [Hid Hc].
  specialize (Hc Hflag).
  assert (Hrec' : payer (payments_at (run (refunded st id) txs) id) <> 0).
  { unfold identity in Hid. congruence. }
  split.
  - destruct (requestRefund (run (refunded st id) txs) e' id)
      as [st2 evs2 | reason] eqn:H2; [| eauto].
    apply requestRefund_Ok in H2. cbv zeta in H2.
    destruct H2 as (_ & _ & Hcompleted & _). congruence.
  - intros t. apply processPayment_taken. exact Hrec'.
Qed.

(** Alice is refunded, and asks again. *)
Lemma refund_at_most_once_witness :
  exists reason,
    requestRefund
      (run (refunded Scenario.paid_funded "pay_001") [Scenario.bob_reuses_id])
      Scenario.refund_after_1h "pay_001"
    = Revert reason.
Proof.
  assert (Hs : msg_sender Scenario.refund_after_1h <> 0)
    by (vm_compute; discriminate).
  assert (Hok : requestRefund Scenario.paid_funded Scenario.refund_after_1h
                  "pay_001"
                = Ok (refunded Scenario.paid_funded "pay_001")
                     [PaymentRefunded Scenario.alice "pay_001"
                                      Scenario.basic_price])
    by (vm_compute; reflexivity).
  exact (proj1 (refund_at_most_once _ _ _ _ _ [Scenario.bob_reuses_id]
                  Hs Hok Scenario.refund_after_1h)).
Defined.

(** *** The funding of refunds *)

Lemma step_balance st tx :
  amounts_positive st -> 0 <= balance st ->
  0 <= balance (step st tx) <= balance st.
Proof.
  intros Hpos Hb. destruct tx as [e c].
  destruct (step_cases st e c)
    as [-> | [(id & t & _ & _ & ->) | [(id & evs & _ & Href & ->)
                                       | (evs & Hc & Hexec)]]].
  - lia.
  - unfold recorded. simpl. lia.
  - apply requestRefund_Ok in Href. cbv zeta in Href.
    destruct Href as (_ & _ & Hcompleted & _ & _ & Hfunds & _).
    unfold refunded, payments_at in *.
    destruct (payments st !! id) as [p |] eqn:Hp; [| discriminate].
    simpl in *. pose proof (Hpos id p Hp). lia.
  - destruct (admin_keeps_ledger _ _ _ _ _ Hc Hexec)
      as (_ & _ & _ & _ & _ & _ & [-> | [-> _]]); lia.
Qed.

Lemma run_balance txs : forall st,
  well_configured st -> amounts_positive st -> 0 <= balance st ->
  amounts_positive (run st txs) /\ 0 <= balance (run st txs) <= balance st.
Proof.
  induction txs as [| tx txs IH]; intros st Hw Hpos Hb;
    [split; [assumption | simpl; lia] |].
  simpl.
  pose proof (step_balance st tx Hpos Hb) as Hstep.
  destruct (IH (step st tx)) as [Hpos' Hb'];
    [apply step_well_configured | apply step_amounts_positive | lia
     | split; [assumption | lia]];
    assumption.
Qed.

(** X6. No function of the contract lets its balance grow: from a state
    with a valid configuration, positive recorded amounts and a balance that
    is not negative, along any sequence of calls of the contract the balance
    stays between zero and what it was. So a contract whose balance is zero
    pays nothing back by its own means: after any sequence of calls every
    [requestRefund] reverts and so does every [emergencyWithdraw]. *)
Theorem unfunded_contract_never_refunds
        (st : State) (txs : list (Env * Call)) :
  well_configured st ->
  amounts_positive st ->
  0 <= balance st ->
  0 <= balance (run st txs) <= balance st
  /\ (balance st = 0 ->
      (forall e id, exists reason,
          requestRefund (run st txs) e id = Revert reason)
      /\ (forall e, exists reason,
             emergencyWithdraw (run st txs) e = Revert reason)).
Proof.
  intros Hw Hpos Hb.
  destruct (run_balance txs st Hw Hpos Hb) as [Hpos' Hb'].
  split; [exact Hb' |]. intros Hzero.
  assert (Hb0 : balance (run st txs) = 0) by lia.
  split.
  - intros e id.
    destruct (requestRefund (run st txs) e id) as [st2 evs2 | reason] eqn:H;
      [| eauto].
    apply requestRefund_Ok in H. cbv zeta in H.
    destruct H as (_ & _ & Hcompleted & _ & _ & Hfunds & _).
    unfold payments_at in *.
    destruct (payments (run st txs) !! id) as [p |] eqn:Hp;
      [| discriminate].
    simpl in *. pose proof (Hpos' id p Hp). lia.
  - intros e. unfold emergencyWithdraw, onlyOwner. rewrite Hb0.
    repeat case_match; eauto; discriminate.
Qed.

(** The contract deployed at an address that held nothing: Alice pays and
    then asks for her refund. *)
Lemma unfunded_contract_never_refunds_witness :
  balance (run Scenario.deployed [Scenario.alice_pays]) = 0
  /\ exists reason,
      requestRefund (run Scenario.deployed [Scenario.alice_pays])
        Scenario.refund_after_1h "pay_001"
      = Revert reason.
Proof.
  assert (Hvalid : well_configured Scenario.deployed
                   /\ amounts_positive Scenario.deployed).
  { apply (constructor_valid (Scenario.tx Scenario.deployer 0 1000)
             Scenario.treasury Scenario.deployed
             [OwnershipTransferred 0 Scenario.deployer]).
    reflexivity. }
  destruct Hvalid as [Hw Hpos].
  assert (Hb : 0 <= balance Scenario.deployed)
    by (vm_compute; discriminate).
  destruct (unfunded_contract_never_refunds Scenario.deployed
              [Scenario.alice_pays] Hw Hpos Hb)
    as (Hrange & Hr).
  split; [reflexivity | apply Hr; reflexivity].
Defined.

(** *** The counters *)

Lemma sums_ext st st' a ids :
  (forall id, id ∈ ids ->
              identity (payments_at st' id) = identity (payments_at st id)) ->
  sum_amounts st' ids = sum_amounts st ids
  /\ paid_by st' a ids = paid_by st a ids.
Proof.
  induction ids as [| id ids IH]; intros H; [auto |].
  destruct IH as [IH1 IH2].
  { intros id' Hin. apply H. apply elem_of_cons. auto. }
  assert (Hid : identity (payments_at st' id) = identity (payments_at st id))
    by (apply H; apply elem_of_cons; auto).
  unfold identity in Hid. injection Hid as Hp Ha _ _ _.
  simpl. rewrite IH1, IH2, Hp, Ha. auto.
Qed.

Lemma sum_amounts_app st ids1 ids2 :
  sum_amounts st (ids1 ++ ids2) = sum_amounts st ids1 + sum_amounts st ids2.
Proof. induction ids1 as [| id ids1 IH]; simpl; lia. Qed.

Lemma paid_by_app st a ids1 ids2 :
  paid_by st a (ids1 ++ ids2) = paid_by st a ids1 + paid_by st a ids2.
Proof. induction ids1 as [| id ids1 IH]; simpl; lia. Qed.

Lemma consistent_recorded st e id t :
  msg_sender e <> 0 ->
  payable_now st e id t ->
  consistent st -> consistent (recorded st e id t).
Proof.
  intros Hsender Hpay (Hnd & Hin & Htotal & Hsum & Hcount).
  destruct Hpay as (_ & _ & _ & Hfree & _).
  assert (Hnew : id ∉ paymentIds st) by (rewrite Hin; tauto).
  assert (Hold : forall id', id' ∈ paymentIds st ->
                   identity (payments_at (recorded st e id t) id')
                   = identity (payments_at st id')).
  { intros id' Hid'. rewrite payments_at_recorded.
    destruct (decide (id = id')) as [-> |]; [contradiction | reflexivity]. }
  assert (Hself : payments_at (recorded st e id t) id
                  = mkPayment (msg_sender e) (msg_value e) t id true
                              (block_timestamp e)).
  { rewrite payments_at_recorded. destruct (decide (id = id)); done. }
  unfold consistent.
  replace (paymentIds (recorded st e id t)) with (paymentIds st ++ [id])
    by reflexivity.
  split; [| split; [| split; [| split]]].
  - apply NoDup_app. split; [exact Hnd |]. split.
    + intros x Hx Hx'. apply list_elem_of_singleton in Hx'. subst.
      contradiction.
    + apply NoDup_singleton.
  - intros id'. rewrite elem_of_app, list_elem_of_singleton, Hin.
    rewrite payments_at_recorded.
    destruct (decide (id = id')) as [-> |]; simpl; [tauto |].
    split; [intros [? | ?]; [assumption | congruence] | auto].
  - unfold getTotalPayments in *. simpl.
    rewrite length_app. simpl. lia.
  - simpl. rewrite sum_amounts_app. simpl. rewrite Hself. simpl.
    rewrite (proj1 (sums_ext st _ 0 _ Hold)). lia.
  - intros a. rewrite paid_by_app. simpl. rewrite Hself. simpl.
    rewrite (proj2 (sums_ext st _ a _ Hold)).
    unfold getUserPaymentCount, userPaymentCount_at in *. simpl.
    rewrite lookup_insert, <- Hcount.
    destruct (decide (msg_sender e = a)) as [-> |].
    + rewrite Z.eqb_refl. simpl. unfold userPaymentCount_at. lia.
    + destruct (Z.eqb_spec (msg_sender e) a); [contradiction | lia].
Qed.

Lemma consistent_same_ledger st st' :
  paymentIds st' = paymentIds st ->
  totalPaymentsReceived st' = totalPaymentsReceived st ->
  totalAmountCollected st' = totalAmountCollected st ->
  userPaymentCount st' = userPaymentCount st ->
  (forall id, identity (payments_at st' id) = identity (payments_at st id)) ->
  consistent st -> consistent st'.
Proof.
  intros Hids Hr Hc Hu Hid (Hnd & Hin & Htotal & Hsum & Hcount).
  unfold consistent, getTotalPayments, getUserPaymentCount,
    userPaymentCount_at in *.
  rewrite Hids, Hr, Hc, Hu.
  split; [exact Hnd |]. split.
  { intros id. rewrite Hin. specialize (Hid id). unfold identity in Hid.
    injection Hid as -> _ _ _ _. tauto. }
  split; [exact Htotal |]. split.
  - rewrite (proj1 (sums_ext st st' 0 _ (fun id _ => Hid id))). exact Hsum.
  - intros a.
    rewrite (proj2 (sums_ext st st' a _ (fun id _ => Hid id))). apply Hcount.
Qed.

Lemma step_consistent st tx :
  msg_sender (fst tx) <> 0 -> consistent st -> consistent (step st tx).
Proof.
  intros Hsender Hc. destruct tx as [e c]. simpl in Hsender.
  destruct (step_cases st e c)
    as [-> | [(id & t & _ & Hpay & ->) | [(id & evs & _ & _ & ->)
                                          | (evs & Hadm & Hexec)]]].
  - exact Hc.
  - apply consistent_recorded; assumption.
  - apply (consistent_same_ledger st); try reflexivity; [| exact Hc].
    intros id'. apply identity_refunded.
  - destruct (admin_keeps_ledger _ _ _ _ _ Hadm Hexec)
      as (_ & Hp & Hids & Hu & Hr & Ha & _).
    apply (consistent_same_ledger st); auto.
    intros id'. unfold payments_at. rewrite Hp. reflexivity.
Qed.

(** X7. From deployment on, for transactions sent from nonzero addresses,
    the counters agree with the ledger: the list of payment ids has no
    duplicate and holds exactly the ids under which a payment is recorded,
    [getTotalPayments] equals [totalPaymentsReceived],
    [totalAmountCollected] is the sum of the amounts of all listed payments
    (a refund takes nothing off it), and [getUserPaymentCount] of an address
    is the number of listed payments it made. *)
Theorem ledger_consistent
        (e0 : Env) (a : address) (st0 : State) (evs : list Event)
        (txs : list (Env * Call)) :
  constructor e0 a = Ok st0 evs ->
  signed txs ->
  consistent (run st0 txs).
Proof.
  intros Hc Hs.
  assert (H0 : consistent st0).
  { apply constructor_Ok in Hc.
    destruct Hc as (_ & Hp & Hids & Hu & Hr & Ha & _).
    unfold consistent, getTotalPayments, getUserPaymentCount,
      userPaymentCount_at, payments_at.
    rewrite Hids, Hr, Ha, Hu, Hp.
    split; [apply NoDup_nil; exact I |]. split.
    { intros id. rewrite lookup_empty. simpl. rewrite elem_of_nil. tauto. }
    repeat split. }
  clear Hc. revert st0 H0.
  induction Hs as [| tx txs Hsender _ IH]; intros st0 H0; [exact H0 |].
  simpl. apply IH. apply step_consistent; assumption.
Qed.

(** Alice pays, Bob reuses her id, Alice asks for a refund. *)
Lemma ledger_consistent_witness :
  consistent
    (run Scenario.deployed
       [Scenario.alice_pays; Scenario.bob_reuses_id;
        (Scenario.refund_after_1h, RequestRefund "pay_001")]).
Proof.
  apply (ledger_consistent (Scenario.tx Scenario.deployer 0 1000)
           Scenario.treasury Scenario.deployed
           [OwnershipTransferred 0 Scenario.deployer]).
  - reflexivity.
  - repeat constructor; simpl; discriminate.
Defined.

(** *** Pausing *)

Lemma requestRefund_with_paused st b e id :
  requestRefund (with_paused st b) e id
  = on_state (fun s => with_paused s b) (requestRefund st e id).
Proof.
  unfold requestRefund, payments_at, call_value. simpl.
  repeat case_match; reflexivity.
Qed.

Lemma with_paused_same st : with_paused st (paused st) = st.
Proof. destruct st. reflexivity. Qed.

(** X8. While the contract is paused every [processPayment] reverts,
    whatever its arguments; [requestRefund] is not gated by the pause: on a
    paused contract it does exactly what it does on the same contract
    unpaused. *)
Theorem pause_blocks_payments_not_refunds (st : State) :
  paused st = true ->
  (forall e id t, processPayment st e id t = Revert "Pausable: paused")
  /\ (forall e id,
         requestRefund st e id
         = on_state (fun s => with_paused s true)
                    (requestRefund (with_paused st false) e id)).
Proof.
  intros Hp. split.
  - intros e id t. unfold processPayment. rewrite Hp. reflexivity.
  - intros e id. rewrite requestRefund_with_paused.
    rewrite <- (with_paused_same st) at 1. rewrite Hp.
    rewrite requestRefund_with_paused.
    destruct (requestRefund st e id); reflexivity.
Qed.

(** The owner pauses the funded contract; Alice is still refunded. *)
Lemma pause_blocks_payments_not_refunds_witness :
  processPayment
    (step Scenario.paid_funded (Scenario.tx Scenario.deployer 0 3000, Pause))
    (Scenario.tx Scenario.bob Scenario.basic_price 3100) "pay_002" BASIC
  = Revert "Pausable: paused"
  /\ succeeds
       (requestRefund
          (step Scenario.paid_funded
                (Scenario.tx Scenario.deployer 0 3000, Pause))
          Scenario.refund_after_1h "pay_001")
     = true.
Proof.
  assert (Hp : paused (step Scenario.paid_funded
                         (Scenario.tx Scenario.deployer 0 3000, Pause))
               = true) by (vm_compute; reflexivity).
  destruct (pause_blocks_payments_not_refunds _ Hp) as [Hpay Href].
  split; [apply Hpay |].
  rewrite Href. vm_compute. reflexivity.
Defined.

(** *** Price updates *)

(** X9. After a successful [updateTierPrice] for a tier, the other tiers
    cost what they did, and a [processPayment] for the updated tier goes
    through only with the new price attached: a payer who attaches another
    value, such as the price quoted before the update, is reverted. *)
Theorem price_update_takes_effect
        (st : State) (e : Env) (t : PaymentTier) (p : Z) (st' : State)
        (evs : list Event) :
  updateTierPrice st e t p = Ok st' evs ->
  0 < p
  /\ getTierPrice st' t = p
  /\ (forall t', t' <> t -> getTierPrice st' t' = getTierPrice st t')
  /\ (forall e' id,
         succeeds (processPayment st' e' id t) = true -> msg_value e' = p)
  /\ (forall e' id,
         msg_value e' <> p ->
         exists reason, processPayment st' e' id t = Revert reason).
Proof.
  intros H. unfold updateTierPrice, onlyOwner in H.
  repeat case_match; simplify_eq.
  match goal with
  | H : negb (0 <? p) = false |- _ =>
      apply negb_false_iff, Z.ltb_lt in H; rename H into Hp
  end.
  assert (Hnew : getTierPrice
                   (with_tierPrices st (set_tierPrice (tierPrices st) t p)) t
                 = p).
  { unfold getTierPrice, with_tierPrices, set_tierPrice. simpl.
    destruct t; reflexivity. }
  split; [exact Hp |]. split; [exact Hnew |]. split.
  { intros t' Hne. unfold getTierPrice, with_tierPrices, set_tierPrice.
    simpl. destruct t', t; try reflexivity; contradiction. }
  split.
  - intros e' id Hok.
    destruct (processPayment _ e' id t) as [st2 evs2 |] eqn:Hpay;
      [| discriminate].
    apply processPayment_Ok in Hpay.
    destruct Hpay as ((_ & _ & Hv & _) & _). congruence.
  - intros e' id Hne. apply processPayment_Revert_unless_payable.
    unfold payable_now. rewrite Hnew. tauto.
Qed.

(** The owner raises the BASIC price; Alice attaches the old one. *)
Lemma price_update_takes_effect_witness :
  exists reason,
    processPayment
      (step Scenario.deployed
            (Scenario.tx Scenario.deployer 0 1500,
             UpdateTierPrice BASIC 6000000000000000))
      (fst Scenario.alice_pays) "pay_001" BASIC
    = Revert reason.
Proof.
  assert (H : updateTierPrice Scenario.deployed
                (Scenario.tx Scenario.deployer 0 1500) BASIC
                6000000000000000
              = Ok (step Scenario.deployed
                      (Scenario.tx Scenario.deployer 0 1500,
                       UpdateTierPrice BASIC 6000000000000000))
                   [TierPriceUpdated BASIC 6000000000000000])
    by reflexivity.
  apply (proj2 (proj2 (proj2 (proj2
           (price_update_takes_effect _ _ _ _ _ _ H))))).
  vm_compute. discriminate.
Defined.

(** *** Reading the ledger *)

(** X10. What [getPayment] and the counters return after a successful
    [processPayment]: under the id, the sender, the tier's price, the tier,
    [completed] and the block time; under every other id what they returned
    before; the sender's count and the total are one higher and the
    contract's balance is as before. An id never paid under reads as the
    zero payment. *)
Theorem getPayment_after_processPayment
        (st : State) (e : Env) (id : string) (t : PaymentTier) (st' : State)
        (evs : list Event) :
  processPayment st e id t = Ok st' evs ->
  getPayment st' id
  = (msg_sender e, getTierPrice st t, t, true, block_timestamp e)
  /\ (forall id', id' <> id -> getPayment st' id' = getPayment st id')
  /\ getUserPaymentCount st' (msg_sender e)
     = getUserPaymentCount st (msg_sender e) + 1
  /\ (forall a, a <> msg_sender e ->
                getUserPaymentCount st' a = getUserPaymentCount st a)
  /\ getTotalPayments st' = getTotalPayments st + 1
  /\ balance st' = balance st
  /\ (forall id', payments st !! id' = None ->
                  getPayment st id' = (0, 0, BASIC, false, 0)).
Proof.
  intros H. apply processPayment_Ok in H. destruct H as [Hpay ->].
  destruct Hpay as (_ & _ & Hv & Hfree & _).
  unfold getPayment.
  split.
  { rewrite payments_at_recorded. destruct (decide (id = id)); [| done].
    simpl. rewrite Hv. reflexivity. }
  split.
  { intros id' Hne. rewrite payments_at_recorded.
    destruct (decide (id = id')); [congruence | reflexivity]. }
  unfold getUserPaymentCount, userPaymentCount_at, getTotalPayments. simpl.
  split; [rewrite lookup_insert_eq; reflexivity |].
  split; [intros a Hne; rewrite lookup_insert_ne by congruence;
          reflexivity |].
  split; [rewrite length_app; simpl; lia |].
  split; [lia |].
  intros id' Hnone. unfold payments_at. rewrite Hnone. reflexivity.
Qed.

(** Alice's payment on the deployed contract. *)
Lemma getPayment_after_processPayment_witness :
  getPayment Scenario.paid "pay_001"
  = (Scenario.alice, getTierPrice Scenario.deployed BASIC, BASIC, true, 2000).
Proof.
  assert (H : processPayment Scenario.deployed (fst Scenario.alice_pays)
                "pay_001" BASIC
              = Ok Scenario.paid
                   [PaymentReceived Scenario.alice "pay_001"
                                    Scenario.basic_price BASIC 2000])
    by (vm_compute; reflexivity).
  exact (proj1 (getPayment_after_processPayment _ _ _ _ _ _ H)).
Defined.

End LedgerProofs.

(** ** The webhook handler, continued *)

Module WebhookProofs.
Import prisma Spec Table.
Import paymentOperations.

Section Handler.

Variable hmac_sha256_hex : string -> string -> string.
Variable JSON_parse : string -> js WebhookRoute.X402WebhookPayload.
Variable webhookSecret : option string.

Abbreviation POST fetch_generate :=
  (WebhookRoute.POST hmac_sha256_hex JSON_parse fetch_generate
     webhookSecret).
Abbreviation authentic := (Spec.authentic hmac_sha256_hex webhookSecret).

(** X11. [verifyX402Signature] returns true exactly for the digest of the
    payload under the secret, returns false exactly for another signature
    of the digest's length, and throws exactly when the lengths differ. *)
Theorem verifyX402Signature_cases (payload signature secret : string) :
  (WebhookRoute.verifyX402Signature hmac_sha256_hex payload signature secret
   = Return true
   <-> signature = hmac_sha256_hex secret payload)
  /\ (WebhookRoute.verifyX402Signature hmac_sha256_hex payload signature
        secret = Return false
      <-> String.length signature
          = String.length (hmac_sha256_hex secret payload)
          /\ signature <> hmac_sha256_hex secret payload)
  /\ ((exists m,
          WebhookRoute.verifyX402Signature hmac_sha256_hex payload signature
            secret = Throw m)
      <-> String.length signature
          <> String.length (hmac_sha256_hex secret payload)).
Proof.
  unfold WebhookRoute.verifyX402Signature, WebhookRoute.timingSafeEqual.
  set (digest := hmac_sha256_hex secret payload).
  destruct (Nat.eqb_spec (String.length signature) (String.length digest))
    as [Hlen | Hlen];
    destruct (String.eqb_spec signature digest) as [Heq | Hne];
    repeat split; try intros [m H]; intros; try discriminate;
    try congruence; try tauto; eauto.
  all: try (destruct H; congruence).
Qed.

(** The two ways a delivery can go. *)
Lemma webhook_POST_outcome fetch_generate db now request :
  (exists effects response,
      POST fetch_generate db now request = (db, effects, response)
      /\ WebhookRoute.triggers effects = 0%nat
      /\ rejected response)
  \/ (exists payload id s row effects,
         authentic request = true
         /\ JSON_parse (WebhookRoute.rawBody request) = Return payload
         /\ nonempty (WebhookRoute.paymentId payload) = Some id
         /\ WebhookRoute.status payload = Some s
         /\ payment_table db !! id = Some row
         /\ POST fetch_generate db now request
            = (with_row db id (updated row now s (transaction_of payload)),
               effects,
               WebhookRoute.mkResponse 200
                 (WebhookRoute.SuccessBody id s now))
         /\ WebhookRoute.triggers effects = triggers_of s row).
Proof.
  destruct (authentic request) eqn:Hauth.
  2:{ left. revert Hauth.
      unfold Spec.authentic, WebhookRoute.POST,
        WebhookRoute.verifyX402Signature, WebhookRoute.failed, rejected.
      intros Hauth.
      destruct (nonempty (WebhookRoute.x_x402_signature request))
        as [signature |]; [| eexists _, _; simpl; auto].
      destruct (nonempty webhookSecret) as [secret |];
        [| eexists _, _; simpl; auto].
      destruct (WebhookRoute.timingSafeEqual signature _) as [[|] |] eqn:Heq.
      - apply ReconcilerProofs.timingSafeEqual_true in Heq. subst signature.
        rewrite String.eqb_refl in Hauth. discriminate.
      - eexists _, _; simpl; auto.
      - eexists _, _; simpl; auto. }
  destruct (JSON_parse (WebhookRoute.rawBody request))
    as [payload | m] eqn:Hparse.
  2:{ left. pose proof Hauth as Hauth'.
      unfold Spec.authentic in Hauth'.
      unfold WebhookRoute.POST, WebhookRoute.verifyX402Signature.
      destruct (nonempty (WebhookRoute.x_x402_signature request))
        as [signature |]; [| discriminate].
      destruct (nonempty webhookSecret) as [secret |]; [| discriminate].
      apply String.eqb_eq in Hauth'. subst signature.
      rewrite ReconcilerProofs.timingSafeEqual_refl, Hparse.
      eexists _, _. split; [reflexivity |].
      split; [reflexivity |]. unfold rejected. simpl. auto. }
  destruct (nonempty (WebhookRoute.paymentId payload)) as [id |] eqn:Hid;
    [destruct (WebhookRoute.status payload) as [s |] eqn:Hs;
     [destruct (payment_table db !! id) as [row |] eqn:Hrow |] |].
  - right.
    destruct (ReconcilerProofs.POST_applied hmac_sha256_hex JSON_parse
                fetch_generate webhookSecret db now request payload id s
                row Hauth Hparse Hid Hs Hrow) as (effects & H & Ht).
    exists payload, id, s, row, effects. auto 10.
  - left. pose proof Hauth as Hauth'. unfold Spec.authentic in Hauth'.
    unfold WebhookRoute.POST, WebhookRoute.verifyX402Signature.
    destruct (nonempty (WebhookRoute.x_x402_signature request))
      as [signature |]; [| discriminate].
    destruct (nonempty webhookSecret) as [secret |]; [| discriminate].
    apply String.eqb_eq in Hauth'. subst signature.
    rewrite ReconcilerProofs.timingSafeEqual_refl, Hparse, Hid, Hs.
    fold (transaction_of payload).
    rewrite (ReconcilerProofs.updateStatus_unknown _ _ _ _ _ Hrow).
    eexists _, _. split; [reflexivity |].
    split; [reflexivity |]. unfold rejected. simpl. auto.
  - left. pose proof Hauth as Hauth'. unfold Spec.authentic in Hauth'.
    unfold WebhookRoute.POST, WebhookRoute.verifyX402Signature.
    destruct (nonempty (WebhookRoute.x_x402_signature request))
      as [signature |]; [| discriminate].
    destruct (nonempty webhookSecret) as [secret |]; [| discriminate].
    apply String.eqb_eq in Hauth'. subst signature.
    rewrite ReconcilerProofs.timingSafeEqual_refl, Hparse, Hid, Hs.
    eexists _, _. split; [reflexivity |].
    split; [reflexivity |]. unfold rejected. simpl. auto.
  - left. pose proof Hauth as Hauth'. unfold Spec.authentic in Hauth'.
    unfold WebhookRoute.POST, WebhookRoute.verifyX402Signature.
    destruct (nonempty (WebhookRoute.x_x402_signature request))
      as [signature |]; [| discriminate].
    destruct (nonempty webhookSecret) as [secret |]; [| discriminate].
    apply String.eqb_eq in Hauth'. subst signature.
    rewrite ReconcilerProofs.timingSafeEqual_refl, Hparse, Hid.
    eexists _, _. split; [reflexivity |].
    split; [reflexivity |]. unfold rejected. simpl. auto.
Qed.

(** X12. The handler writes to the payment table and calls the generation
    endpoint only when it answers 200, and it answers 200 only to an
    authentic request whose payload names a stored payment and a status.
    Every other request is answered 400, 401 or 500, the database is left
    as it was and the generation endpoint is not called. *)
Theorem webhook_acts_only_on_200
        (fetch_generate : string -> string -> js bool) (db : DB) (now : Z)
        (request : WebhookRoute.Request) :
  (WebhookRoute.http_status (snd (POST fetch_generate db now request)) = 200
   -> authentic request = true
      /\ exists payload id s row,
          JSON_parse (WebhookRoute.rawBody request) = Return payload
          /\ nonempty (WebhookRoute.paymentId payload) = Some id
          /\ WebhookRoute.status payload = Some s
          /\ payment_table db !! id = Some row)
  /\ (WebhookRoute.http_status (snd (POST fetch_generate db now request))
      <> 200
      -> fst (fst (POST fetch_generate db now request)) = db
         /\ WebhookRoute.triggers
              (snd (fst (POST fetch_generate db now request))) = 0%nat
         /\ rejected (snd (POST fetch_generate db now request))).
Proof.
  destruct (webhook_POST_outcome fetch_generate db now request)
    as [(effects & response & -> & Ht & Hr)
       | (payload & id & s & row & effects & Hauth & Hparse & Hid & Hs
          & Hrow & -> & Ht)]; simpl.
  - split; [| auto].
    intros H200. unfold rejected in Hr. rewrite H200 in Hr.
    destruct Hr as [? | [? | ?]]; discriminate.
  - split; [| intros H; contradiction H; reflexivity].
    intros _. split; [exact Hauth |]. exists payload, id, s, row. auto.
Qed.

(** X13. Whatever the request, the handler creates no payment and deletes
    none, leaves the briefs alone, and in every stored payment leaves the
    columns set at creation as they are: the payment id, the brief, the
    brand, the creator, the amount, the currency, the network, the payment
    URL, the expiry, the memo and the creation time. *)
Theorem webhook_keeps_request_columns
        (fetch_generate : string -> string -> js bool) (db : DB) (now : Z)
        (request : WebhookRoute.Request) (id : string) :
  brief_table (fst (fst (POST fetch_generate db now request)))
  = brief_table db
  /\ request_columns
       <$> payment_table (fst (fst (POST fetch_generate db now request)))
             !! id
     = request_columns <$> payment_table db !! id.
Proof.
  destruct (webhook_POST_outcome fetch_generate db now request)
    as [(effects & response & -> & _)
       | (payload & id' & s & row & effects & _ & _ & _ & _ & Hrow & ->
          & _)]; simpl; [auto |].
  split; [reflexivity |].
  rewrite lookup_insert.
  destruct (decide (id' = id)) as [<- |]; [| reflexivity].
  rewrite Hrow. reflexivity.
Qed.

(** X14. One delivery calls the generation endpoint at most once, and only
    when it answers 200 for the status COMPLETED. What the endpoint
    answers, or whether the call fails, changes neither the response of the
    handler nor what it writes. *)
Theorem generation_outcome_is_ignored
        (fetch1 fetch2 : string -> string -> js bool) (db : DB) (now : Z)
        (request : WebhookRoute.Request) :
  fst (fst (POST fetch1 db now request))
  = fst (fst (POST fetch2 db now request))
  /\ snd (POST fetch1 db now request) = snd (POST fetch2 db now request)
  /\ WebhookRoute.triggers (snd (fst (POST fetch1 db now request)))
     = WebhookRoute.triggers (snd (fst (POST fetch2 db now request)))
  /\ (WebhookRoute.triggers (snd (fst (POST fetch1 db now request)))
      <= 1)%nat
  /\ (WebhookRoute.triggers (snd (fst (POST fetch1 db now request)))
      = 1%nat ->
      exists id,
        snd (POST fetch1 db now request)
        = WebhookRoute.mkResponse 200
            (WebhookRoute.SuccessBody id COMPLETED now)).
Proof.
  unfold WebhookRoute.POST, WebhookRoute.failed, WebhookRoute.triggers.
  destruct (nonempty (WebhookRoute.x_x402_signature request))
    as [signature |]; [| simpl; repeat split; auto; discriminate].
  destruct (nonempty webhookSecret) as [secret |];
    [| simpl; repeat split; auto; discriminate].
  destruct (WebhookRoute.verifyX402Signature _ _ _ _) as [[|] |];
    try (simpl; repeat split; auto; discriminate).
  destruct (JSON_parse _) as [payload |];
    [| simpl; repeat split; auto; discriminate].
  destruct (nonempty (WebhookRoute.paymentId payload)) as [id |];
    [| simpl; repeat split; auto; discriminate].
  destruct (WebhookRoute.status payload) as [s |];
    [| simpl; repeat split; auto; discriminate].
  destruct (updateStatus db now id s _) as [[db' row] |];
    [| simpl; repeat split; auto; discriminate].
  destruct s; simpl; try (repeat split; auto; discriminate).
  destruct (nonempty (briefId row)) as [b |];
    [| simpl; repeat split; auto; discriminate].
  destruct (fetch1 b (brandId row)) as [[|] |];
    destruct (fetch2 b (brandId row)) as [[|] |]; simpl;
    repeat split; auto; eauto.
Qed.

(** X15. After the handler answered 200 for a payment and a status, the
    status read path reports that status for that payment. *)
Theorem webhook_then_GET
        (fetch_generate : string -> string -> js bool) (db : DB)
        (now at_ : Z) (request : WebhookRoute.Request) (id : string)
        (s : PaymentStatus) :
  snd (POST fetch_generate db now request)
  = WebhookRoute.mkResponse 200 (WebhookRoute.SuccessBody id s at_) ->
  RequestRoute.http_status
    (RequestRoute.GET (fst (fst (POST fetch_generate db now request)))
                      (Some id)) = 200
  /\ RequestRoute.reported_status
       (RequestRoute.GET (fst (fst (POST fetch_generate db now request)))
                         (Some id))
     = Some s.
Proof.
  destruct (webhook_POST_outcome fetch_generate db now request)
    as [(effects & response & -> & _ & Hr)
       | (payload & id' & s' & row & effects & _ & _ & Hid & _ & Hrow & ->
          & _)]; simpl.
  - intros ->. unfold rejected in Hr. simpl in Hr.
    destruct Hr as [? | [? | ?]]; discriminate.
  - intros [= <- <- _].
    assert (Hne : id' <> "").
    { intros ->. unfold nonempty in Hid.
      destruct (WebhookRoute.paymentId payload) as [x |]; [| discriminate].
      destruct (String.eqb_spec x ""); [discriminate | congruence]. }
    apply (ReconcilerProofs.GET_stored _ id'
             (updated row now s' (transaction_of payload)) Hne).
    unfold with_row. simpl. apply lookup_insert_eq.
Qed.

End Handler.

(** The forged signature of the scenario. *)
Lemma webhook_acts_only_on_200_witness :
  fst (fst (Scenario.POST Scenario.requested
              (Scenario.t0 + 10 * Scenario.minutes)
              Scenario.forged_signature))
  = Scenario.requested.
Proof.
  apply (proj2 (webhook_acts_only_on_200
                  Scenario.hmac_sha256_hex Scenario.JSON_parse
                  (Some Scenario.webhook_secret) Scenario.fetch_generate
                  Scenario.requested (Scenario.t0 + 10 * Scenario.minutes)
                  Scenario.forged_signature)).
  vm_compute. discriminate.
Defined.

(** The completion webhook of the scenario, and the status read after it. *)
Lemma webhook_then_GET_witness :
  RequestRoute.reported_status
    (RequestRoute.GET
       (fst (fst (Scenario.POST Scenario.requested
                    (Scenario.t0 + 10 * Scenario.minutes)
                    Scenario.completion)))
       (Some "pay_001"))
  = Some COMPLETED.
Proof.
  apply (webhook_then_GET
           Scenario.hmac_sha256_hex Scenario.JSON_parse
           (Some Scenario.webhook_secret) Scenario.fetch_generate
           Scenario.requested (Scenario.t0 + 10 * Scenario.minutes)
           (Scenario.t0 + 10 * Scenario.minutes)
           Scenario.completion "pay_001" COMPLETED).
  vm_compute. reflexivity.
Defined.

End WebhookProofs.

(** ** The payment table, continued *)

Module TableProofs.
Import prisma Spec Table.
Import paymentOperations.

(** X16. Two status updates of a stored payment, one after the other: both
    go through; the status is that of the second; [completedAt] is the time
    of the last update to COMPLETED, and an update to another status keeps
    it, so a payment completed and then marked failed still carries its
    completion time; the transaction hash is written by an update whose
    transaction data hold one, cleared by an update whose transaction data
    hold [null] for it, and kept by an update that has none; the columns
    set at creation are unchanged. *)
Theorem updates_accumulate
        (db : DB) (id : string) (row : Payment) (now1 now2 : Z)
        (s1 s2 : PaymentStatus) (td1 td2 : option TransactionData) :
  payment_table db !! id = Some row ->
  exists db2 row2,
    update_all db id [(now1, s1, td1); (now2, s2, td2)] = Return db2
    /\ payment_table db2 !! id = Some row2
    /\ status row2 = s2
    /\ completedAt row2
       = (if status_eqb s2 COMPLETED then Some now2
          else if status_eqb s1 COMPLETED then Some now1
               else completedAt row)
    /\ transactionHash row2
       = match spread td2 td_transactionHash,
               spread td1 td_transactionHash with
         | Value hash, _ => Some hash
         | Null, _ => None
         | Undefined, Value hash => Some hash
         | Undefined, Null => None
         | Undefined, Undefined => transactionHash row
         end
    /\ request_columns row2 = request_columns row.
Proof.
  intros Hrow. simpl.
  rewrite (ReconcilerProofs.updateStatus_known _ _ _ _ _ _ Hrow).
  assert (Hrow1 : payment_table (with_row db id (updated row now1 s1 td1))
                    !! id
                  = Some (updated row now1 s1 td1))
    by (unfold with_row; simpl; apply lookup_insert_eq).
  rewrite (ReconcilerProofs.updateStatus_known _ _ _ _ _ _ Hrow1).
  eexists _, _. split; [reflexivity |].
  split; [unfold with_row; simpl; apply lookup_insert_eq |].
  split; [reflexivity |]. split; [| split].
  - unfold updated, apply_update, or_keep. simpl.
    destruct (status_eqb s2 COMPLETED), (status_eqb s1 COMPLETED);
      reflexivity.
  - unfold updated, apply_update, write. simpl.
    destruct (spread td2 td_transactionHash),
      (spread td1 td_transactionHash); reflexivity.
  - reflexivity.
Qed.

(** The request of the scenario is completed with a transaction hash, then
    marked failed by a payload whose hash is [null]: the completion time
    stays, the hash is gone. *)
Lemma updates_accumulate_witness :
  exists db2 row2,
    update_all Scenario.requested "pay_001"
      [(Scenario.t0 + 1, COMPLETED,
        Some (mkTransactionData (Value "0xabc") Undefined Undefined));
       (Scenario.t0 + 2, FAILED,
        Some (mkTransactionData Null Undefined Undefined))]
    = Return db2
    /\ payment_table db2 !! "pay_001" = Some row2
    /\ status row2 = FAILED
    /\ completedAt row2 = Some (Scenario.t0 + 1)
    /\ transactionHash row2 = None
    /\ request_columns row2 = request_columns Scenario.requested_row.
Proof.
  apply (updates_accumulate Scenario.requested "pay_001"
           Scenario.requested_row (Scenario.t0 + 1) (Scenario.t0 + 2)
           COMPLETED FAILED
           (Some (mkTransactionData (Value "0xabc") Undefined Undefined))
           (Some (mkTransactionData Null Undefined Undefined))).
  vm_compute. reflexivity.
Defined.

End TableProofs.

(** ** The creation of a payment request *)

Module RequestProofs.
Import prisma Spec Table.
Import RequestRoutePost.

Section Handler.

Variable LocalTZA : Z -> bool -> Z.
Variable validation_error : string.
Variable X402_PAYMENT_URL : option string.

Abbreviation POST :=
  (RequestRoutePost.POST LocalTZA validation_error X402_PAYMENT_URL).

Lemma declared_text key type :
  declared key = Some type -> key = promptType_text type.
Proof.
  unfold declared.
  destruct (String.eqb_spec key "basic_prompt");
    [intros [= <-]; assumption |].
  destruct (String.eqb_spec key "premium_prompt");
    [intros [= <-]; assumption |].
  destruct (String.eqb_spec key "enterprise_prompt");
    [intros [= <-]; assumption | discriminate].
Qed.

(** The expiry of a request made at [now]: 24 hours later, corrected by
    the change of the zone's offset between the two ends. *)
Lemma add_hours_24 now expires :
  add_hours LocalTZA now 24 = Some expires ->
  expires
  = now + 86400000
    + (LocalTZA now true
       - LocalTZA (now + LocalTZA now true + 86400000) false).
Proof.
  unfold add_hours, TimeClip, UTC, LocalTime, msPerHour.
  destruct (Z.abs _ <=? 8640000000000000); [| discriminate].
  intros [= <-]. replace (24 * 3600000) with 86400000 by reflexivity. lia.
Qed.

(** The two ways a creation can go. *)
Lemma request_POST_outcome db now uuid json :
  (exists response,
      POST db now uuid json = (db, response)
      /\ (http_status response = 400 \/ http_status response = 500))
  \/ (exists body brand type row expires,
         json = Return body
         /\ nonempty (brandId body) = Some brand
         /\ promptType body = Some (promptType_text type)
         /\ payment_table db !! uuid = None
         /\ add_hours LocalTZA now 24 = Some expires
         /\ prisma.paymentId row = uuid
         /\ prisma.amount row = PAYMENT_AMOUNTS type
         /\ prisma.brandId row = brand
         /\ prisma.briefId row = briefId body
         /\ prisma.currency row = Some "ETH"
         /\ prisma.network row = Some "scroll-sepolia"
         /\ prisma.expiresAt row = Some expires
         /\ prisma.completedAt row = None
         /\ prisma.transactionHash row = None
         /\ POST db now uuid json
            = (with_row db uuid row,
               mkResponse 201
                 (CreatedBody uuid
                    (config_paymentUrl X402_PAYMENT_URL ++ "/" ++ uuid)%string
                    (PAYMENT_AMOUNTS type) "ETH" "scroll-sepolia"
                    expires
                    ((config_paymentUrl X402_PAYMENT_URL ++ "/" ++ uuid)
                     ++ "?format=qr")%string
                    PENDING))).
Proof.
  unfold RequestRoutePost.POST.
  destruct json as [body | m]; [| left; eexists; simpl; auto].
  destruct (nonempty (brandId body)) as [brand |] eqn:Hbrand;
    [| left; eexists; simpl; auto].
  cbv zeta.
  destruct (promptType body) as [key |] eqn:Hkey;
    [| left; eexists; simpl; auto].
  destruct (nonempty (Some key)) as [key' |] eqn:Hkey';
    [| left; eexists; simpl; auto].
  assert (key' = key) as ->.
  { unfold nonempty in Hkey'. destruct key; [discriminate |].
    injection Hkey' as <-. reflexivity. }
  destruct (declared key) as [type |] eqn:Htype.
  2: { destruct (inherited key); [| left; eexists; simpl; auto].
       destruct (add_hours LocalTZA now 24);
         left; eexists; simpl; auto. }
  apply declared_text in Htype. subst key.
  destruct (add_hours LocalTZA now 24) as [expires |] eqn:Hexpires;
    [| left; eexists; simpl; auto].
  unfold paymentOperations.createRequest, payment.create. simpl.
  destruct (payment_table db !! uuid) eqn:Hfresh;
    [left; eexists; simpl; auto |].
  right. eexists body, brand, type, _, expires.
  repeat match goal with |- _ /\ _ => split end.
  15: reflexivity.
  all: first [reflexivity | assumption].
Qed.

(** X17. When the creation of a request is answered 201, the id was not in
    use, the answer quotes the amount of the prompt type, and the status
    read path then reports, under the returned id, the same amount,
    currency, network and expiry. The expiry is the same local time on the
    next day: 24 hours after the request, corrected by the change of the
    offset of the server's time zone between the two ends, so exactly 24
    hours later when that offset is the same at both ends, as on a server
    that runs on UTC. *)
Theorem request_created_then_read
        (db : DB) (now : Z) (uuid : string) (json : js PaymentRequestBody) :
  uuid <> "" ->
  http_status (snd (POST db now uuid json)) = 201 ->
  exists body type s created brief expires,
    json = Return body
    /\ promptType body = Some (promptType_text type)
    /\ payment_table db !! uuid = None
    /\ expires
       = now + 86400000
         + (LocalTZA now true
            - LocalTZA (now + LocalTZA now true + 86400000) false)
    /\ (LocalTZA (now + LocalTZA now true + 86400000) false
        = LocalTZA now true ->
        expires = now + 86400000)
    /\ RequestRoutePost.body (snd (POST db now uuid json))
       = CreatedBody uuid
           (config_paymentUrl X402_PAYMENT_URL ++ "/" ++ uuid)%string
           (PAYMENT_AMOUNTS type) "ETH" "scroll-sepolia" expires
           ((config_paymentUrl X402_PAYMENT_URL ++ "/" ++ uuid)
            ++ "?format=qr")%string
           PENDING
    /\ RequestRoute.GET (fst (POST db now uuid json)) (Some uuid)
       = RequestRoute.mkResponse 200
           (RequestRoute.StatusBody uuid s (PAYMENT_AMOUNTS type)
              (Some "ETH") (Some "scroll-sepolia") created
              (Some expires) None None brief).
Proof.
  intros Huuid H201.
  destruct (request_POST_outcome db now uuid json)
    as [(response & H & Hcode)
       | (body & brand & type & row & expires & -> & Hbrand & Htype & Hfresh
          & Hexpires & Hid & Hamount & _ & _ & Hcur & Hnet & Hexp & Hcomp
          & Htx & H)];
    rewrite H in *; simpl in *.
  { destruct Hcode as [Hc | Hc]; rewrite Hc in H201; discriminate. }
  pose proof (add_hours_24 now expires Hexpires) as Hlater.
  exists body, type, (status row), (prisma.createdAt row).
  eexists. exists expires.
  split; [reflexivity |]. split; [assumption |]. split; [assumption |].
  split; [exact Hlater |]. split; [intros Hsame; lia |].
  split; [reflexivity |].
  unfold RequestRoute.GET, paymentOperations.getByPaymentId,
    payment.findUnique.
  rewrite (ReconcilerProofs.nonempty_Some _ Huuid).
  unfold with_row. simpl. rewrite lookup_insert_eq.
  rewrite Hid, Hamount, Hcur, Hnet, Hexp, Hcomp, Htx. reflexivity.
Qed.

(** X18. The creation of a request touches no stored payment and no brief:
    every payment stored before is stored unchanged after, whatever the
    answer; unless the answer is 201 the database is as it was; and when
    the generated id is already in use the answer is 500. *)
Theorem request_keeps_existing_payments
        (db : DB) (now : Z) (uuid : string) (json : js PaymentRequestBody) :
  brief_table (fst (POST db now uuid json)) = brief_table db
  /\ (forall id row,
         payment_table db !! id = Some row ->
         payment_table (fst (POST db now uuid json)) !! id = Some row)
  /\ (http_status (snd (POST db now uuid json)) <> 201 ->
      fst (POST db now uuid json) = db)
  /\ (forall body brand type row,
         json = Return body ->
         nonempty (brandId body) = Some brand ->
         promptType body = Some (promptType_text type) ->
         payment_table db !! uuid = Some row ->
         http_status (snd (POST db now uuid json)) = 500).
Proof.
  destruct (request_POST_outcome db now uuid json)
    as [(response & H & Hcode)
       | (body & brand & type & row & expires & -> & Hbrand & Htype & Hfresh
          & _ & _ & H)].
  - rewrite H. simpl. repeat split; auto.
    intros body brand type row -> Hbrand Htype Hrow. revert H.
    unfold RequestRoutePost.POST. rewrite Hbrand, Htype. cbv zeta.
    replace (nonempty (Some (promptType_text type)))
      with (Some (promptType_text type)) by (destruct type; reflexivity).
    replace (declared (promptType_text type)) with (Some type)
      by (destruct type; reflexivity).
    destruct (add_hours LocalTZA now 24); [| intros [= <-]; reflexivity].
    unfold paymentOperations.createRequest, payment.create. simpl.
    rewrite Hrow. intros [= <-]. reflexivity.
  - destruct H as (_ & _ & _ & _ & _ & _ & _ & _ & H).
    rewrite H. simpl. split; [reflexivity |]. split.
    + intros id row' Hrow'. rewrite lookup_insert_ne; [exact Hrow' |].
      intros <-. congruence.
    + split; [intros Hn; contradiction Hn; reflexivity |].
      intros body' brand' type' row' _ _ _ Hrow'. congruence.
Qed.

End Handler.

(** A server that runs on UTC: the request made at [t0] expires exactly 24
    hours later. *)
Lemma request_created_then_read_witness :
  exists s created brief,
    RequestRoute.GET
      (fst (RequestRoutePost.POST Server.utc Server.validation_error None
              Scenario.no_payments Scenario.t0 "pay_001"
              (Return (mkBody (Some "brief_1") (Some "brand_1")
                              (Some "basic_prompt") None None))))
      (Some "pay_001")
    = RequestRoute.mkResponse 200
        (RequestRoute.StatusBody "pay_001" s "5000000000000000"
           (Some "ETH") (Some "scroll-sepolia") created
           (Some (Scenario.t0 + 86400000)) None None brief).
Proof.
  destruct (request_created_then_read Server.utc Server.validation_error None
              Scenario.no_payments Scenario.t0 "pay_001"
              (Return (mkBody (Some "brief_1") (Some "brand_1")
                              (Some "basic_prompt") None None)))
    as (body & type & s & created & brief & expires & Hjson & Htype & _ & _
        & Hsame & _ & Hget).
  - discriminate.
  - vm_compute. reflexivity.
  - injection Hjson as <-. simpl in Htype.
    destruct type; try discriminate Htype.
    rewrite (Hsame eq_refl) in Hget.
    exists s, created, brief. exact Hget.
Defined.

(** A server on Central European time, the day before the clocks go back:
    the request made at noon UTC expires 25 hours later. *)
Example expiry_when_the_clocks_go_back :
  exists db,
    RequestRoutePost.POST Server.central_europe Server.validation_error None
      Scenario.no_payments 1761393600000 "pay_001"
      (Return (mkBody (Some "brief_1") (Some "brand_1")
                      (Some "basic_prompt") None None))
    = (db,
       mkResponse 201
         (CreatedBody "pay_001" "https://api.x402.protocol/payments/pay_001"
            "5000000000000000" "ETH" "scroll-sepolia"
            (1761393600000 + 25 * 3600000)
            "https://api.x402.protocol/payments/pay_001?format=qr"
            PENDING)).
Proof. eexists. vm_compute. reflexivity. Qed.

(** A prompt type that names a member of [Object.prototype] passes the
    validation, and the creation of the row is rejected: the answer is 500,
    not 400, and nothing is stored. *)
Example inherited_prompt_type_answered_500 :
  RequestRoutePost.POST Server.utc Server.validation_error None
    Scenario.no_payments Scenario.t0 "pay_001"
    (Return (mkBody (Some "brief_1") (Some "brand_1")
                    (Some "toString") None None))
  = (Scenario.no_payments,
     mkResponse 500
       (ErrorBody "Failed to create payment request"
                  (Some Server.validation_error))).
Proof. reflexivity. Qed.

End RequestProofs.

(** ** The client: time left and polling *)

Module ClientProofs.
Import prisma.
Import PaymentStatusTracker usePaymentStatus.

Lemma two_digits (s : Z) :
  0 <= s < 60 -> String.length (padStart2 (pretty s)) = 2%nat.
Proof.
  intros Hs.
  assert (H : forall n : nat,
             (n < 60)%nat ->
             String.length (padStart2 (pretty (Z.of_nat n))) = 2%nat).
  { intros n Hn.
    do 60 (destruct n as [| n]; [vm_compute; reflexivity |]). lia. }
  rewrite <- (Z2Nat.id s) by lia. apply H. lia.
Qed.

(** X19. The time left shown for a payment: [Expired] from the expiry on;
    before it, minutes and seconds in the form m:ss, the seconds below 60
    and always on two digits, which together fall short of the time left
    by less than one second. A payment without expiry shows nothing. *)
Theorem getTimeRemaining_parts (expires now : Z) :
  getTimeRemaining None now = None
  /\ (expires <= now -> getTimeRemaining (Some expires) now = Some "Expired")
  /\ (now < expires ->
      exists m s,
        getTimeRemaining (Some expires) now
        = Some (pretty m ++ ":" ++ padStart2 (pretty s))%string
        /\ 0 <= m
        /\ 0 <= s < 60
        /\ 60000 * m + 1000 * s <= expires - now
           < 60000 * m + 1000 * s + 1000
        /\ String.length (padStart2 (pretty s)) = 2%nat).
Proof.
  split; [reflexivity |]. unfold getTimeRemaining. split.
  - intros H. destruct (Z.leb_spec (expires - now) 0); [reflexivity | lia].
  - intros H. destruct (Z.leb_spec (expires - now) 0); [lia |].
    set (remaining := expires - now) in *.
    exists (remaining / 60000), (remaining mod 60000 / 1000).
    pose proof (Z.mod_pos_bound remaining 60000 ltac:(lia)) as Hmod.
    pose proof (Z.div_mod remaining 60000 ltac:(lia)) as Hdm.
    pose proof (Z.div_mod (remaining mod 60000) 1000 ltac:(lia)) as Hdm'.
    pose proof (Z.mod_pos_bound (remaining mod 60000) 1000 ltac:(lia))
      as Hmod'.
    assert (Hm : 0 <= remaining / 60000) by (apply Z.div_pos; lia).
    assert (Hs : 0 <= remaining mod 60000 / 1000 < 60).
    { split; [apply Z.div_pos; lia |].
      apply Z.div_lt_upper_bound; lia. }
    split; [reflexivity |]. split; [exact Hm |]. split; [exact Hs |].
    split; [lia |]. apply two_digits. exact Hs.
Qed.

(** Ninety-five and a half seconds before the expiry: [1:35]. *)
Lemma getTimeRemaining_parts_witness :
  exists m s,
    getTimeRemaining (Some (Scenario.t0 + 95500)) Scenario.t0
    = Some (pretty m ++ ":" ++ padStart2 (pretty s))%string
    /\ 0 <= m
    /\ 0 <= s < 60
    /\ 60000 * m + 1000 * s <= Scenario.t0 + 95500 - Scenario.t0
       < 60000 * m + 1000 * s + 1000
    /\ String.length (padStart2 (pretty s)) = 2%nat.
Proof.
  apply (proj2 (proj2 (getTimeRemaining_parts (Scenario.t0 + 95500)
                         Scenario.t0))).
  vm_compute. reflexivity.
Defined.

Example time_left_95_seconds :
  getTimeRemaining (Some (Scenario.t0 + 95500)) Scenario.t0 = Some "1:35"
  /\ getTimeRemaining (Some (Scenario.t0 + 60000)) Scenario.t0 = Some "1:00"
  /\ getTimeRemaining (Some (Scenario.t0 + 999)) Scenario.t0 = Some "0:00"
  /\ getTimeRemaining (Some Scenario.t0) Scenario.t0 = Some "Expired".
Proof. repeat split; vm_compute; reflexivity. Qed.

(** *** The polling loop *)

Lemma poll_idle o st now fetched :
  isPolling st = false -> poll o st now fetched = (st, []).
Proof.
  intros H. unfold poll. rewrite H. destruct (nonempty _); reflexivity.
Qed.

Lemma GET_of_stored db id row :
  id <> "" ->
  payment_table db !! id = Some row ->
  ok (RequestRoute.GET db (Some id)) = true
  /\ status_of (Some (RequestRoute.body (RequestRoute.GET db (Some id))))
     = Some (status row).
Proof.
  intros Hid Hrow.
  unfold RequestRoute.GET, paymentOperations.getByPaymentId,
    payment.findUnique.
  rewrite (ReconcilerProofs.nonempty_Some _ Hid), Hrow. split; reflexivity.
Qed.

Lemma fetches_app es1 es2 :
  fetches (es1 ++ es2) = (fetches es1 + fetches es2)%nat.
Proof. unfold fetches. rewrite filter_app, length_app. reflexivity. Qed.

(** A fetch that is answered with a status. *)
Lemma fetch_ok o st id response s :
  nonempty (paymentId o) = Some id ->
  ok response = true ->
  status_of (Some (RequestRoute.body response)) = Some s ->
  exists st' effects,
    fetchPaymentStatus o st (Return response) = (st', effects, false)
    /\ fetches effects = 1%nat
    /\ callbacks effects
       = match s with
         | COMPLETED => [OnSuccess]
         | FAILED => [OnFailure]
         | EXPIRED => [OnExpired]
         | _ => []
         end
    /\ payment st' = Some (RequestRoute.body response)
    /\ isPolling st'
       = (if stops_polling (Some s) then false else isPolling st)
    /\ pollingStartTime st' = pollingStartTime st
    /\ error st' = None.
Proof.
  intros Hid Hok Hs. unfold fetchPaymentStatus.
  rewrite Hid, Hok. cbv zeta. rewrite Hs. simpl negb. cbv iota.
  destruct s; destruct (status_of (payment st)) as [[] |];
    eexists _, _; (split; [reflexivity |]); repeat split; reflexivity.
Qed.

(** A poll past the ceiling. *)
Lemma poll_timeout o st late fetched id start :
  nonempty (paymentId o) = Some id ->
  isPolling st = true ->
  pollingStartTime st = Some start ->
  start <> 0 ->
  maxPollingDuration o < late - start ->
  poll o st late fetched
  = ({| payment := payment st; isLoading := isLoading st;
        error := Some PollingTimeout; isPolling := false;
        pollingStartTime := pollingStartTime st |}, []).
Proof.
  intros Hid Hpolling Hstart Hne Hlate. unfold poll.
  rewrite Hid, Hpolling, Hstart. simpl.
  destruct (Z.eqb_spec start 0); [contradiction |].
  destruct (Z.ltb_spec (maxPollingDuration o) (late - start)); [| lia].
  reflexivity.
Qed.

(** A poll within the ceiling whose closure holds no final status. *)
Lemma poll_fetches o st now fetched id :
  nonempty (paymentId o) = Some id ->
  isPolling st = true ->
  match pollingStartTime st with
  | Some start => start = 0 \/ now - start <= maxPollingDuration o
  | None => True
  end ->
  stops_polling (status_of (payment st)) = false ->
  poll o st now fetched
  = (let '(st', effects, rejected) := fetchPaymentStatus o st fetched in
     (st', effects ++ if rejected then [ConsoleWarn] else [])).
Proof.
  intros Hid Hpolling Hwindow Hknown. unfold poll.
  rewrite Hid, Hpolling, Hknown. simpl negb. cbv iota.
  destruct (pollingStartTime st) as [start |]; [| reflexivity].
  destruct (Z.eqb_spec start 0); simpl; [reflexivity |].
  destruct (Z.ltb_spec (maxPollingDuration o) (now - start));
    [| reflexivity].
  destruct Hwindow; [contradiction | lia].
Qed.

(** A poll within the ceiling whose closure holds no final status sends
    one request to the status route. *)
Lemma poll_sends_one_request o db st now id row :
  paymentId o = Some id ->
  id <> "" ->
  payment_table db !! id = Some row ->
  isPolling st = true ->
  match pollingStartTime st with
  | Some start => start = 0 \/ now - start <= maxPollingDuration o
  | None => True
  end ->
  stops_polling (status_of (payment st)) = false ->
  fetches (snd (poll o st now (Return (RequestRoute.GET db (paymentId o)))))
  = 1%nat.
Proof.
  intros Ho Hid Hrow Hpolling Hwindow Hknown.
  destruct (GET_of_stored db id row Hid Hrow) as [Hok Hstatus].
  assert (Hoid : nonempty (paymentId o) = Some id)
    by (rewrite Ho; apply ReconcilerProofs.nonempty_Some; exact Hid).
  rewrite (poll_fetches o st now _ id Hoid Hpolling Hwindow Hknown), Ho.
  destruct (fetch_ok o st id (RequestRoute.GET db (Some id)) (status row)
              Hoid Hok Hstatus)
    as (st' & effects & -> & Hn & _).
  simpl. rewrite app_nil_r. exact Hn.
Qed.



(** X21. A poll later than [maxPollingDuration] after the start sends no
    request, sets [isPolling] to false and the timeout error, and keeps the
    payment and the start time. That ends the polling only when the payment
    last received is not PENDING or PROCESSING, and then the auto-start
    effect leaves the state as it is. For a payment last received as
    PENDING or PROCESSING the auto-start effect, run on the state the
    timeout leaves, starts the polling again with the time of its run as
    the new start, the timeout error still set, and a poll within
    [maxPollingDuration] of that new start sends a request again: the
    ceiling bounds one run of the polling, not the polling of a pending
    payment. *)
Theorem timeout_restarts_pending_polling
        (o : Options) (st : State) (late restart : Z)
        (fetched : js RequestRoute.Response) (id : string) (start : Z) :
  paymentId o = Some id ->
  id <> "" ->
  isPolling st = true ->
  pollingStartTime st = Some start ->
  start <> 0 ->
  maxPollingDuration o < late - start ->
  snd (poll o st late fetched) = []
  /\ isPolling (fst (poll o st late fetched)) = false
  /\ error (fst (poll o st late fetched)) = Some PollingTimeout
  /\ payment (fst (poll o st late fetched)) = payment st
  /\ pollingStartTime (fst (poll o st late fetched)) = Some start
  /\ (status_of (payment st) = Some PENDING
      \/ status_of (payment st) = Some PROCESSING ->
      isPolling (autoStart o (fst (poll o st late fetched)) restart) = true
      /\ pollingStartTime
           (autoStart o (fst (poll o st late fetched)) restart)
         = Some restart
      /\ error (autoStart o (fst (poll o st late fetched)) restart)
         = Some PollingTimeout
      /\ forall db row now,
          payment_table db !! id = Some row ->
          now - restart <= maxPollingDuration o ->
          fetches
            (snd (poll o
                    (autoStart o (fst (poll o st late fetched)) restart)
                    now (Return (RequestRoute.GET db (paymentId o)))))
          = 1%nat)
  /\ (status_of (payment st) <> Some PENDING ->
      status_of (payment st) <> Some PROCESSING ->
      autoStart o (fst (poll o st late fetched)) restart
      = fst (poll o st late fetched)).
Proof.
  intros Ho Hid Hpolling Hstart Hne Hlate.
  pose proof (ReconcilerProofs.nonempty_Some _ Hid) as Hnonempty.
  assert (Hoid : nonempty (paymentId o) = Some id)
    by (rewrite Ho; exact Hnonempty).
  rewrite (poll_timeout o st late fetched id start Hoid Hpolling Hstart Hne
             Hlate).
  simpl fst. simpl snd.
  split; [reflexivity |]. split; [reflexivity |]. split; [reflexivity |].
  split; [reflexivity |]. split; [exact Hstart |]. split.
  - intros Hpending.
    set (st1 := {| payment := payment st; isLoading := isLoading st;
                   error := Some PollingTimeout; isPolling := false;
                   pollingStartTime := pollingStartTime st |}).
    assert (Hauto : autoStart o st1 restart
                    = {| payment := payment st; isLoading := isLoading st;
                         error := Some PollingTimeout; isPolling := true;
                         pollingStartTime := Some restart |}).
    { unfold autoStart, startPolling. simpl. rewrite Hoid.
      destruct Hpending as [-> | ->]; reflexivity. }
    rewrite Hauto. simpl.
    split; [reflexivity |]. split; [reflexivity |]. split; [reflexivity |].
    intros db row now Hrow Hnow.
    apply (poll_sends_one_request o db _ now id row Ho Hid Hrow).
    + reflexivity.
    + simpl. right. exact Hnow.
    + simpl. destruct Hpending as [-> | ->]; reflexivity.
  - intros Hp1 Hp2. unfold autoStart. simpl.
    destruct (status_of (payment st)) as [[] |]; try reflexivity;
      congruence.
Qed.

(** A hook that holds the pending payment of the scenario, polled 5 minutes
    and one millisecond after the start: the timeout, then the auto-start
    effect, then a poll that sends a request. *)
Lemma timeout_restarts_pending_polling_witness :
  fetches
    (snd (poll (default_options (Some "pay_001"))
               (autoStart (default_options (Some "pay_001"))
                  (fst (poll (default_options (Some "pay_001"))
                          HookScenario.polling_pending
                          (Scenario.t0 + 300001)
                          (Return
                             (RequestRoute.GET Scenario.requested
                                (Some "pay_001")))))
                  (Scenario.t0 + 300002))
               (Scenario.t0 + 303001)
               (Return (RequestRoute.GET Scenario.requested
                          (Some "pay_001")))))
  = 1%nat.
Proof.
  destruct (timeout_restarts_pending_polling
              (default_options (Some "pay_001")) HookScenario.polling_pending
              (Scenario.t0 + 300001) (Scenario.t0 + 300002)
              (Return (RequestRoute.GET Scenario.requested (Some "pay_001")))
              "pay_001" Scenario.t0)
    as (_ & _ & _ & _ & _ & Hrestart & _).
  - reflexivity.
  - discriminate.
  - reflexivity.
  - reflexivity.
  - vm_compute. discriminate.
  - vm_compute. reflexivity.
  - destruct (Hrestart (or_introl eq_refl)) as (_ & _ & _ & Hfetch).
    apply (Hfetch Scenario.requested Scenario.requested_row
             (Scenario.t0 + 303001)).
    + vm_compute. reflexivity.
    + vm_compute. discriminate.
Defined.

End ClientProofs.

(** ** The generated prompt *)

Module PromptProofs.
Import openai.

Lemma trimStart_split s :
  exists pre,
    s = pre ++ trimStart s
    /\ forallb is_space pre = true
    /\ (forall c rest, trimStart s = c :: rest -> is_space c = false).
Proof.
  induction s as [| c s (pre & Hs & Hpre & Hhead)].
  - exists []. repeat split. discriminate.
  - simpl. destruct (is_space c) eqn:Hc.
    + exists (c :: pre). simpl. rewrite Hc, Hpre.
      split; [congruence |]. split; [reflexivity | exact Hhead].
    + exists []. repeat split. intros c' rest [= <- _]. exact Hc.
Qed.

Lemma forallb_rev {A} (f : A -> bool) l :
  forallb f (rev l) = forallb f l.
Proof.
  induction l as [| x l IH]; [reflexivity |].
  simpl. rewrite forallb_app, IH. simpl. rewrite andb_true_r.
  apply andb_comm.
Qed.

Lemma trimEnd_split s :
  exists post,
    s = trimEnd s ++ post
    /\ forallb is_space post = true
    /\ (forall c init, trimEnd s = init ++ [c] -> is_space c = false).
Proof.
  destruct (trimStart_split (rev s)) as (pre & Hs & Hpre & Hhead).
  exists (rev pre). unfold trimEnd. split.
  - rewrite <- rev_app_distr, <- Hs. symmetry. apply rev_involutive.
  - split; [rewrite forallb_rev; exact Hpre |].
    intros c init H. apply (f_equal (@rev Z)) in H.
    rewrite rev_involutive, rev_app_distr in H. simpl in H.
    exact (Hhead _ _ H).
Qed.

Lemma trim_split s :
  exists pre post,
    s = pre ++ trim s ++ post
    /\ forallb is_space pre = true
    /\ forallb is_space post = true
    /\ (forall c rest, trim s = c :: rest -> is_space c = false)
    /\ (forall c init, trim s = init ++ [c] -> is_space c = false).
Proof.
  destruct (trimStart_split s) as (pre & Hs & Hpre & Hhead).
  destruct (trimEnd_split (trimStart s)) as (post & Ht & Hpost & Hlast).
  exists pre, post. unfold trim.
  split; [rewrite <- Ht; exact Hs |].
  split; [exact Hpre |]. split; [exact Hpost |].
  split; [| exact Hlast].
  intros c rest H. rewrite H in Ht. simpl in Ht.
  exact (Hhead _ _ Ht).
Qed.

Lemma trim_blank s : forallb is_space s = true -> trim s = [].
Proof.
  intros H. unfold trim.
  assert (Hs : trimStart s = []).
  { induction s as [| c s IH]; [reflexivity |].
    simpl in *. apply andb_prop in H. destruct H as [-> H]. auto. }
  rewrite Hs. reflexivity.
Qed.

(** X22. [validateMainPrompt] accepts exactly the prompts of 50 to 500 code
    units and returns the prompt without the white space at its two ends.
    The length is checked before the trimming: what is returned is at most
    as long as the prompt, can be shorter than 50, and is empty for a
    prompt of white space only. *)
Theorem validateMainPrompt_checks_then_trims (prompt : jsstring) :
  (50 <= length_of prompt <= 500 ->
   validateMainPrompt (Some prompt) = Return (trim prompt))
  /\ (~ 50 <= length_of prompt <= 500 ->
      exists message, validateMainPrompt (Some prompt) = Throw message)
  /\ (exists pre post,
         prompt = pre ++ trim prompt ++ post
         /\ forallb is_space pre = true
         /\ forallb is_space post = true)
  /\ (forall c rest, trim prompt = c :: rest -> is_space c = false)
  /\ (forall c init, trim prompt = init ++ [c] -> is_space c = false)
  /\ length_of (trim prompt) <= length_of prompt
  /\ (forallb is_space prompt = true -> trim prompt = []).
Proof.
  unfold validateMainPrompt.
  destruct (trim_split prompt) as (pre & post & Hs & Hpre & Hpost & Hh & Hl).
  split.
  { intros [H1 H2].
    destruct (Z.eqb_spec (length_of prompt) 0); [lia |].
    destruct (Z.ltb_spec (length_of prompt) 50); [lia |].
    destruct (Z.ltb_spec 500 (length_of prompt)); [lia |]. reflexivity. }
  split.
  { intros Hn.
    destruct (Z.eqb_spec (length_of prompt) 0); [simpl; eauto |].
    destruct (Z.ltb_spec (length_of prompt) 50); [simpl; eauto |].
    destruct (Z.ltb_spec 500 (length_of prompt)); [simpl; eauto | lia]. }
  split; [eauto |]. split; [exact Hh |]. split; [exact Hl |].
  split; [| apply trim_blank].
  unfold length_of. rewrite Hs at 2. rewrite !length_app. lia.
Qed.

(** Fifty blanks are accepted, and come out empty. *)
Lemma validateMainPrompt_checks_then_trims_witness :
  validateMainPrompt (Some (repeat 32 50)) = Return (trim (repeat 32 50))
  /\ trim (repeat 32 50) = [].
Proof.
  split.
  - apply (proj1 (validateMainPrompt_checks_then_trims (repeat 32 50))).
    vm_compute. split; discriminate.
  - apply (proj2 (proj2 (proj2 (proj2 (proj2 (proj2
             (validateMainPrompt_checks_then_trims (repeat 32 50)))))))).
    reflexivity.
Defined.

Lemma at_least_Return minimum message text out :
  at_least minimum message text = Return out ->
  exists t, text = Some t /\ minimum <= length_of t /\ 0 < length_of t
            /\ out = trim t.
Proof.
  unfold at_least. destruct text as [t |]; [| discriminate].
  destruct (Z.eqb_spec (length_of t) 0); [discriminate |].
  destruct (Z.ltb_spec (length_of t) minimum); [discriminate |].
  intros [= <-]. exists t. repeat split; auto.
  unfold length_of in *. lia.
Qed.

Lemma at_least_accepts minimum message t :
  0 < minimum -> minimum <= length_of t ->
  at_least minimum message (Some t) = Return (trim t).
Proof.
  intros Hpos Hlen. unfold at_least.
  destruct (Z.eqb_spec (length_of t) 0); [lia |].
  destruct (Z.ltb_spec (length_of t) minimum); [lia |]. reflexivity.
Qed.

Lemma validateMainPrompt_Return text out :
  validateMainPrompt text = Return out ->
  exists t, text = Some t /\ 50 <= length_of t <= 500 /\ out = trim t.
Proof.
  unfold validateMainPrompt. destruct text as [t |]; [| discriminate].
  destruct (Z.eqb_spec (length_of t) 0); [discriminate |].
  destruct (Z.ltb_spec (length_of t) 50); [discriminate |].
  destruct (Z.ltb_spec 500 (length_of t)); [discriminate |].
  intros [= <-]. exists t. repeat split; auto.
Qed.

Lemma validateMainPrompt_accepts t :
  50 <= length_of t <= 500 -> validateMainPrompt (Some t) = Return (trim t).
Proof.
  intros [H1 H2]. unfold validateMainPrompt.
  destruct (Z.eqb_spec (length_of t) 0); [lia |].
  destruct (Z.ltb_spec (length_of t) 50); [lia |].
  destruct (Z.ltb_spec 500 (length_of t)); [lia |]. reflexivity.
Qed.

Lemma or_else_truthy value fallback :
  truthy fallback = true -> truthy (or_else value fallback) = true.
Proof.
  intros H. unfold or_else. destruct value as [v |]; [| exact H].
  destruct (truthy v) eqn:Hv; assumption.
Qed.

Section Response.

Variable JSON_parse : string -> js json.
Variable ToNumber : json -> option number.

Abbreviation process := (processVeoPromptResponse JSON_parse ToNumber).

(** A validator returns only when it is handed a string. *)
Lemma handed_Return validate parameter minimum limit v out :
  (exists m, validate None = Throw m) ->
  handed ToNumber validate parameter minimum limit v = Return out ->
  exists text, v = Some (JString text) /\ validate (Some text) = Return out.
Proof.
  intros [m Hnone]. unfold handed.
  destruct v as [[| b | n | text | items | members] |];
    rewrite ?Hnone; try discriminate;
    try (intros H; exists text; split; [reflexivity | exact H]);
    repeat case_match; discriminate.
Qed.

(** X23. [processVeoPromptResponse] returns a prompt exactly when the
    content parses to an object whose six texts are strings of at least 50
    and at most 500 code units for the main prompt, 10 for the visual
    style, the camera work, the characters and the product placement, and
    5 for the lighting; a member that is absent, or is not a string, makes
    it throw. The six texts of the prompt are the trimmed texts of the
    answer. The duration, the aspect ratio, the frame rate and the tips are
    the values the answer holds for them when these are truthy, whatever
    their kind, and [30s], [16:9], [24] and the empty list otherwise: they
    are truthy, not necessarily texts. Every failure is reported under the
    prefix [Failed to parse Veo prompt response: ]. *)
Theorem processVeoPromptResponse_cases (content : string) :
  (forall prompt,
      process content = Return prompt ->
      exists members main style camera light chars placement,
        JSON_parse content = Return (JObject members)
        /\ member_of "mainPrompt" members = Some (JString main)
        /\ member_of "visualStyle" members = Some (JString style)
        /\ member_of "cameraWork" members = Some (JString camera)
        /\ member_of "lighting" members = Some (JString light)
        /\ member_of "characters" members = Some (JString chars)
        /\ member_of "productPlacement" members = Some (JString placement)
        /\ 50 <= length_of main <= 500
        /\ 10 <= length_of style
        /\ 10 <= length_of camera
        /\ 5 <= length_of light
        /\ 10 <= length_of chars
        /\ 10 <= length_of placement
        /\ r_mainPrompt prompt = trim main
        /\ r_visualStyle prompt = trim style
        /\ r_cameraWork prompt = trim camera
        /\ r_lighting prompt = trim light
        /\ r_characters prompt = trim chars
        /\ r_productPlacement prompt = trim placement
        /\ r_duration prompt
           = or_else (spec_of (JObject members) "duration")
                     (JString (units "30s"))
        /\ r_aspectRatio prompt
           = or_else (spec_of (JObject members) "aspectRatio")
                     (JString (units "16:9"))
        /\ r_fps prompt
           = or_else (spec_of (JObject members) "fps")
                     (JString (units "24"))
        /\ r_optimizationTips prompt
           = or_else (member_of "optimizationTips" members) (JArray [])
        /\ truthy (r_duration prompt) = true
        /\ truthy (r_aspectRatio prompt) = true
        /\ truthy (r_fps prompt) = true
        /\ truthy (r_optimizationTips prompt) = true)
  /\ (forall members main style camera light chars placement,
         JSON_parse content = Return (JObject members) ->
         member_of "mainPrompt" members = Some (JString main) ->
         member_of "visualStyle" members = Some (JString style) ->
         member_of "cameraWork" members = Some (JString camera) ->
         member_of "lighting" members = Some (JString light) ->
         member_of "characters" members = Some (JString chars) ->
         member_of "productPlacement" members = Some (JString placement) ->
         50 <= length_of main <= 500 ->
         10 <= length_of style ->
         10 <= length_of camera ->
         5 <= length_of light ->
         10 <= length_of chars ->
         10 <= length_of placement ->
         exists prompt, process content = Return prompt)
  /\ (forall message,
         process content = Throw message ->
         exists reason,
           message
           = ("Failed to parse Veo prompt response: " ++ reason)%string).
Proof.
  unfold processVeoPromptResponse. split; [| split].
  - intros prompt.
    destruct (JSON_parse content) as [parsed |]; [| discriminate]. simpl.
    destruct parsed as [| b | n | text | items | members];
      try discriminate;
      try (unfold get, handed; simpl; discriminate).
    unfold get.
    destruct (handed ToNumber validateMainPrompt _ _ _ _) as [main |] eqn:H1;
      [| discriminate]. simpl.
    destruct (handed ToNumber validateVisualStyle _ _ _ _) as [style |] eqn:H2;
      [| discriminate]. simpl.
    destruct (handed ToNumber validateCameraWork _ _ _ _) as [camera |] eqn:H3;
      [| discriminate]. simpl.
    destruct (handed ToNumber validateLighting _ _ _ _) as [light |] eqn:H4;
      [| discriminate]. simpl.
    destruct (handed ToNumber validateCharacters _ _ _ _) as [chars |] eqn:H5;
      [| discriminate]. simpl.
    destruct (handed ToNumber validateProductPlacement _ _ _ _)
      as [placement |] eqn:H6; [| discriminate]. simpl.
    intros [= <-].
    apply handed_Return in H1, H2, H3, H4, H5, H6;
      try (eexists; reflexivity).
    destruct H1 as (t1 & E1 & H1), H2 as (t2 & E2 & H2),
      H3 as (t3 & E3 & H3), H4 as (t4 & E4 & H4), H5 as (t5 & E5 & H5),
      H6 as (t6 & E6 & H6).
    apply validateMainPrompt_Return in H1.
    apply at_least_Return in H2, H3, H4, H5, H6.
    destruct H1 as (? & [= <-] & ? & ->),
      H2 as (? & [= <-] & ? & _ & ->), H3 as (? & [= <-] & ? & _ & ->),
      H4 as (? & [= <-] & ? & _ & ->), H5 as (? & [= <-] & ? & _ & ->),
      H6 as (? & [= <-] & ? & _ & ->).
    exists members, t1, t2, t3, t4, t5, t6. simpl.
    repeat split; auto; try lia; apply or_else_truthy; reflexivity.
  - intros members main style camera light chars placement
      -> E1 E2 E3 E4 E5 E6 L1 L2 L3 L4 L5 L6.
    simpl. unfold get, handed. rewrite E1, E2, E3, E4, E5, E6.
    rewrite (validateMainPrompt_accepts main L1).
    unfold validateVisualStyle, validateCameraWork, validateLighting,
      validateCharacters, validateProductPlacement.
    rewrite !at_least_accepts by lia. simpl. eauto.
  - intros message.
    destruct (and_then _ _); [discriminate |].
    intros [= <-]. eauto.
Qed.

End Response.

(** The answer of the scenario: the blanks around the main prompt are gone
    and the technical specifications are the defaults. *)
Lemma processVeoPromptResponse_cases_witness :
  processVeoPromptResponse PromptScenario.JSON_parse PromptScenario.ToNumber
    PromptScenario.content
  = Return PromptScenario.prompt
  /\ truthy (r_duration PromptScenario.prompt) = true.
Proof.
  assert (H : processVeoPromptResponse PromptScenario.JSON_parse
                PromptScenario.ToNumber PromptScenario.content
              = Return PromptScenario.prompt) by (vm_compute; reflexivity).
  split; [exact H |].
  destruct (proj1 (processVeoPromptResponse_cases PromptScenario.JSON_parse
                     PromptScenario.ToNumber PromptScenario.content)
              PromptScenario.prompt H)
    as (members & main & style & camera & light & chars & placement & Hd).
  apply Hd.
Defined.

(** An answer whose duration is an empty list and whose frame rate is the
    number 0: the list, which is truthy, is the duration of the prompt, and
    the frame rate is the default. *)
Example duration_need_not_be_a_text :
  exists prompt,
    processVeoPromptResponse PromptScenario.JSON_parse
      PromptScenario.ToNumber PromptScenario.odd_content
    = Return prompt
    /\ r_duration prompt = JArray []
    /\ r_aspectRatio prompt = JString (units "16:9")
    /\ r_fps prompt = JString (units "24").
Proof. eexists. vm_compute. repeat split. Qed.

Section Quality.

Variable cinematic : jsstring -> bool.
Variable realistic : jsstring -> bool.
Variable veoFriendly : jsstring -> bool.

Abbreviation quality :=
  (calculateVeoPromptQuality cinematic realistic veoFriendly).
Abbreviation criteria_of := (criteria cinematic realistic veoFriendly).

(** X24. The quality score is the sum of the points of the criteria that
    hold, out of 10, 10, 10, 8, 8, 9, 10, 15, 10, 5 and 5: none of the
    caps of the four parts or of the total ever cuts it. It lies between 0
    and 100, is 100 exactly when all eleven criteria hold and 0 exactly
    when none does. *)
Theorem quality_is_the_sum_of_points (prompt : VeoPrompt) :
  quality prompt = weighted (criteria_of prompt) weights
  /\ 0 <= quality prompt <= 100
  /\ (quality prompt = 100 <-> forallb (fun c => c) (criteria_of prompt) = true)
  /\ (quality prompt = 0 <-> existsb (fun c => c) (criteria_of prompt) = false).
Proof.
  unfold calculateVeoPromptQuality, evaluateMainPrompt,
    evaluateTechnicalSpecs, evaluateVisualElements, evaluateVeoOptimization,
    criteria, weights.
  generalize ((100 <=? length_of (mainPrompt prompt))
              && (length_of (mainPrompt prompt) <=? 400)) as c1.
  generalize (cinematic (mainPrompt prompt)) as c2.
  generalize (realistic (mainPrompt prompt)) as c3.
  generalize (20 <? length_of (cameraWork prompt)) as c4.
  generalize (10 <? length_of (lighting prompt)) as c5.
  generalize (20 <? length_of (characters prompt)) as c6.
  generalize (15 <? length_of (visualStyle prompt)) as c7.
  generalize (20 <? length_of (productPlacement prompt)) as c8.
  generalize (veoFriendly (mainPrompt prompt)) as c9.
  generalize (veoFriendly (visualStyle prompt)) as c10.
  generalize (0 <? Z.of_nat (length (optimizationTips prompt))) as c11.
  intros [] [] [] [] [] [] [] [] [] [] [];
    vm_compute; repeat split; intros; congruence.
Qed.

End Quality.

End PromptProofs.
